(** * Load-plan normalisation and delay classification

    A shallow embedding of the order-normalisation core of the load-plan
    tooling: [parse_loadplan.py] (cell classification, stage resolution,
    row normalisation), the dashboard's delay rules patched in by
    [create_v6_dashboard.py] (JavaScript [isDelayed] / [isWarning]) and
    the report generator's [is_delayed_record]
    ([scripts/generate_consolidated.py]); further the batch loops of
    both scripts, the statistics printed by [create_v6_dashboard.py]
    and the rows and counts of the report workbook.

    Conventions of the embedding.
    - Python [str] values are modelled as [string]; only the ASCII range
      is interpreted (white space, digits, letter case), which is what
      the spreadsheets' control columns hold.
    - Python [int] is [Z].  A Python [float] is an IEEE binary64 value,
      kept exactly as a dyadic number [m * 2^e]; [float(str)] performs
      the correctly rounded decimal-to-binary conversion.
    - Exceptions are explicit: a computation that may raise returns
      [res A]; the per-row [try/except] of [parse_factory_file] is an
      ordinary pattern match on that result. *)

From Stdlib Require Import ZArith List String Ascii Bool Lia.
From Stdlib Require Import DecimalString DecimalPos.
From Stdlib Require Import Sorted Permutation.
Import ListNotations.
Open Scope string_scope.
Open Scope Z_scope.

(** ** Python text primitives *)

Module PyText.

(** Characters removed by [str.strip()] in the ASCII range:
    TAB, LF, VT, FF, CR, FS, GS, RS, US and SPACE. *)
Definition is_space (c : ascii) : bool :=
  let n := nat_of_ascii c in
  ((9 <=? n)%nat && (n <=? 13)%nat) || ((28 <=? n)%nat && (n <=? 32)%nat).

Fixpoint lstrip (s : string) : string :=
  match s with
  | EmptyString => EmptyString
  | String c s' => if is_space c then lstrip s' else s
  end.

Fixpoint rstrip (s : string) : string :=
  match s with
  | EmptyString => EmptyString
  | String c s' =>
      let t := rstrip s' in
      if is_space c && (t =? "")%string then EmptyString else String c t
  end.

(** [s.strip()] *)
Definition strip (s : string) : string := rstrip (lstrip s).

Definition upper_char (c : ascii) : ascii :=
  let n := nat_of_ascii c in
  if (97 <=? n)%nat && (n <=? 122)%nat then ascii_of_nat (n - 32) else c.

(** [s.upper()] *)
Fixpoint upper (s : string) : string :=
  match s with
  | EmptyString => EmptyString
  | String c s' => String (upper_char c) (upper s')
  end.

(** [needle in hay] on strings. *)
Fixpoint contains (needle hay : string) : bool :=
  String.prefix needle hay ||
  match hay with
  | EmptyString => false
  | String _ hay' => contains needle hay'
  end.

(** [x in [a, b, ...]] on a list of strings. *)
Definition mem (x : string) (l : list string) : bool :=
  existsb (String.eqb x) l.

(** [any(keyword in s for keyword in kws)] *)
Definition any_in (kws : list string) (s : string) : bool :=
  existsb (fun k => contains k s) kws.

(** The regular-expression class [\d]. *)
Definition is_digit (c : ascii) : bool :=
  let n := nat_of_ascii c in (48 <=? n)%nat && (n <=? 57)%nat.

Fixpoint all_digits (s : string) : bool :=
  match s with
  | EmptyString => true
  | String c s' => is_digit c && all_digits s'
  end.

(** [\d{lo,hi}] matched against a whole field. *)
Definition digits_between (lo hi : nat) (s : string) : bool :=
  all_digits s && (lo <=? String.length s)%nat && (String.length s <=? hi)%nat.

Definition digit_val (c : ascii) : Z := Z.of_nat (nat_of_ascii c) - 48.

Fixpoint digits_acc (acc : Z) (s : string) : Z :=
  match s with
  | EmptyString => acc
  | String c s' => digits_acc (10 * acc + digit_val c) s'
  end.

(** [int(s)] for a string of decimal digits. *)
Definition int_of_digits (s : string) : Z := digits_acc 0 s.

(** The fields of [s] between occurrences of [sep] ([s.split(sep)]). *)
Fixpoint split_on (sep : ascii) (s : string) : list string :=
  match s with
  | EmptyString => [EmptyString]
  | String c s' =>
      if Ascii.eqb c sep then EmptyString :: split_on sep s'
      else match split_on sep s' with
           | [] => [String c EmptyString]
           | f :: fs => String c f :: fs
           end
  end.

(** The longest prefix of digits, and what follows it. *)
Fixpoint take_digits (s : string) : string * string :=
  match s with
  | EmptyString => (EmptyString, EmptyString)
  | String c s' =>
      if is_digit c then let (d, r) := take_digits s' in (String c d, r)
      else (EmptyString, s)
  end.

(** [str(n)] for an [int]. *)
Definition str_of_int (n : Z) : string := NilZero.string_of_int (Z.to_int n).

(** [f'{n:02d}'] and a four-column variant (used for [%Y]). *)
Definition zero_pad (width : nat) (n : Z) : string :=
  let s := str_of_int n in
  (fix pad (k : nat) : string :=
     match k with
     | O => s
     | S k' => String "0" (pad k')
     end) (width - String.length s)%nat.

Definition fmt02d (n : Z) : string := zero_pad 2 n.

(** JavaScript [s.replace(/\./g, '-')]. *)
Fixpoint replace_dots (s : string) : string :=
  match s with
  | EmptyString => EmptyString
  | String c s' =>
      String (if Ascii.eqb c "."%char then "-"%char else c) (replace_dots s')
  end.

End PyText.

(** ** Python [float(str)] and [int(float)] *)

Module PyFloat.
Import PyText.

(** A binary64 value: not-a-number, an infinity, or the finite number
    [m * 2^e].  The sign of zero is not represented: neither [int()] nor
    the comparison [> 0] observes it. *)
Inductive pyfloat : Type :=
| FNan
| FInf (negative : bool)
| FFin (m e : Z).

(** Python exceptions that the modelled code can raise. *)
Inductive exn : Type := ValueError | OverflowError | IndexError | TypeError.

Inductive res (A : Type) : Type :=
| Ok (a : A)
| Raise (x : exn).
Arguments Ok {A} a.
Arguments Raise {A} x.

(** CPython accepts [_] between two digits of a numeric literal and
    nowhere else; the underscores are dropped before conversion. *)
Fixpoint drop_underscores (prev : ascii) (s : string) : option string :=
  match s with
  | EmptyString => if Ascii.eqb prev "_"%char then None else Some EmptyString
  | String c s' =>
      if Ascii.eqb c "_"%char then
        if is_digit prev then drop_underscores c s' else None
      else if Ascii.eqb prev "_"%char && negb (is_digit c) then None
      else option_map (String c) (drop_underscores c s')
  end.

(** An unsigned decimal literal [digits [. digits] [(e|E) [+|-] digits]]
    with at least one digit in the mantissa; the result [(d, x)] stands
    for [d * 10^x]. *)
Definition parse_decimal (s : string) : option (Z * Z) :=
  let (ip, r1) := take_digits s in
  let (fp, r2) :=
    match r1 with
    | String "."%char r => take_digits r
    | _ => (EmptyString, r1)
    end in
  let d := int_of_digits (ip ++ fp) in
  let flen := Z.of_nat (String.length fp) in
  if ((ip ++ fp) =? "")%string then None
  else match r2 with
       | EmptyString => Some (d, - flen)
       | String c r3 =>
           if Ascii.eqb c "e"%char || Ascii.eqb c "E"%char then
             let (sgn, r4) :=
               match r3 with
               | String "+"%char r => (1, r)
               | String "-"%char r => (-1, r)
               | _ => (1, r3)
               end in
             let (ep, r5) := take_digits r4 in
             if (ep =? "")%string || negb (r5 =? "")%string then None
             else Some (d, sgn * int_of_digits ep - flen)
           else None
       end.

Definition round_half_even (num den : Z) : Z :=
  let q := num / den in
  match 2 * (num mod den) ?= den with
  | Lt => q
  | Gt => q + 1
  | Eq => if Z.even q then q else q + 1
  end.

(** The binary64 nearest to [num / den] (ties to even), for [num >= 0]
    and [den > 0], with the sign [neg] applied; magnitudes beyond the
    largest finite double become infinities, tiny ones become
    subnormal or zero. *)
Definition binary64 (neg : bool) (num den : Z) : pyfloat :=
  if num =? 0 then FFin 0 0
  else
    let scaled (e : Z) : Z * Z :=
      if 0 <=? e then (num, den * 2 ^ e) else (num * 2 ^ (- e), den) in
    let e1 := Z.log2 num - Z.log2 den - 52 in
    let e2 := let (n1, d1) := scaled e1 in
              if 2 ^ 52 <=? n1 / d1 then e1 else e1 - 1 in
    let e := Z.max e2 (-1074) in
    let (n, d) := scaled e in
    let m := round_half_even n d in
    if (971 <? e) || ((e =? 971) && (2 ^ 53 <=? m)) then FInf neg
    else FFin (if neg then - m else m) e.

(** [float(s)] for a string [s]; [None] is [ValueError]. *)
Definition py_float (s : string) : option pyfloat :=
  match drop_underscores "000"%char (strip s) with
  | None => None
  | Some t =>
      let (neg, body) :=
        match t with
        | String "-"%char r => (true, r)
        | String "+"%char r => (false, r)
        | _ => (false, t)
        end in
      let u := upper body in
      if (u =? "INF")%string || (u =? "INFINITY")%string then Some (FInf neg)
      else if (u =? "NAN")%string then Some FNan
      else match parse_decimal body with
           | None => None
           | Some (d, x) =>
               Some (if 0 <=? x then binary64 neg (d * 10 ^ x) 1
                     else binary64 neg d (10 ^ (- x)))
           end
  end.

(** [int(x)] for a float: truncation toward zero; raises on NaN and
    on infinities. *)
Definition py_int (x : pyfloat) : res Z :=
  match x with
  | FNan => Raise ValueError
  | FInf _ => Raise OverflowError
  | FFin m e => Ok (if 0 <=? e then m * 2 ^ e else Z.quot m (2 ^ (- e)))
  end.

(** [x > 0] for a float. *)
Definition float_gt0 (x : pyfloat) : bool :=
  match x with
  | FNan => false
  | FInf neg => negb neg
  | FFin m _ => 0 <? m
  end.

(** [int(float(s))]: [ValueError] when [s] is no float literal or is a
    NaN, [OverflowError] when it denotes an infinity. *)
Definition int_float (s : string) : res Z :=
  match py_float s with
  | None => Raise ValueError
  | Some x => py_int x
  end.

(** The built-in [round(x)] on a finite float: the nearest integer,
    ties to even. *)
Definition py_round (x : pyfloat) : res Z :=
  match x with
  | FNan => Raise ValueError
  | FInf _ => Raise OverflowError
  | FFin m e =>
      Ok (if 0 <=? e then m * 2 ^ e
          else Z.sgn m * round_half_even (Z.abs m) (2 ^ (- e)))
  end.

End PyFloat.

(** ** Python [datetime.strptime(s, '%Y-%m-%d')] and [dict] *)

Module PyDatetime.
Import PyText PyFloat.

(** [datetime._is_leap] and [datetime._days_in_month]. *)
Definition _is_leap (year : Z) : bool :=
  (year mod 4 =? 0) && (negb (year mod 100 =? 0) || (year mod 400 =? 0)).

Definition _DAYS_IN_MONTH : list Z :=
  [-1; 31; 28; 31; 30; 31; 30; 31; 31; 30; 31; 30; 31].

Definition _days_in_month (year month : Z) : Z :=
  if (month =? 2) && _is_leap year then 29
  else nth (Z.to_nat month) _DAYS_IN_MONTH 0.

(** The texts matched by the directive [%m], i.e. by the pattern
    [1[0-2]|0[1-9]|[1-9]] when a dash follows. *)
Definition month_texts : list string :=
  ["10"; "11"; "12";
   "01"; "02"; "03"; "04"; "05"; "06"; "07"; "08"; "09";
   "1"; "2"; "3"; "4"; "5"; "6"; "7"; "8"; "9"].

(** The texts matched by [%d], i.e. by
    [3[0-1]|[1-2]\d|0[1-9]|[1-9]| [1-9]] when the input ends there. *)
Definition day_texts : list string :=
  ["30"; "31";
   "10"; "11"; "12"; "13"; "14"; "15"; "16"; "17"; "18"; "19";
   "20"; "21"; "22"; "23"; "24"; "25"; "26"; "27"; "28"; "29";
   "01"; "02"; "03"; "04"; "05"; "06"; "07"; "08"; "09";
   "1"; "2"; "3"; "4"; "5"; "6"; "7"; "8"; "9";
   " 1"; " 2"; " 3"; " 4"; " 5"; " 6"; " 7"; " 8"; " 9"].

(** A [datetime] at midnight, by its year, month and day. *)
Definition date : Type := (Z * Z * Z)%type.

(** [datetime.strptime(s, '%Y-%m-%d')]: the text must be four digits, a
    month and a day joined by dashes, with nothing left over, and must
    name a day of the calendar from year 1 on; otherwise [ValueError]. *)
Definition strptime_ymd (s : string) : res date :=
  match split_on "-" s with
  | [ys; ms; ds] =>
      if digits_between 4 4 ys && mem ms month_texts && mem ds day_texts then
        let year := int_of_digits ys in
        let month := int_of_digits ms in
        let day := int_of_digits (strip ds) in
        if (1 <=? year) && (day <=? _days_in_month year month)
        then Ok (year, month, day)
        else Raise ValueError
      else Raise ValueError
  | _ => Raise ValueError
  end.

(** [a > b] on two such values. *)
Definition date_gt (a b : date) : bool :=
  let '(y1, m1, d1) := a in
  let '(y2, m2, d2) := b in
  (y2 <? y1) || ((y2 =? y1) && ((m2 <? m1) || ((m2 =? m1) && (d2 <? d1)))).

End PyDatetime.

(** A [dict] with [str] keys, in insertion order. *)
Module PyDict.

Definition dict (V : Type) : Type := list (string * V).

(** [d.get(k, default)] *)
Fixpoint get {V : Type} (d : dict V) (k : string) (default : V) : V :=
  match d with
  | [] => default
  | (k', v) :: d' => if (k' =? k)%string then v else get d' k default
  end.

(** [k in d] *)
Fixpoint has_key {V : Type} (d : dict V) (k : string) : bool :=
  match d with
  | [] => false
  | (k', _) :: d' => (k' =? k)%string || has_key d' k
  end.

(** [d[k] = v]: an existing key keeps its place, a new key goes last. *)
Fixpoint set {V : Type} (d : dict V) (k : string) (v : V) : dict V :=
  match d with
  | [] => [(k, v)]
  | (k', v') :: d' =>
      if (k' =? k)%string then (k', v) :: d' else (k', v') :: set d' k v
  end.

(** [sorted(d.items(), key=key)]: a stable sort, smallest key first. *)
Fixpoint insert_by {A : Type} (key : A -> Z) (x : A) (l : list A) : list A :=
  match l with
  | [] => [x]
  | y :: l' => if key x <? key y then x :: l else y :: insert_by key x l'
  end.

Definition sorted_by {A : Type} (key : A -> Z) (l : list A) : list A :=
  fold_left (fun acc x => insert_by key x acc) l [].

End PyDict.

(** ** Spreadsheet cells as delivered by pandas *)

Module Pandas.
Import PyText.

(** A cell of the data frame.  The parser looks at a cell only through
    [pd.isna], [str()], its truth value and [isinstance(_, pd.Timestamp)];
    [CObj] stands for any other object (a [float], a [bool], a
    [datetime.time], ...) by its truth value and its [str()]. *)
Inductive cell : Type :=
| CNone
| CNaN
| CStr (s : string)
| CInt (n : Z)
| CTimestamp (year month day hour minute second : nat)
| CObj (truth : bool) (repr : string).

(** [pd.isna(v) or v is None] *)
Definition isna (v : cell) : bool :=
  match v with
  | CNone | CNaN => true
  | _ => false
  end.

Definition notna (v : cell) : bool := negb (isna v).

(** [value.strftime('%Y-%m-%d')] *)
Definition strftime_ymd (year month day : nat) : string :=
  zero_pad 4 (Z.of_nat year) ++ "-" ++ fmt02d (Z.of_nat month) ++ "-"
  ++ fmt02d (Z.of_nat day).

(** [str(v)] *)
Definition py_str (v : cell) : string :=
  match v with
  | CNone => "None"
  | CNaN => "nan"
  | CStr s => s
  | CInt n => str_of_int n
  | CTimestamp y mo d h mi s =>
      strftime_ymd y mo d ++ " " ++ fmt02d (Z.of_nat h) ++ ":"
      ++ fmt02d (Z.of_nat mi) ++ ":" ++ fmt02d (Z.of_nat s)
  | CObj _ r => r
  end.

(** [bool(v)] *)
Definition truthy (v : cell) : bool :=
  match v with
  | CNone => false
  | CNaN => true
  | CStr s => negb (s =? "")%string
  | CInt n => negb (n =? 0)
  | CTimestamp _ _ _ _ _ _ => true
  | CObj b _ => b
  end.

(** [isinstance(v, pd.Timestamp)] *)
Definition is_timestamp (v : cell) : bool :=
  match v with
  | CTimestamp _ _ _ _ _ _ => true
  | _ => false
  end.

(** A row of the data frame ([pd.Series] indexed by position). *)
Definition row : Type := list cell.

(** [row.iloc[i] if i < len(row) else None] *)
Definition iloc_or_none (r : row) (i : nat) : cell :=
  match nth_error r i with
  | Some v => v
  | None => CNone
  end.

End Pandas.

(** ** [parse_loadplan.py] *)

Module parse_loadplan.
Import PyText PyFloat Pandas.

(** Column positions of one factory's sheet (0-indexed). *)
Record columns : Type := {
  col_unit : nat; col_season : nat; col_prod_lt : nat; col_coop : nat;
  col_crd : nat; col_sdd_original : nat; col_sdd_current : nat;
  col_code04 : nat; col_model : nat; col_article : nat; col_color : nat;
  col_gd : nat; col_sales_order : nat; col_destination : nat;
  col_event : nat; col_quantity : nat; col_mrp_qty : nat;
  col_mrp_date : nat; col_setp : nat; col_intertek : nat;
  col_osc_material : nat; col_main_material : nat;
  col_outsourcing_out_bal : nat; col_outsourcing_in_bal : nat;
  col_osc_vendor : nat; col_s_cut_bal : nat; col_pre_sew_bal : nat;
  col_sew_input_bal : nat; col_sew_prod_scan : nat; col_sew_bal : nat;
  col_outsole_vendor : nat; col_s_fit_bal : nat; col_ass_bal : nat;
  col_wh_return_fac : nat; col_wh_in_bal : nat; col_wh_out_bal : nat;
  col_pkg_type : nat; col_inspection : nat
}.

Definition COLUMNS_A : columns := {|
  col_unit := 0; col_season := 1; col_prod_lt := 3; col_coop := 4;
  col_crd := 5; col_sdd_original := 6; col_sdd_current := 7;
  col_code04 := 8; col_model := 9; col_article := 10; col_color := 11;
  col_gd := 12; col_sales_order := 13; col_destination := 14;
  col_event := 15; col_quantity := 17; col_mrp_qty := 18;
  col_mrp_date := 19; col_setp := 20; col_intertek := 25;
  col_osc_material := 26; col_main_material := 27;
  col_outsourcing_out_bal := 37; col_outsourcing_in_bal := 38;
  col_osc_vendor := 39; col_s_cut_bal := 40; col_pre_sew_bal := 41;
  col_sew_input_bal := 42; col_sew_prod_scan := 43; col_sew_bal := 44;
  col_outsole_vendor := 48; col_s_fit_bal := 50; col_ass_bal := 51;
  col_wh_return_fac := 53; col_wh_in_bal := 54; col_wh_out_bal := 55;
  col_pkg_type := 56; col_inspection := 61
|}%nat.

Definition COLUMNS_B : columns := {|
  col_unit := 0; col_season := 1; col_prod_lt := 3; col_coop := 4;
  col_crd := 5; col_sdd_original := 6; col_sdd_current := 7;
  col_code04 := 8; col_model := 9; col_article := 10; col_color := 11;
  col_gd := 12; col_sales_order := 13; col_destination := 14;
  col_event := 15; col_quantity := 17; col_mrp_qty := 18;
  col_mrp_date := 19; col_setp := 20; col_intertek := 24;
  col_osc_material := 26; col_main_material := 27;
  col_outsourcing_out_bal := 37; col_outsourcing_in_bal := 38;
  col_osc_vendor := 39; col_s_cut_bal := 40; col_pre_sew_bal := 41;
  col_sew_input_bal := 42; col_sew_prod_scan := 43; col_sew_bal := 44;
  col_outsole_vendor := 47; col_s_fit_bal := 49; col_ass_bal := 50;
  col_wh_return_fac := 52; col_wh_in_bal := 53; col_wh_out_bal := 54;
  col_pkg_type := 55; col_inspection := 60
|}%nat.

Definition COLUMNS_C : columns := {|
  col_unit := 0; col_season := 1; col_prod_lt := 3; col_coop := 4;
  col_crd := 6; col_sdd_original := 7; col_sdd_current := 8;
  col_code04 := 9; col_model := 11; col_article := 12; col_color := 14;
  col_gd := 15; col_sales_order := 16; col_destination := 17;
  col_intertek := 18; col_event := 19; col_quantity := 21;
  col_mrp_qty := 22; col_mrp_date := 23; col_setp := 24;
  col_osc_material := 40; col_main_material := 41;
  col_outsourcing_out_bal := 50; col_outsourcing_in_bal := 51;
  col_osc_vendor := 52; col_s_cut_bal := 53; col_pre_sew_bal := 54;
  col_sew_input_bal := 55; col_sew_prod_scan := 56; col_sew_bal := 57;
  col_outsole_vendor := 61; col_s_fit_bal := 64; col_ass_bal := 65;
  col_wh_return_fac := 67; col_wh_in_bal := 68; col_wh_out_bal := 69;
  col_pkg_type := 70; col_inspection := 75
|}%nat.

Definition COLUMNS_D : columns := {|
  col_unit := 0; col_season := 1; col_prod_lt := 2; col_coop := 3;
  col_crd := 5; col_sdd_original := 6; col_sdd_current := 7;
  col_code04 := 8; col_model := 10; col_article := 11; col_color := 13;
  col_gd := 14; col_sales_order := 15; col_destination := 16;
  col_intertek := 17; col_event := 18; col_quantity := 20;
  col_mrp_qty := 21; col_mrp_date := 22; col_setp := 23;
  col_osc_material := 39; col_main_material := 40;
  col_outsourcing_out_bal := 49; col_outsourcing_in_bal := 50;
  col_osc_vendor := 51; col_s_cut_bal := 52; col_pre_sew_bal := 53;
  col_sew_input_bal := 54; col_sew_prod_scan := 55; col_sew_bal := 56;
  col_outsole_vendor := 60; col_s_fit_bal := 62; col_ass_bal := 63;
  col_wh_return_fac := 65; col_wh_in_bal := 66; col_wh_out_bal := 67;
  col_pkg_type := 68; col_inspection := 73
|}%nat.

(** The tokens treated as "no data" by the cell tests. *)
Definition special_values : list string :=
  ["00:00:00"; "#N/A"; "nan"; "NaN"; "None"].

(** [re.match(r'^\d{1,2}<sep>\d{1,2}$', s)]: the two groups. *)
Definition match_md (sep : ascii) (s : string) : option (string * string) :=
  match split_on sep s with
  | [a; b] =>
      if digits_between 1 2 a && digits_between 1 2 b then Some (a, b)
      else None
  | _ => None
  end.

(** [re.match(r'^\d{4}<sep>\d{1,2}<sep>\d{1,2}$', s)]: the three groups. *)
Definition match_ymd (sep : ascii) (s : string)
  : option (string * string * string) :=
  match split_on sep s with
  | [y; m; d] =>
      if digits_between 4 4 y && digits_between 1 2 m && digits_between 1 2 d
      then Some (y, m, d) else None
  | _ => None
  end.

Definition is_some {A : Type} (o : option A) : bool :=
  match o with Some _ => true | None => false end.

(** The four [date_patterns] of [is_date_format], in order. *)
Definition date_patterns : list (string -> bool) :=
  [ fun s => is_some (match_md "/" s);
    fun s => is_some (match_ymd "." s);
    fun s => is_some (match_ymd "-" s);
    fun s => is_some (match_md "-" s) ].

Definition is_date_format (value : cell) : bool :=
  if isna value then false
  else
    let val_str := strip (py_str value) in
    if (val_str =? "")%string || mem val_str special_values then false
    else if any_in ["INHOUSE"; "HAPPO"; "OK"; "RACH"] (upper val_str) then false
    else if existsb (fun p => p val_str) date_patterns then true
    else if is_timestamp value then true
    else false.

Definition is_numeric (value : cell) : bool :=
  if isna value then false
  else
    let val_str := strip (py_str value) in
    if (val_str =? "")%string || mem val_str special_values then false
    else if any_in ["INHOUSE"; "HAPPO"; "OK"; "RACH"; "/"] (upper val_str)
    then false
    else match py_float val_str with
         | Some _ => true
         | None => false
         end.

Definition default_year : Z := 2025.

(** [parse_date_to_string(value, default_year)]; [None] is Python's
    [None]. *)
Definition parse_date_to_string (value : cell) (default_year : Z)
  : option string :=
  if isna value then None
  else
    let val_str := strip (py_str value) in
    match value with
    | CTimestamp y mo d _ _ _ => Some (strftime_ymd y mo d)
    | _ =>
      match match_md "/" val_str with
      | Some (g1, g2) =>
          let month := int_of_digits g1 in
          let day := int_of_digits g2 in
          let year := if 10 <=? month then default_year else default_year + 1 in
          Some (str_of_int year ++ "-" ++ fmt02d month ++ "-" ++ fmt02d day)
      | None =>
        match match_ymd "." val_str with
        | Some (g1, g2, g3) =>
            Some (g1 ++ "-" ++ fmt02d (int_of_digits g2) ++ "-"
                  ++ fmt02d (int_of_digits g3))
        | None =>
          match match_ymd "-" val_str with
          | Some (g1, g2, g3) =>
              Some (g1 ++ "-" ++ fmt02d (int_of_digits g2) ++ "-"
                    ++ fmt02d (int_of_digits g3))
          | None => Some val_str
          end
        end
      end
    end.

(** The per-stage dictionary returned by [parse_bal_column]; the keys
    ['note'] and ['raw_value'] exist on some branches only. *)
Record stage : Type := {
  completed : Z;
  pending : Z;
  status : string;
  expected_date : option string;
  note : option string;
  raw_value : option string
}.

(** [parse_bal_column(value, quantity)]; [quantity = None] stands for a
    missing (NaN) quantity.  The only exception that escapes is the
    [OverflowError] of [int(float(...))] on an infinity: the handler
    around the numeric branch catches [ValueError] and [TypeError]. *)
Definition parse_bal_column (value : cell) (quantity : option Z) : res stage :=
  let qty := match quantity with Some q => q | None => 0 end in
  let absent := {| completed := 0; pending := qty; status := "pending";
                   expected_date := None; note := None; raw_value := None |} in
  if isna value then Ok absent
  else
    let val_str := strip (py_str value) in
    if (val_str =? "")%string || mem val_str special_values then Ok absent
    else if contains "INHOUSE" (upper val_str) then
      Ok {| completed := qty; pending := 0; status := "completed";
            expected_date := None; note := Some "INHOUSE"; raw_value := None |}
    else if is_date_format value then
      Ok {| completed := qty; pending := 0; status := "completed";
            expected_date := parse_date_to_string value default_year;
            note := None; raw_value := None |}
    else
      let unknown := {| completed := 0; pending := qty; status := "unknown";
                        expected_date := None; note := None;
                        raw_value := Some val_str |} in
      if is_numeric value then
        match int_float val_str with
        | Ok remaining =>
            Ok {| completed := Z.max 0 (qty - remaining);
                  pending := remaining;
                  status := if remaining =? 0 then "completed"
                            else if qty <=? remaining then "pending"
                            else "partial";
                  expected_date := None; note := None; raw_value := None |}
        | Raise ValueError | Raise TypeError => Ok unknown
        | Raise x => Raise x
        end
      else Ok unknown.

(** [parse_sdd(original, current)]: the loop over [[current, original]]. *)
Fixpoint parse_sdd_loop (vals : list cell) : option string :=
  match vals with
  | [] => None
  | val :: rest =>
      if isna val then parse_sdd_loop rest
      else
        let val_str := strip (py_str val) in
        if negb (val_str =? "")%string
           && negb (mem val_str ["00:00:00"; "#N/A"; "nan"]) then
          if is_date_format val then parse_date_to_string val default_year
          else Some val_str
        else parse_sdd_loop rest
  end.

Definition parse_sdd (original current : cell) : option string :=
  parse_sdd_loop [current; original].

(** [get_year_month(date_str)]: [re.match(r'^(\d{4})-(\d{2})', ...)]. *)
Definition get_year_month (date_str : option string) : option string :=
  match date_str with
  | None => None
  | Some s =>
      if (s =? "")%string then None
      else
        let y := String.substring 0 4 s in
        let dash := String.substring 4 1 s in
        let m := String.substring 5 2 s in
        if digits_between 4 4 y && (dash =? "-")%string && digits_between 2 2 m
        then Some (y ++ "-" ++ m) else None
  end.

Definition header_keywords : list string :=
  ["Q.ty"; "MRP.Qty"; "Dest"; "Season"; "Model"; "Article"; "Color"; "Unit";
   "UNIT"; "Qty"; "SDD"; "CRD"; "No."; "NO."].

Definition is_header_row (r : row) (cols : columns) : bool :=
  let check_indices :=
    [col_quantity cols; col_model cols; col_destination cols] in
  existsb (fun idx =>
             match nth_error r idx with
             | Some v => mem (strip (py_str v)) header_keywords
             | None => false
             end) check_indices.

Definition invalid_values : list string :=
  ["Q.ty"; "MRP.Qty"; "Qty"; "qty"; "nan"; "NaN"; "None"; "";
   "NY"; "NO"; "N/A"; "#N/A"; "TBD"; "-"; "Intertek"].

Definition is_valid_quantity (value : cell) : bool :=
  if isna value then false
  else
    let val_str := strip (py_str value) in
    if mem val_str invalid_values then false
    else match py_float val_str with
         | Some num => float_gt0 num
         | None => false
         end.

(** *** Order records *)

Record production_t : Type := {
  s_cut : stage; pre_sew : stage; sew_input : stage; sew_bal : stage;
  s_fit : stage; ass_bal : stage; wh_in : stage; wh_out : stage
}.

Record remaining_t : Type := {
  osc : Z; sew : Z; ass : Z; whIn : Z; whOut : Z
}.

(** The dictionary appended to [records] for one data row.  ['crd'] is
    typed as Python computes it (the result of [parse_date_to_string] can
    be [None] in principle). *)
Record order : Type := {
  factory : string;
  unit_ : string;
  season : string;
  model : string;
  article : string;
  color : string;
  destination : string;
  quantity : Z;
  poNumber : string;
  crd : option string;
  crdYearMonth : string;
  sddValue : string;
  sddYearMonth : string;
  code04 : option string;
  outsoleVendor : string;
  mrpQty : option Z;
  mrpDate : option string;
  whReturnFac : Z;
  inspection : option string;
  aql : bool;
  production : production_t;
  oscRemaining : Z;
  remaining : remaining_t
}.

(** *** The body of the row loop: state and control flow

    [quality_stats] is mutated while a row is processed and keeps its
    updates when the row later raises; [continue] and exceptions leave
    the body early. *)

Record quality_stats : Type := {
  empty_destinations : Z;
  invalid_dates : Z;
  auto_corrected : Z
}.

Inductive flow (A : Type) : Type :=
| Next (a : A)
| Continue (counted : bool)
| Except (x : exn).
Arguments Next {A} a.
Arguments Continue {A} counted.
Arguments Except {A} x.

Definition M (A : Type) : Type := quality_stats -> flow A * quality_stats.

Definition ret {A : Type} (a : A) : M A := fun qs => (Next a, qs).

Definition bind {A B : Type} (m : M A) (k : A -> M B) : M B :=
  fun qs =>
    match m qs with
    | (Next a, qs') => k a qs'
    | (Continue c, qs') => (Continue c, qs')
    | (Except x, qs') => (Except x, qs')
    end.

Definition continue_ {A : Type} (counted : bool) : M A :=
  fun qs => (Continue counted, qs).

Definition lift {A : Type} (r : res A) : M A :=
  fun qs =>
    match r with
    | Ok a => (Next a, qs)
    | Raise x => (Except x, qs)
    end.

Declare Scope row_scope.
Delimit Scope row_scope with row.
Notation "x <- m ;; k" := (bind m (fun x => k))
  (at level 61, m at next level, right associativity) : row_scope.
Notation "m ;;; k" := (bind m (fun _ => k))
  (at level 61, right associativity) : row_scope.

Definition count_empty_destination : M unit :=
  fun qs =>
    (Next tt, {| empty_destinations := empty_destinations qs + 1;
                 invalid_dates := invalid_dates qs;
                 auto_corrected := auto_corrected qs + 1 |}).

Definition count_invalid_date : M unit :=
  fun qs =>
    (Next tt, {| empty_destinations := empty_destinations qs;
                 invalid_dates := invalid_dates qs + 1;
                 auto_corrected := auto_corrected qs |}).

(** [row.iloc[i]] without a bounds guard. *)
Definition iloc (r : row) (i : nat) : res cell :=
  match nth_error r i with
  | Some v => Ok v
  | None => Raise IndexError
  end.

(** [str(v).strip() if pd.notna(v) else ''] *)
Definition text_of (v : cell) : string :=
  if notna v then strip (py_str v) else "".

(** [str(row.iloc[i]).strip() if pd.notna(row.iloc[i]) else ''] *)
Definition text_at (r : row) (i : nat) : res string :=
  match iloc r i with
  | Ok v => Ok (text_of v)
  | Raise x => Raise x
  end.

(** [int(float(v)) if pd.notna(v) and is_numeric(v) else dflt] *)
Definition int_if_numeric {A : Type} (inj : Z -> A) (dflt : A) (v : cell)
  : res A :=
  if notna v && is_numeric v then
    match int_float (py_str v) with
    | Ok n => Ok (inj n)
    | Raise x => Raise x
    end
  else Ok dflt.

(** [parse_date_to_string(v) if is_date_format(v) else None] *)
Definition date_if_date (v : cell) : option string :=
  if is_date_format v then parse_date_to_string v default_year else None.

(** The filter applied to both SDD cells: a truthy cell whose text is
    ['00:00:00'] is counted and replaced by [None]. *)
Definition drop_zero_time (v : cell) : M cell :=
  if truthy v && (strip (py_str v) =? "00:00:00")%string
  then (count_invalid_date ;;; ret CNone)%row
  else ret v.

(** One BAL column of the [production] dictionary. *)
Definition bal_stage (r : row) (col_idx : nat) (qty : Z) : res stage :=
  match nth_error r col_idx with
  | Some bal_value => parse_bal_column bal_value (Some qty)
  | None => Ok {| completed := 0; pending := qty; status := "pending";
                  expected_date := None; note := None; raw_value := None |}
  end.

Definition or_empty (o : option string) : string :=
  match o with
  | Some s => s
  | None => ""
  end.

Definition row_body (fac : string) (cols : columns) (r : row) : M order :=
  (if is_header_row r cols then continue_ true
   else
     let quantity_v := iloc_or_none r (col_quantity cols) in
     if negb (is_valid_quantity quantity_v) then continue_ false
     else
       qty <- lift (int_float (strip (py_str quantity_v))) ;;
       let unit_val := iloc_or_none r (col_unit cols) in
       let model_val := iloc_or_none r (col_model cols) in
       let unit_str := text_of unit_val in
       let model_str := text_of model_val in
       if (unit_str =? "")%string && (model_str =? "")%string
       then continue_ true
       else
         let dest_raw := iloc_or_none r (col_destination cols) in
         let dest_str0 := text_of dest_raw in
         dest_str <-
           (if (dest_str0 =? "")%string || mem dest_str0 ["nan"; "None"; "#N/A"]
            then count_empty_destination ;;; ret "Unknown"
            else ret dest_str0) ;;
         f_unit <- lift (text_at r (col_unit cols)) ;;
         f_season <- lift (text_at r (col_season cols)) ;;
         f_model <- lift (text_at r (col_model cols)) ;;
         f_article <- lift (text_at r (col_article cols)) ;;
         f_color <- lift (text_at r (col_color cols)) ;;
         f_po <- lift (text_at r (col_setp cols)) ;;
         let crd_val := iloc_or_none r (col_crd cols) in
         f_crd <-
           (if truthy crd_val && (strip (py_str crd_val) =? "00:00:00")%string
            then count_invalid_date ;;; ret (Some "")
            else ret (if is_date_format crd_val
                      then parse_date_to_string crd_val default_year
                      else Some (text_of crd_val))) ;;
         sdd_curr <- drop_zero_time (iloc_or_none r (col_sdd_current cols)) ;;
         sdd_orig <- drop_zero_time (iloc_or_none r (col_sdd_original cols)) ;;
         let f_sdd := or_empty (parse_sdd sdd_orig sdd_curr) in
         let code04_v := iloc_or_none r (col_code04 cols) in
         let f_code04 :=
           if notna code04_v
              && negb (mem (strip (py_str code04_v)) ["nan"; "-"; ""])
           then Some (strip (py_str code04_v)) else None in
         let f_outsole := text_of (iloc_or_none r (col_outsole_vendor cols)) in
         f_mrp_qty <-
           lift (int_if_numeric Some None (iloc_or_none r (col_mrp_qty cols))) ;;
         let f_mrp_date := date_if_date (iloc_or_none r (col_mrp_date cols)) in
         f_wh_return <-
           lift (int_if_numeric (fun n => n) 0
                   (iloc_or_none r (col_wh_return_fac cols))) ;;
         let f_inspection :=
           date_if_date (iloc_or_none r (col_inspection cols)) in
         let intertek_val := iloc_or_none r (col_intertek cols) in
         let intertek_str :=
           if notna intertek_val then upper (strip (py_str intertek_val))
           else "" in
         let f_aql := mem intertek_str ["YES"; "Y"; "OK"; "1"; "TRUE"; "AQL"] in
         p_s_cut <- lift (bal_stage r (col_s_cut_bal cols) qty) ;;
         p_pre_sew <- lift (bal_stage r (col_pre_sew_bal cols) qty) ;;
         p_sew_input <- lift (bal_stage r (col_sew_input_bal cols) qty) ;;
         p_sew_bal <- lift (bal_stage r (col_sew_bal cols) qty) ;;
         p_s_fit <- lift (bal_stage r (col_s_fit_bal cols) qty) ;;
         p_ass_bal <- lift (bal_stage r (col_ass_bal cols) qty) ;;
         p_wh_in <- lift (bal_stage r (col_wh_in_bal cols) qty) ;;
         p_wh_out <- lift (bal_stage r (col_wh_out_bal cols) qty) ;;
         osc_remaining <-
           lift (parse_bal_column
                   (iloc_or_none r (col_outsourcing_in_bal cols)) (Some qty)) ;;
         ret {| factory := fac;
                unit_ := f_unit; season := f_season; model := f_model;
                article := f_article; color := f_color;
                destination := dest_str;
                quantity := qty;
                poNumber := f_po;
                crd := f_crd;
                crdYearMonth := or_empty (get_year_month f_crd);
                sddValue := f_sdd;
                sddYearMonth := or_empty (get_year_month (Some f_sdd));
                code04 := f_code04;
                outsoleVendor := f_outsole;
                mrpQty := f_mrp_qty;
                mrpDate := f_mrp_date;
                whReturnFac := f_wh_return;
                inspection := f_inspection;
                aql := f_aql;
                production :=
                  {| s_cut := p_s_cut; pre_sew := p_pre_sew;
                     sew_input := p_sew_input; sew_bal := p_sew_bal;
                     s_fit := p_s_fit; ass_bal := p_ass_bal;
                     wh_in := p_wh_in; wh_out := p_wh_out |};
                oscRemaining := pending osc_remaining;
                remaining :=
                  {| osc := pending osc_remaining;
                     sew := pending p_sew_bal;
                     ass := pending p_ass_bal;
                     whIn := pending p_wh_in;
                     whOut := pending p_wh_out |} |})%row.

(** *** The row loop of [parse_factory_file] *)

Record parse_state : Type := {
  records : list order;
  skipped_count : Z;
  error_count : Z;
  stats : quality_stats
}.

Definition initial_state : parse_state :=
  {| records := []; skipped_count := 0; error_count := 0;
     stats := {| empty_destinations := 0; invalid_dates := 0;
                 auto_corrected := 0 |} |}.

(** One iteration: [try: <row_body> except Exception: error_count += 1]. *)
Definition row_step (fac : string) (cols : columns)
  (st : parse_state) (r : row) : parse_state :=
  match row_body fac cols r (stats st) with
  | (Next record, qs) =>
      {| records := records st ++ [record];
         skipped_count := skipped_count st;
         error_count := error_count st; stats := qs |}
  | (Continue counted, qs) =>
      {| records := records st;
         skipped_count := if counted then skipped_count st + 1
                          else skipped_count st;
         error_count := error_count st; stats := qs |}
  | (Except _, qs) =>
      {| records := records st;
         skipped_count := skipped_count st;
         error_count := error_count st + 1; stats := qs |}
  end.

(** The schema selection at the top of [parse_factory_file]. *)
Definition columns_for (fac : string) : columns :=
  if (fac =? "A")%string then COLUMNS_A
  else if (fac =? "B")%string then COLUMNS_B
  else if (fac =? "C")%string then COLUMNS_C
  else if (fac =? "D")%string then COLUMNS_D
  else COLUMNS_A.

Definition run_rows (fac : string) (cols : columns) (df : list row)
  : parse_state :=
  fold_left (row_step fac cols) df initial_state.

(** [parse_factory_file(factory, filepath)] on the data frame [df] read
    from [filepath] (rows after the four skipped title lines). *)
Definition parse_factory_file (fac : string) (df : list row) : list order :=
  records (run_rows fac (columns_for fac) df).

(** *** [main]: the batch over the four factory files *)

(** What the file system holds at a path: nothing, a file that
    [pd.read_excel] cannot read, or a sheet (its rows after the four
    skipped title lines). *)
Inductive file : Type :=
| Absent
| Unreadable
| Sheet (df : list row).

(** [parse_factory_file(factory, filepath)] with its reading step: a
    failed read prints the error and returns [[]]. *)
Definition parse_factory_path (fs : string -> file) (fac filepath : string)
  : list order :=
  match fs filepath with
  | Sheet df => parse_factory_file fac df
  | _ => []
  end.

Definition FACTORY_FILES : list (string * string) :=
  [("A", "A- LOADPLAN ASSEMBLY OF RACHGIA FACTORY A  12.20.2025.xlsx");
   ("B", "B- LOADPLAN ASSEMBLY OF RACHGIA FACTORY B  12.20.2025.xlsx");
   ("C", "C- LOADPLAN ASSEMBLY OF RACHGIA FACTORY C  12.20.2025.xlsx");
   ("D", "D- LOADPLAN ASSEMBLY OF RACHGIA FACTORY D  12.20.2025.xlsx")].

(** [filepath.exists()] *)
Definition exists_ (fs : string -> file) (filepath : string) : bool :=
  match fs filepath with
  | Absent => false
  | _ => true
  end.

(** The loop of [main]: [all_records] after the four factories. *)
Definition main (fs : string -> file) : list order :=
  fold_left
    (fun all_records '(fac, filename) =>
       if exists_ fs filename
       then (all_records ++ parse_factory_path fs fac filename)%list
       else all_records)
    FACTORY_FILES [].

End parse_loadplan.

(** ** The dashboard's delay rules ([create_v6_dashboard.py]) *)

Module create_v6_dashboard.
Import PyText parse_loadplan.

Section DelayRules.

(** [new Date(s).getTime()]: the time value in milliseconds, [None] for
    an Invalid Date.  How text other than the ISO forms is read is left
    to the JavaScript engine, so the rules are stated for any parser. *)
Variable Date_parse : string -> option Z.

(** Truth value of [d.code04] ([null] or a string). *)
Definition js_truthy (o : option string) : bool :=
  match o with
  | Some s => negb (s =? "")%string
  | None => false
  end.

Definition ms_per_day : Z := 1000 * 60 * 60 * 24.

Definition isDelayed (d : order) : bool :=
  let sdd := sddValue d in
  match crd d with
  | None => false
  | Some crd =>
      if (sdd =? "")%string || (crd =? "")%string
         || (sdd =? "00:00:00")%string || (crd =? "00:00:00")%string
      then false
      else
        let whOutCompleted := completed (wh_out (production d)) in
        let qty := quantity d in
        if qty <=? whOutCompleted then false
        else if js_truthy (code04 d) then false
        else
          match Date_parse (replace_dots sdd), Date_parse (replace_dots crd) with
          | Some sddDate, Some crdDate => crdDate <? sddDate
          | _, _ => false
          end
  end.

(** [diffDays >= 0 && diffDays <= 3] with
    [diffDays = (crdDate - sddDate) / ms_per_day]; time values are
    integers, so the test is the same on the undivided difference. *)
Definition isWarning (d : order) : bool :=
  let sdd := sddValue d in
  match crd d with
  | None => false
  | Some crd =>
      if (sdd =? "")%string || (crd =? "")%string
         || (sdd =? "00:00:00")%string || (crd =? "00:00:00")%string
      then false
      else
        let whOutCompleted := completed (wh_out (production d)) in
        let qty := quantity d in
        if qty <=? whOutCompleted then false
        else if isDelayed d then false
        else
          match Date_parse (replace_dots sdd), Date_parse (replace_dots crd) with
          | Some sddDate, Some crdDate =>
              let diff := crdDate - sddDate in
              (0 <=? diff) && (diff <=? 3 * ms_per_day)
          | _, _ => false
          end
  end.

End DelayRules.

(** *** The statistics printed after the dashboard is written *)

(** [sum(r.get('quantity', 0) for r in v6_data)] *)
Definition total_qty (v6_data : list order) : Z :=
  fold_left (fun acc r => acc + quantity r) v6_data 0.

Definition completed_wh_out (v6_data : list order) : Z :=
  fold_left (fun acc r => acc + completed (wh_out (production r))) v6_data 0.

Definition factories (v6_data : list order) : PyDict.dict Z :=
  fold_left
    (fun d r => let f := factory r in PyDict.set d f (PyDict.get d f 0 + 1))
    v6_data [].

Definition destinations (v6_data : list order) : PyDict.dict Z :=
  fold_left
    (fun d r =>
       let dest := destination r in
       PyDict.set d dest (PyDict.get d dest 0 + quantity r))
    v6_data [].

(** [sorted(destinations.items(), key=lambda x: -x[1])[:5]] *)
Definition top_dests (v6_data : list order) : list (string * Z) :=
  firstn 5 (PyDict.sorted_by (fun x => - snd x) (destinations v6_data)).

(** One turn of the loop that counts the delayed orders. *)
Definition delayed_step (delayed_count : Z) (r : order) : Z :=
  let sdd := sddValue r in
  let wh_out_c := completed (wh_out (production r)) in
  let qty := quantity r in
  match crd r with
  | None => delayed_count
  | Some crd =>
      if (sdd =? "")%string || (crd =? "")%string || (qty <=? wh_out_c)
      then delayed_count
      else if js_truthy (code04 r) then delayed_count
      else
        match PyDatetime.strptime_ymd sdd, PyDatetime.strptime_ymd crd with
        | PyFloat.Ok sdd_date, PyFloat.Ok crd_date =>
            if PyDatetime.date_gt sdd_date crd_date then delayed_count + 1
            else delayed_count
        | _, _ => delayed_count
        end
  end.

Definition delayed_count (v6_data : list order) : Z :=
  fold_left delayed_step v6_data 0.

End create_v6_dashboard.

(** ** The report generator ([scripts/generate_consolidated.py]) *)

Module generate_consolidated.
Import PyText parse_loadplan.

(** Truth value of a [str]-or-[None] value in Python. *)
Definition py_truthy (o : option string) : bool :=
  match o with
  | Some s => negb (s =? "")%string
  | None => false
  end.

(** [a > b] on [str]: lexicographic by character code. *)
Definition str_gt (a b : string) : bool := String.ltb b a.

Definition is_delayed_record (record : order) : bool :=
  let sdd := sddValue record in
  match crd record with
  | None => false
  | Some crd =>
      if negb (crd =? "")%string && negb (sdd =? "")%string
         && negb (crd =? "")%string && negb (sdd =? "")%string
      then str_gt sdd crd && negb (py_truthy (code04 record))
      else false
  end.

(** A value written into a cell of the workbook. *)
Inductive xl : Type :=
| XNone
| XStr (s : string)
| XInt (n : Z).

Definition EXCEL_COLUMNS : list string :=
  ["Factory"; "Unit"; "Season"; "Model"; "Article"; "Color";
   "Destination"; "PO Number"; "Quantity"; "CRD"; "CRD Month";
   "SDD"; "SDD Month"; "Code04"; "AQL"; "Inspection";
   "S_CUT"; "PRE_SEW"; "SEW_INPUT"; "SEW_BAL"; "S_FIT";
   "ASS_BAL"; "WH_IN"; "WH_OUT";
   "OSC Remaining"; "SEW Remaining"; "ASS Remaining";
   "WH_IN Remaining"; "WH_OUT Remaining";
   "Delay"; "Overall Status"].

Definition xl_opt (o : option string) : xl :=
  match o with
  | Some s => XStr s
  | None => XNone
  end.

(** [x or ''] for a [str]-or-[None] value. *)
Definition or_blank (o : option string) : string :=
  match o with
  | Some s => s
  | None => ""
  end.

Definition flatten_record (record : order) : list xl :=
  let prod := production record in
  let remaining_v := remaining record in
  let sdd := sddValue record in
  let code04_v := code04 record in
  let delay :=
    match crd record with
    | None => false
    | Some crd =>
        if negb (crd =? "")%string && negb (sdd =? "")%string
           && negb (crd =? "")%string && negb (sdd =? "")%string
        then str_gt sdd crd && negb (py_truthy code04_v)
        else false
    end in
  let overall_status := status (wh_out prod) in
  [ XStr (factory record); XStr (unit_ record); XStr (season record);
    XStr (model record); XStr (article record); XStr (color record);
    XStr (destination record); XStr (poNumber record);
    XInt (quantity record);
    xl_opt (crd record); XStr (crdYearMonth record);
    XStr sdd; XStr (sddYearMonth record);
    XStr (or_blank code04_v);
    XStr (if aql record then "Yes" else "No");
    XStr (or_blank (inspection record));
    XInt (completed (s_cut prod)); XInt (completed (pre_sew prod));
    XInt (completed (sew_input prod)); XInt (completed (sew_bal prod));
    XInt (completed (s_fit prod)); XInt (completed (ass_bal prod));
    XInt (completed (wh_in prod)); XInt (completed (wh_out prod));
    XInt (osc remaining_v); XInt (sew remaining_v); XInt (ass remaining_v);
    XInt (whIn remaining_v); XInt (whOut remaining_v);
    XStr (if delay then "Yes" else "No");
    XStr overall_status ].

(** [row_data[29] == 'Yes'] in [create_excel]: whether the row is
    painted as delayed. *)
Definition row_is_delayed (row_data : list xl) : bool :=
  match nth_error row_data 29 with
  | Some (XStr s) => (s =? "Yes")%string
  | _ => false
  end.

(** The counts of the Info sheet in [create_excel]. *)
Definition factory_counts (all_records : list order) : PyDict.dict Z :=
  fold_left
    (fun d r => let f := factory r in PyDict.set d f (PyDict.get d f 0 + 1))
    all_records [].

Definition status_counts (all_records : list order) : PyDict.dict Z :=
  fold_left
    (fun d r =>
       let st := status (wh_out (production r)) in
       PyDict.set d st (PyDict.get d st 0 + 1))
    all_records [].

(** The rows appended for the statuses completed, partial and pending,
    each only when it occurs. *)
Definition status_rows (all_records : list order) : list (string * Z) :=
  let counts := status_counts all_records in
  flat_map
    (fun st =>
       if PyDict.has_key counts st
       then [("  " ++ st, PyDict.get counts st 0)] else [])
    ["completed"; "partial"; "pending"].

(** [sum(1 for r in all_records if is_delayed_record(r))] *)
Definition delay_count (all_records : list order) : Z :=
  fold_left (fun acc r => if is_delayed_record r then acc + 1 else acc)
    all_records 0.

(** The parsing loop of [main]; [None] is [sys.exit(1)] when nothing was
    parsed. *)
Definition FACTORY_FILES : list (string * string) :=
  [("A", "Factory_A.xlsx"); ("B", "Factory_B.xlsx");
   ("C", "Factory_C.xlsx"); ("D", "Factory_D.xlsx")].

Definition collect (fs : string -> file) : list order * list string :=
  fold_left
    (fun '(all_records, parsed_factories) '(fac, filename) =>
       if exists_ fs filename
       then ((all_records ++ parse_factory_path fs fac filename)%list,
             (parsed_factories ++ [fac])%list)
       else (all_records, parsed_factories))
    FACTORY_FILES ([], []).

Definition main_records (fs : string -> file) : option (list order) :=
  match fst (collect fs) with
  | [] => None
  | all_records => Some all_records
  end.

End generate_consolidated.

(** ** A reference date parser

    The one format every JavaScript engine must read the same way: the
    date-only ISO form [YYYY-MM-DD] of a valid calendar date, taken as
    midnight UTC.  It serves as a concrete instance of [Date_parse]; it
    also decides whether a text is a valid calendar date in canonical
    form. *)

Module ECMAScript.
Import PyText parse_loadplan.

Definition is_leap (y : Z) : bool :=
  ((y mod 4 =? 0) && negb (y mod 100 =? 0)) || (y mod 400 =? 0).

Definition days_in_month (y m : Z) : Z :=
  if m =? 2 then (if is_leap y then 29 else 28)
  else if (m =? 4) || (m =? 6) || (m =? 9) || (m =? 11) then 30
  else 31.

(** Days from 1970-01-01 to the civil date [y-m-d]. *)
Definition days_from_civil (y m d : Z) : Z :=
  let y' := if m <=? 2 then y - 1 else y in
  let era := y' / 400 in
  let yoe := y' - era * 400 in
  let doy := (153 * (if 2 <? m then m - 3 else m + 9) + 2) / 5 + d - 1 in
  let doe := yoe * 365 + yoe / 4 - yoe / 100 + doy in
  era * 146097 + doe - 719468.

Definition utc_date_parse (s : string) : option Z :=
  match split_on "-" s with
  | [ys; ms; ds] =>
      if digits_between 4 4 ys && digits_between 2 2 ms && digits_between 2 2 ds
      then
        let y := int_of_digits ys in
        let m := int_of_digits ms in
        let d := int_of_digits ds in
        if (1 <=? m) && (m <=? 12) && (1 <=? d) && (d <=? days_in_month y m)
        then Some (days_from_civil y m d * (1000 * 60 * 60 * 24))
        else None
      else None
  | _ => None
  end.

(** The text has the shape [dddd-dd-dd]. *)
Definition canonical_shape (s : string) : bool :=
  match split_on "-" s with
  | [ys; ms; ds] =>
      digits_between 4 4 ys && digits_between 2 2 ms && digits_between 2 2 ds
  | _ => false
  end.

End ECMAScript.

(** * Properties *)

Import PyText PyFloat Pandas parse_loadplan ECMAScript.
Import create_v6_dashboard generate_consolidated.

(** ** Text, numbers and dates: auxiliary facts *)

(** Upper-casing keeps an occurrence of an upper-case keyword. *)
Lemma prefix_upper :
  forall k s : string,
    String.prefix k s = true -> String.prefix (upper k) (upper s) = true.
Proof.
  induction k as [| a k IH]; intros s H; [destruct s; reflexivity |].
  destruct s as [| b s]; [discriminate |].
  simpl in H |- *.
  destruct (ascii_dec a b) as [-> | Hne]; [| discriminate].
  destruct (ascii_dec (upper_char b) (upper_char b)); [auto | congruence].
Qed.

Lemma contains_upper :
  forall k s : string,
    contains k s = true -> contains (upper k) (upper s) = true.
Proof.
  intros k s. induction s as [| c s IH]; intro H.
  - simpl in H |- *. rewrite orb_false_r in H |- *.
    now apply (prefix_upper k "").
  - cbn [contains] in H. apply orb_true_iff in H.
    cbn [upper contains]. apply orb_true_iff.
    destruct H as [H | H].
    + left. now apply (prefix_upper k (String c s)).
    + right. auto.
Qed.

(** *** Bare integers in a cell *)

Lemma is_digit_not_space :
  forall a : ascii, is_digit a = true -> is_space a = false.
Proof.
  intros a H. unfold is_digit in H. unfold is_space.
  apply andb_true_iff in H. destruct H as [H1 H2].
  apply Nat.leb_le in H1, H2.
  apply orb_false_iff. split; apply andb_false_iff.
  - right. apply Nat.leb_gt. lia.
  - right. apply Nat.leb_gt. lia.
Qed.

Lemma is_digit_upper :
  forall a : ascii, is_digit a = true -> upper_char a = a.
Proof.
  intros a H. unfold is_digit in H. unfold upper_char.
  apply andb_true_iff in H. destruct H as [H1 H2].
  apply Nat.leb_le in H1, H2.
  destruct (97 <=? nat_of_ascii a)%nat eqn:E; [| reflexivity].
  apply Nat.leb_le in E. lia.
Qed.

Lemma is_digit_neq :
  forall a c : ascii,
    is_digit a = true -> is_digit c = false -> Ascii.eqb a c = false.
Proof.
  intros a c Ha Hc. destruct (Ascii.eqb a c) eqn:E; [| reflexivity].
  apply Ascii.eqb_eq in E. congruence.
Qed.

Section DigitStrings.

Variable s : string.
Hypothesis s_digits : all_digits s = true.

Lemma digits_lstrip : s <> "" -> lstrip s = s.
Proof.
  destruct s as [| a t]; [congruence |]. intros _.
  cbn [all_digits] in s_digits. apply andb_true_iff in s_digits.
  cbn [lstrip]. now rewrite (is_digit_not_space a (proj1 s_digits)).
Qed.

Lemma digits_rstrip : rstrip s = s.
Proof.
  revert s_digits. induction s as [| a t IH]; intro H; [reflexivity |].
  cbn [all_digits] in H. apply andb_true_iff in H. destruct H as [Ha Ht].
  cbn [rstrip]. rewrite (IH Ht), (is_digit_not_space a Ha). reflexivity.
Qed.

Lemma digits_upper : upper s = s.
Proof.
  revert s_digits. induction s as [| a t IH]; intro H; [reflexivity |].
  cbn [all_digits] in H. apply andb_true_iff in H. destruct H as [Ha Ht].
  cbn [upper]. now rewrite (IH Ht), (is_digit_upper a Ha).
Qed.

Lemma digits_neq_text :
  forall k : string, all_digits k = false -> (s =? k)%string = false.
Proof.
  intros k Hk. destruct (s =? k)%string eqn:E; [| reflexivity].
  apply String.eqb_eq in E. congruence.
Qed.

Lemma digits_no_prefix :
  forall (c : ascii) (k : string),
    is_digit c = false -> String.prefix (String c k) s = false.
Proof.
  intros c k Hc. destruct s as [| a t]; [reflexivity |].
  cbn [all_digits] in s_digits. apply andb_true_iff in s_digits.
  cbn [String.prefix].
  destruct (ascii_dec c a) as [-> | _]; [| reflexivity].
  destruct s_digits. congruence.
Qed.

Lemma digits_split_on :
  forall sep : ascii, is_digit sep = false -> split_on sep s = [s].
Proof.
  intros sep Hsep. revert s_digits.
  induction s as [| a t IH]; intro H; [reflexivity |].
  cbn [all_digits] in H. apply andb_true_iff in H. destruct H as [Ha Ht].
  cbn [split_on]. rewrite (is_digit_neq a sep Ha Hsep), (IH Ht). reflexivity.
Qed.

Lemma digits_take : take_digits s = (s, "").
Proof.
  revert s_digits. induction s as [| a t IH]; intro H; [reflexivity |].
  cbn [all_digits] in H. apply andb_true_iff in H. destruct H as [Ha Ht].
  cbn [take_digits]. now rewrite Ha, (IH Ht).
Qed.

Lemma digits_drop_underscores :
  forall prev : ascii,
    Ascii.eqb prev "_" = false -> drop_underscores prev s = Some s.
Proof.
  revert s_digits. induction s as [| a t IH]; intros H prev Hp.
  - cbn [drop_underscores]. now rewrite Hp.
  - cbn [all_digits] in H. apply andb_true_iff in H. destruct H as [Ha Ht].
    cbn [drop_underscores].
    rewrite (is_digit_neq a "_" Ha eq_refl), Hp, Ha.
    cbn [andb negb].
    now rewrite (IH Ht a (is_digit_neq a "_" Ha eq_refl)).
Qed.

End DigitStrings.

Lemma digits_no_contains :
  forall (s : string) (c : ascii) (k : string),
    all_digits s = true -> is_digit c = false ->
    contains (String c k) s = false.
Proof.
  induction s as [| a t IH]; intros c k H Hc.
  - reflexivity.
  - cbn [contains].
    rewrite (digits_no_prefix (String a t) H c k Hc).
    cbn [all_digits] in H. apply andb_true_iff in H.
    now apply IH.
Qed.

(** The sign test of [float()] on a text that starts with a digit. *)
Lemma digit_head_unsigned :
  forall (a : ascii) (t : string),
    is_digit a = true ->
    match String a t with
    | String "-"%char r => (true, r)
    | String "+"%char r => (false, r)
    | _ => (false, String a t)
    end = (false, String a t).
Proof.
  intros a t H.
  destruct a as [[] [] [] [] [] [] [] []]; try discriminate H; reflexivity.
Qed.

(** [float(s)] on a non-empty string of digits is the double nearest
    to the number the digits denote. *)
Lemma py_float_digits :
  forall s : string,
    all_digits s = true -> s <> "" ->
    py_float s = Some (binary64 false (int_of_digits s) 1).
Proof.
  intros s Hd Hne. unfold py_float, strip.
  rewrite (digits_lstrip s Hd Hne), (digits_rstrip s Hd).
  rewrite (digits_drop_underscores s Hd "000"%char eq_refl).
  destruct s as [| a t] eqn:Es; [congruence |].
  assert (Ha : is_digit a = true).
  { cbn [all_digits] in Hd. apply andb_true_iff in Hd. tauto. }
  rewrite (digit_head_unsigned a t Ha). rewrite <- Es in *.
  rewrite (digits_upper s Hd).
  rewrite !(digits_neq_text s Hd) by reflexivity.
  cbn [orb].
  unfold parse_decimal. rewrite (digits_take s Hd).
  replace (s ++ "")%string with s.
  2:{ clear. induction s; cbn; congruence. }
  apply String.eqb_neq in Hne. rewrite Hne.
  cbn. now rewrite Z.mul_1_r.
Qed.

(** Integers below [2^53] are doubles: the conversion is exact. *)
Lemma binary64_small_int :
  forall n : Z, 0 < n < 2 ^ 53 -> py_int (binary64 false n 1) = Ok n.
Proof.
  intros n [Hlo Hhi].
  pose proof (Z.log2_spec n Hlo) as [L1 L2].
  pose proof (Z.log2_nonneg n) as L0.
  assert (L3 : Z.log2 n < 53) by (apply Z.log2_lt_pow2; lia).
  unfold binary64.
  destruct (n =? 0) eqn:E0; [apply Z.eqb_eq in E0; lia |].
  change (Z.log2 1) with 0. rewrite Z.sub_0_r.
  set (e1 := Z.log2 n - 52).
  destruct (0 <=? e1) eqn:Ee.
  - (* log2 n = 52: the integer already fills the mantissa *)
    apply Z.leb_le in Ee.
    assert (Hl : Z.log2 n = 52) by (unfold e1 in Ee; lia).
    assert (He : e1 = 0) by (unfold e1; lia).
    clearbody e1. subst e1. rewrite Hl in L1.
    change (1 * 2 ^ 0) with 1. rewrite Z.div_1_r.
    destruct (2 ^ 52 <=? n) eqn:E52; [| apply Z.leb_gt in E52; lia].
    change (Z.max 0 (-1074)) with 0.
    change (0 <=? 0) with true. cbv iota.
    unfold round_half_even. rewrite Z.div_1_r, Z.mod_1_r.
    change (2 * 0 ?= 1) with Lt. cbv iota.
    change (971 <? 0) with false. change (0 =? 971) with false.
    cbn [orb andb py_int]. change (0 <=? 0) with true. cbv iota.
    now rewrite Z.pow_0_r, Z.mul_1_r.
  - assert (Hneg : e1 < 0) by (now apply Z.leb_gt).
    assert (Hp : 0 < 2 ^ (- e1)) by (apply Z.pow_pos_nonneg; lia).
    rewrite Z.div_1_r.
    assert (H52 : 2 ^ 52 <= n * 2 ^ (- e1)).
    { replace 52 with (Z.log2 n + (- e1)) by (unfold e1; lia).
      rewrite Z.pow_add_r by lia. apply Z.mul_le_mono_nonneg_r; lia. }
    destruct (2 ^ 52 <=? n * 2 ^ (- e1)) eqn:E52; [| apply Z.leb_gt in E52; lia].
    rewrite Z.max_l by (unfold e1; lia).
    rewrite Ee.
    unfold round_half_even. rewrite Z.div_1_r, Z.mod_1_r.
    change (2 * 0 ?= 1) with Lt. cbv iota.
    destruct (971 <? e1) eqn:E971; [apply Z.ltb_lt in E971; lia |].
    destruct (e1 =? 971) eqn:E971'; [apply Z.eqb_eq in E971'; lia |].
    cbn [orb andb py_int]. rewrite Ee.
    rewrite Z.quot_mul by lia. reflexivity.
Qed.

Lemma uint_all_digits :
  forall d : Decimal.uint, all_digits (NilEmpty.string_of_uint d) = true.
Proof.
  induction d; cbn [NilEmpty.string_of_uint all_digits]; auto.
Qed.

Lemma digits_acc_uint :
  forall (d : Decimal.uint) (acc : positive),
    digits_acc (Z.pos acc) (NilEmpty.string_of_uint d)
    = Z.pos (Pos.of_uint_acc d acc).
Proof.
  induction d as [| d IH | d IH | d IH | d IH | d IH | d IH | d IH | d IH
                  | d IH | d IH]; intro acc;
    cbn [NilEmpty.string_of_uint digits_acc Pos.of_uint_acc];
    [reflexivity | ..];
    rewrite <- IH; f_equal;
    match goal with
    | |- context [digit_val ?c] =>
        let k := eval vm_compute in (digit_val c) in
        change (digit_val c) with k
    end; lia.
Qed.

Lemma digits_acc0_uint :
  forall d : Decimal.uint,
    digits_acc 0 (NilEmpty.string_of_uint d) = Z.of_N (Pos.of_uint d).
Proof.
  induction d as [| d IH | d IH | d IH | d IH | d IH | d IH | d IH | d IH
                  | d IH | d IH];
    cbn [NilEmpty.string_of_uint digits_acc Pos.of_uint];
    [reflexivity | exact IH | ..];
    cbn [Z.of_N]; rewrite <- digits_acc_uint; reflexivity.
Qed.

(** The decimal text of a positive [int]: digits only, and reading it
    back gives the number. *)
Lemma str_of_int_positive :
  forall n : Z,
    0 < n ->
    all_digits (str_of_int n) = true
    /\ str_of_int n <> ""
    /\ int_of_digits (str_of_int n) = n.
Proof.
  intros n Hn. destruct n as [| p |]; try lia.
  unfold str_of_int. cbn [Z.to_int NilZero.string_of_int].
  pose proof (DecimalPos.Unsigned.to_uint_nonnil p) as Hnil.
  pose proof (DecimalPos.Unsigned.of_to p) as Hof.
  destruct (Pos.to_uint p) as [| d | d | d | d | d | d | d | d | d | d] eqn:E;
    [congruence | ..];
    cbn [NilZero.string_of_uint];
    (split; [apply uint_all_digits |]);
    (split; [discriminate |]);
    unfold int_of_digits; rewrite digits_acc0_uint, Hof; reflexivity.
Qed.

Section DigitCells.

Variables (v : cell) (s : string).
Hypothesis v_present : isna v = false.
Hypothesis v_plain : is_timestamp v = false.
Hypothesis v_text : py_str v = s.
Hypothesis s_digits : all_digits s = true.
Hypothesis s_nonempty : s <> "".

Lemma digit_cell_strip : strip (py_str v) = s.
Proof.
  rewrite v_text. unfold strip.
  now rewrite (digits_lstrip s s_digits s_nonempty), (digits_rstrip s s_digits).
Qed.

Lemma digit_cell_not_special :
  ((s =? "")%string || mem s special_values) = false.
Proof.
  apply String.eqb_neq in s_nonempty. rewrite s_nonempty.
  unfold mem, special_values. cbn [existsb orb].
  now rewrite !(digits_neq_text s s_digits) by reflexivity.
Qed.

Lemma digit_cell_not_date : is_date_format v = false.
Proof.
  unfold is_date_format.
  rewrite v_present, digit_cell_strip, digit_cell_not_special.
  rewrite (digits_upper s s_digits).
  unfold any_in. cbn [existsb].
  rewrite !digits_no_contains by (first [exact s_digits | reflexivity]).
  cbn [orb date_patterns existsb]. unfold match_md, match_ymd.
  rewrite !(digits_split_on s s_digits) by reflexivity.
  cbn [is_some orb]. now rewrite v_plain.
Qed.

Lemma digit_cell_numeric : is_numeric v = true.
Proof.
  unfold is_numeric.
  rewrite v_present, digit_cell_strip, digit_cell_not_special.
  rewrite (digits_upper s s_digits).
  unfold any_in. cbn [existsb].
  rewrite !digits_no_contains by (first [exact s_digits | reflexivity]).
  cbn [orb]. now rewrite (py_float_digits s s_digits s_nonempty).
Qed.

End DigitCells.

(** A bare positive integer below [2^53] in a cell, as an [int] or as
    its decimal text, reaches the numeric branch with its own value. *)
Lemma bare_integer_cell :
  forall (n : Z) (v : cell),
    v = CInt n \/ v = CStr (str_of_int n) ->
    0 < n < 2 ^ 53 ->
    is_date_format v = false
    /\ is_numeric v = true
    /\ int_float (strip (py_str v)) = Ok n.
Proof.
  intros n v Hv Hn.
  destruct (str_of_int_positive n (proj1 Hn)) as (Hd & Hne & Hval).
  assert (Hna : isna v = false) by (destruct Hv; subst v; reflexivity).
  assert (Hts : is_timestamp v = false) by (destruct Hv; subst v; reflexivity).
  assert (Hstr : py_str v = str_of_int n) by (destruct Hv; subst v; reflexivity).
  split; [exact (digit_cell_not_date v _ Hna Hts Hstr Hd Hne) |].
  split; [exact (digit_cell_numeric v _ Hna Hstr Hd Hne) |].
  rewrite (digit_cell_strip v _ Hstr Hd Hne).
  unfold int_float. rewrite (py_float_digits _ Hd Hne), Hval.
  now apply binary64_small_int.
Qed.

(** *** Normalised dates *)

Lemma digit_val_range :
  forall a : ascii, is_digit a = true -> 0 <= digit_val a <= 9.
Proof.
  intros a H. unfold is_digit in H. unfold digit_val.
  apply andb_true_iff in H. destruct H as [H1 H2].
  apply Nat.leb_le in H1, H2. lia.
Qed.

Lemma is_digit_not_dash :
  forall a : ascii, is_digit a = true -> Ascii.eqb a "-"%char = false.
Proof.
  intros a H. destruct (Ascii.eqb a "-"%char) eqn:E; [| reflexivity].
  apply Ascii.eqb_eq in E. subst a. discriminate H.
Qed.

(** A field of one or two digits denotes a number below 100. *)
Lemma int_of_digits_small :
  forall g : string,
    digits_between 1 2 g = true -> 0 <= int_of_digits g < 100.
Proof.
  intros g H. unfold digits_between in H.
  apply andb_true_iff in H. destruct H as [H H3].
  apply andb_true_iff in H. destruct H as [H1 H2].
  destruct g as [| a [| b [| c g]]]; try discriminate.
  - cbn in H1. rewrite andb_true_r in H1.
    pose proof (digit_val_range a H1).
    unfold int_of_digits. cbn [digits_acc]. lia.
  - cbn in H1. rewrite andb_true_r in H1.
    apply andb_true_iff in H1. destruct H1 as [Ha Hb].
    pose proof (digit_val_range a Ha). pose proof (digit_val_range b Hb).
    unfold int_of_digits. cbn [digits_acc]. lia.
Qed.

(** [f'{n:02d}'] prints two digits for every [0 <= n < 100]. *)
Lemma fmt02d_two_digits :
  forall n : Z, 0 <= n < 100 -> digits_between 2 2 (fmt02d n) = true.
Proof.
  intros n Hn.
  assert (All : forallb (fun k => digits_between 2 2 (fmt02d (Z.of_nat k)))
                  (seq 0 100) = true) by (vm_compute; reflexivity).
  rewrite forallb_forall in All.
  specialize (All (Z.to_nat n)).
  rewrite Z2Nat.id in All by lia.
  apply All. apply in_seq. lia.
Qed.

Lemma split_on_digits :
  forall g : string, all_digits g = true -> split_on "-" g = [g].
Proof.
  induction g as [| a g IH]; intro H; [reflexivity |].
  cbn [all_digits] in H. apply andb_true_iff in H. destruct H as [Ha Hg].
  cbn [split_on]. rewrite (is_digit_not_dash a Ha), (IH Hg). reflexivity.
Qed.

Lemma split_on_digits_app :
  forall g rest : string,
    all_digits g = true ->
    split_on "-" (g ++ String "-" rest) = g :: split_on "-" rest.
Proof.
  induction g as [| a g IH]; intros rest H; [reflexivity |].
  cbn [all_digits] in H. apply andb_true_iff in H. destruct H as [Ha Hg].
  cbn [append split_on]. rewrite (is_digit_not_dash a Ha), (IH rest Hg).
  reflexivity.
Qed.

Lemma digits_between_all :
  forall (lo hi : nat) (g : string),
    digits_between lo hi g = true -> all_digits g = true.
Proof.
  intros lo hi g H. unfold digits_between in H.
  apply andb_true_iff in H. destruct H as [H _].
  apply andb_true_iff in H. tauto.
Qed.

(** Joining a four-digit year and two two-digit fields with dashes
    gives the canonical shape. *)
Lemma canonical_join :
  forall y m d : string,
    digits_between 4 4 y = true ->
    digits_between 2 2 m = true ->
    digits_between 2 2 d = true ->
    canonical_shape (y ++ "-" ++ m ++ "-" ++ d) = true.
Proof.
  intros y m d Hy Hm Hd. unfold canonical_shape.
  change (y ++ "-" ++ m ++ "-" ++ d)
    with (y ++ String "-" (m ++ String "-" d)).
  rewrite (split_on_digits_app y _ (digits_between_all _ _ _ Hy)).
  rewrite (split_on_digits_app m _ (digits_between_all _ _ _ Hm)).
  rewrite (split_on_digits d (digits_between_all _ _ _ Hd)).
  now rewrite Hy, Hm, Hd.
Qed.

Lemma match_md_fields :
  forall (sep : ascii) (s g1 g2 : string),
    match_md sep s = Some (g1, g2) ->
    digits_between 1 2 g1 = true /\ digits_between 1 2 g2 = true.
Proof.
  intros sep s g1 g2 H. unfold match_md in H.
  destruct (split_on sep s) as [| a [| b [| c l]]]; try discriminate.
  destruct (digits_between 1 2 a) eqn:Ha; [| discriminate].
  destruct (digits_between 1 2 b) eqn:Hb; [| discriminate].
  injection H as <- <-. now split.
Qed.

Lemma match_ymd_fields :
  forall (sep : ascii) (s g1 g2 g3 : string),
    match_ymd sep s = Some (g1, g2, g3) ->
    digits_between 4 4 g1 = true
    /\ digits_between 1 2 g2 = true /\ digits_between 1 2 g3 = true.
Proof.
  intros sep s g1 g2 g3 H. unfold match_ymd in H.
  destruct (split_on sep s) as [| a [| b [| c [| e l]]]]; try discriminate.
  destruct (digits_between 4 4 a) eqn:Ha; [| discriminate].
  destruct (digits_between 1 2 b) eqn:Hb; [| discriminate].
  destruct (digits_between 1 2 c) eqn:Hc; [| discriminate].
  injection H as <- <- <-. now repeat split.
Qed.

(** A text cell in one of the shapes [M/D], [YYYY.M.D], [YYYY-M-D] is
    rendered in the canonical shape [dddd-dd-dd] (month and day are
    not range-checked). *)
Lemma parse_date_text_canonical :
  forall v : cell,
    isna v = false ->
    is_timestamp v = false ->
    (is_some (match_md "/" (strip (py_str v)))
     || is_some (match_ymd "." (strip (py_str v)))
     || is_some (match_ymd "-" (strip (py_str v)))) = true ->
    exists s : string,
      parse_date_to_string v default_year = Some s
      /\ canonical_shape s = true.
Proof.
  intros v Hna Hts Hpat.
  assert (Hbody :
    exists s : string,
      match match_md "/" (strip (py_str v)) with
      | Some (g1, g2) =>
          Some (str_of_int (if 10 <=? int_of_digits g1
                            then default_year else default_year + 1)
                ++ "-" ++ fmt02d (int_of_digits g1)
                ++ "-" ++ fmt02d (int_of_digits g2))
      | None =>
          match match_ymd "." (strip (py_str v)) with
          | Some (g1, g2, g3) =>
              Some (g1 ++ "-" ++ fmt02d (int_of_digits g2) ++ "-"
                    ++ fmt02d (int_of_digits g3))
          | None =>
              match match_ymd "-" (strip (py_str v)) with
              | Some (g1, g2, g3) =>
                  Some (g1 ++ "-" ++ fmt02d (int_of_digits g2) ++ "-"
                        ++ fmt02d (int_of_digits g3))
              | None => Some (strip (py_str v))
              end
          end
      end = Some s /\ canonical_shape s = true).
  { destruct (match_md "/" (strip (py_str v))) as [[g1 g2] |] eqn:E1.
    - apply match_md_fields in E1. destruct E1 as [H1 H2].
      eexists. split; [reflexivity |].
      apply canonical_join.
      + destruct (10 <=? int_of_digits g1); reflexivity.
      + apply fmt02d_two_digits. now apply int_of_digits_small.
      + apply fmt02d_two_digits. now apply int_of_digits_small.
    - destruct (match_ymd "." (strip (py_str v))) as [[[g1 g2] g3] |] eqn:E2.
      + apply match_ymd_fields in E2. destruct E2 as (H1 & H2 & H3).
        eexists. split; [reflexivity |].
        apply canonical_join; auto;
          apply fmt02d_two_digits; now apply int_of_digits_small.
      + destruct (match_ymd "-" (strip (py_str v))) as [[[g1 g2] g3] |] eqn:E3;
          [| discriminate Hpat].
        apply match_ymd_fields in E3. destruct E3 as (H1 & H2 & H3).
        eexists. split; [reflexivity |].
        apply canonical_join; auto;
          apply fmt02d_two_digits; now apply int_of_digits_small. }
  unfold parse_date_to_string. rewrite Hna.
  destruct v; try discriminate Hts; exact Hbody.
Qed.

(** A date-shaped cell is never the zero-time sentinel. *)
Lemma date_format_not_zero_time :
  forall v : cell,
    is_date_format v = true ->
    isna v = false /\ (strip (py_str v) =? "00:00:00")%string = false.
Proof.
  intros v H. unfold is_date_format in H.
  destruct (isna v); [discriminate |]. split; [reflexivity |].
  destruct (_ || _) eqn:E in H; [discriminate |].
  apply orb_false_iff in E. destruct E as [_ E].
  unfold mem, special_values in E. cbn [existsb] in E.
  apply orb_false_iff in E. tauto.
Qed.

(** *** The date and the number readings exclude each other *)

Lemma lstrip_head :
  forall x : string,
    lstrip x = "" \/ exists c r, lstrip x = String c r /\ is_space c = false.
Proof.
  induction x as [| c x IH]; [now left |].
  cbn [lstrip]. destruct (is_space c) eqn:E; [exact IH |].
  right. now exists c, x.
Qed.

Lemma rstrip_idem : forall y : string, rstrip (rstrip y) = rstrip y.
Proof.
  induction y as [| c y IH]; [reflexivity |].
  cbn [rstrip].
  destruct (is_space c && (rstrip y =? "")%string) eqn:E; [reflexivity |].
  cbn [rstrip]. now rewrite IH, E.
Qed.

Lemma strip_idem : forall x : string, strip (strip x) = strip x.
Proof.
  intro x. unfold strip.
  destruct (lstrip_head x) as [E | (c & r & E & Hc)]; rewrite E.
  - reflexivity.
  - cbn [rstrip]. rewrite Hc. cbn [andb lstrip]. rewrite Hc.
    cbn [rstrip]. now rewrite rstrip_idem, Hc.
Qed.

Lemma contains_char_cons :
  forall (c a : ascii) (t : string),
    contains (String c "") (String a t)
    = Ascii.eqb c a || contains (String c "") t.
Proof.
  intros c a t. cbn [contains String.prefix].
  destruct (ascii_dec c a) as [-> | Hne].
  - rewrite Ascii.eqb_refl. destruct t; reflexivity.
  - apply Ascii.eqb_neq in Hne. now rewrite Hne.
Qed.

Lemma contains_char_app :
  forall (c : ascii) (a b : string),
    contains (String c "") (a ++ b)
    = contains (String c "") a || contains (String c "") b.
Proof.
  intros c a b. induction a as [| x a IH].
  - reflexivity.
  - cbn [append]. rewrite !contains_char_cons, IH. now rewrite orb_assoc.
Qed.

Lemma split_on_nonnil :
  forall (sep : ascii) (s : string), split_on sep s <> [].
Proof.
  intros sep s. destruct s as [| c s]; cbn [split_on]; [discriminate |].
  destruct (Ascii.eqb c sep); [discriminate |].
  destruct (split_on sep s); discriminate.
Qed.

(** [split_on] only cuts: joining the fields gives the text back. *)
Lemma split_on_join :
  forall (sep : ascii) (s : string),
    String.concat (String sep "") (split_on sep s) = s.
Proof.
  intros sep s. induction s as [| c s IH]; [reflexivity |].
  pose proof (split_on_nonnil sep s) as Hnn.
  cbn [split_on]. destruct (Ascii.eqb c sep) eqn:E.
  - apply Ascii.eqb_eq in E. subst c.
    destruct (split_on sep s) as [| f fs]; [congruence |].
    change (String.concat (String sep "") ("" :: f :: fs))
      with (String sep (String.concat (String sep "") (f :: fs))).
    now rewrite IH.
  - destruct (split_on sep s) as [| f fs]; [congruence |].
    destruct fs as [| g gs].
    + cbn [String.concat] in IH |- *. now subst f.
    + change (String.concat (String sep "") (String c f :: g :: gs))
        with (String c (String.concat (String sep "") (f :: g :: gs))).
      now rewrite IH.
Qed.

Lemma split_two_contains :
  forall (sep : ascii) (s a b : string) (l : list string),
    split_on sep s = a :: b :: l -> contains (String sep "") s = true.
Proof.
  intros sep s a b l H.
  rewrite <- (split_on_join sep s), H. cbn [String.concat].
  rewrite contains_char_app. cbn [append].
  rewrite contains_char_cons, Ascii.eqb_refl. now rewrite orb_true_r.
Qed.

Lemma take_digits_app :
  forall (a : string) (c : ascii) (r : string),
    all_digits a = true -> is_digit c = false ->
    take_digits (a ++ String c r) = (a, String c r).
Proof.
  induction a as [| x a IH]; intros c r Ha Hc.
  - cbn [append take_digits]. now rewrite Hc.
  - cbn [all_digits] in Ha. apply andb_true_iff in Ha. destruct Ha as [Hx Ha].
    cbn [append take_digits]. now rewrite Hx, (IH c r Ha Hc).
Qed.

Lemma no_underscore_drop :
  forall (s : string) (prev : ascii),
    contains "_" s = false -> Ascii.eqb prev "_" = false ->
    drop_underscores prev s = Some s.
Proof.
  induction s as [| c s IH]; intros prev Hs Hp.
  - cbn [drop_underscores]. now rewrite Hp.
  - rewrite contains_char_cons in Hs. apply orb_false_iff in Hs.
    destruct Hs as [Hc Hs]. rewrite Ascii.eqb_sym in Hc.
    cbn [drop_underscores]. rewrite Hc, Hp. cbn [andb].
    now rewrite (IH c Hs Hc).
Qed.

(** [float()] on a text that starts with digits followed by a dot or
    a dash: the outcome is decided by [parse_decimal]. *)
Lemma py_float_digits_sep :
  forall (a : string) (sep : ascii) (rest : string),
    all_digits a = true -> a <> "" ->
    sep = "."%char \/ sep = "-"%char ->
    contains "_" rest = false ->
    strip (a ++ String sep rest) = a ++ String sep rest ->
    parse_decimal (a ++ String sep rest) = None ->
    py_float (a ++ String sep rest) = None.
Proof.
  intros a sep rest Ha Hne Hsep Hrest Hstrip Hdec.
  unfold py_float. rewrite Hstrip.
  assert (Hu : contains "_" (a ++ String sep rest) = false).
  { rewrite contains_char_app, contains_char_cons, Hrest.
    rewrite (digits_no_contains a "_" "" Ha eq_refl).
    destruct Hsep; subst sep; reflexivity. }
  rewrite (no_underscore_drop _ "000"%char Hu eq_refl).
  destruct a as [| a0 a']; [congruence |].
  cbn [all_digits] in Ha. apply andb_true_iff in Ha. destruct Ha as [Ha0 _].
  cbn [append] in Hdec |- *. rewrite (digit_head_unsigned a0 _ Ha0).
  rewrite Hdec.
  cbn [upper String.eqb]. rewrite (is_digit_upper a0 Ha0).
  rewrite !(is_digit_neq a0 _ Ha0) by reflexivity.
  reflexivity.
Qed.

Lemma parse_decimal_dashed :
  forall a rest : string,
    all_digits a = true -> parse_decimal (a ++ String "-" rest) = None.
Proof.
  intros a rest Ha. unfold parse_decimal.
  rewrite (take_digits_app a "-" rest Ha eq_refl).
  cbn. destruct (_ =? _)%string; reflexivity.
Qed.

Lemma parse_decimal_dotted :
  forall a b c : string,
    all_digits a = true -> all_digits b = true ->
    parse_decimal (a ++ String "." (b ++ String "." c)) = None.
Proof.
  intros a b c Ha Hb. unfold parse_decimal.
  rewrite (take_digits_app a "." _ Ha eq_refl).
  rewrite (take_digits_app b "." c Hb eq_refl).
  cbn. destruct (_ =? _)%string; reflexivity.
Qed.

Lemma digits_between_nonempty :
  forall (hi : nat) (g : string), digits_between 1 hi g = true -> g <> "".
Proof.
  intros hi g H E. subst g. discriminate H.
Qed.

(** No text in one of the four date shapes is a [float] literal once
    the slash is excluded. *)
Lemma date_shape_not_float :
  forall s : string,
    strip s = s ->
    contains "/" s = false ->
    existsb (fun p => p s) date_patterns = true ->
    py_float s = None.
Proof.
  intros s Hstrip Hslash Hpat.
  cbn [existsb date_patterns] in Hpat. rewrite orb_false_r in Hpat.
  repeat (apply orb_true_iff in Hpat; destruct Hpat as [Hpat | Hpat]).
  - (* M/D *)
    unfold match_md in Hpat.
    destruct (split_on "/" s) as [| a [| b l]] eqn:E; try discriminate Hpat.
    apply split_two_contains in E. congruence.
  - (* YYYY.M.D *)
    destruct (match_ymd "." s) as [[[y m] d] |] eqn:E; [| discriminate].
    pose proof (match_ymd_fields _ _ _ _ _ E) as (Hy & Hm & Hd).
    unfold match_ymd in E.
    destruct (split_on "." s) as [| a [| b [| c [| e l]]]] eqn:Es;
      try discriminate E.
    destruct (_ && _) in E; [| discriminate]. injection E as -> -> ->.
    pose proof (split_on_join "." s) as J. rewrite Es in J.
    cbn [String.concat append] in J. subst s.
    assert (Hne : y <> "").
    { intro Ey. subst y. discriminate Hy. }
    apply py_float_digits_sep; auto.
    + now apply (digits_between_all 4 4).
    + rewrite contains_char_app, contains_char_cons.
      rewrite !digits_no_contains
        by (first [now apply (digits_between_all 1 2) | reflexivity]).
      reflexivity.
    + apply parse_decimal_dotted;
        [now apply (digits_between_all 4 4) | now apply (digits_between_all 1 2)].
  - (* YYYY-M-D *)
    destruct (match_ymd "-" s) as [[[y m] d] |] eqn:E; [| discriminate].
    pose proof (match_ymd_fields _ _ _ _ _ E) as (Hy & Hm & Hd).
    unfold match_ymd in E.
    destruct (split_on "-" s) as [| a [| b [| c [| e l]]]] eqn:Es;
      try discriminate E.
    destruct (_ && _) in E; [| discriminate]. injection E as -> -> ->.
    pose proof (split_on_join "-" s) as J. rewrite Es in J.
    cbn [String.concat append] in J. subst s.
    assert (Hne : y <> "").
    { intro Ey. subst y. discriminate Hy. }
    apply py_float_digits_sep; auto.
    + now apply (digits_between_all 4 4).
    + rewrite contains_char_app, contains_char_cons.
      rewrite !digits_no_contains
        by (first [now apply (digits_between_all 1 2) | reflexivity]).
      reflexivity.
    + apply parse_decimal_dashed. now apply (digits_between_all 4 4).
  - (* M-D *)
    destruct (match_md "-" s) as [[a b] |] eqn:E; [| discriminate].
    pose proof (match_md_fields _ _ _ _ E) as (Ha & Hb).
    unfold match_md in E.
    destruct (split_on "-" s) as [| x [| y [| z l]]] eqn:Es;
      try discriminate E.
    destruct (_ && _) in E; [| discriminate]. injection E as -> ->.
    pose proof (split_on_join "-" s) as J. rewrite Es in J.
    cbn [String.concat append] in J. subst s.
    apply py_float_digits_sep; auto.
    + now apply (digits_between_all 1 2).
    + now apply (digits_between_nonempty 2).
    + rewrite !digits_no_contains
        by (first [now apply (digits_between_all 1 2) | reflexivity]).
      reflexivity.
    + apply parse_decimal_dashed. now apply (digits_between_all 1 2).
Qed.

Lemma take_digits_spec :
  forall s d r : string,
    take_digits s = (d, r) -> s = d ++ r /\ all_digits d = true.
Proof.
  induction s as [| c s IH]; intros d r H.
  - injection H as <- <-. now split.
  - cbn [take_digits] in H. destruct (is_digit c) eqn:Hc.
    + destruct (take_digits s) as [d' r'] eqn:E. injection H as <- <-.
      destruct (IH d' r' eq_refl) as [-> Hd].
      split; [reflexivity |]. cbn [all_digits]. now rewrite Hc, Hd.
    + injection H as <- <-. now split.
Qed.

Lemma drop_underscores_colon :
  forall (u : string) (prev : ascii) (t : string),
    drop_underscores prev u = Some t -> contains ":" t = contains ":" u.
Proof.
  induction u as [| c u IH]; intros prev t H.
  - cbn [drop_underscores] in H. destruct (Ascii.eqb prev "_"); [discriminate |].
    now injection H as <-.
  - cbn [drop_underscores] in H. rewrite contains_char_cons.
    destruct (Ascii.eqb c "_") eqn:E.
    + apply Ascii.eqb_eq in E. subst c.
      destruct (is_digit prev); [| discriminate].
      now rewrite (IH _ _ H).
    + destruct (Ascii.eqb prev "_" && negb (is_digit c)); [discriminate |].
      destruct (drop_underscores c u) as [t' |] eqn:E'; [| discriminate].
      injection H as <-. rewrite contains_char_cons. now rewrite (IH _ _ E').
Qed.

(** The three places where the literal is split on a fixed character. *)
Lemma sign_split_cases :
  forall t : string,
    let '(neg, body) :=
      match t with
      | String "-"%char r => (true, r)
      | String "+"%char r => (false, r)
      | _ => (false, t)
      end in
    t = body \/ t = String "-" body \/ t = String "+" body.
Proof.
  intros [| c r]; [now left |].
  destruct c as [[] [] [] [] [] [] [] []]; cbn; auto.
Qed.

Lemma exponent_sign_cases :
  forall r3 : string,
    let '(sgn, r4) :=
      match r3 with
      | String "+"%char r => (1, r)
      | String "-"%char r => (-1, r)
      | _ => (1, r3)
      end in
    r3 = r4 \/ r3 = String "-" r4 \/ r3 = String "+" r4.
Proof.
  intros [| c r]; [now left |].
  destruct c as [[] [] [] [] [] [] [] []]; cbn; auto.
Qed.

Lemma fraction_split_cases :
  forall r1 : string,
    let '(fp, r2) :=
      match r1 with
      | String "."%char r => take_digits r
      | _ => (EmptyString, r1)
      end in
    (r1 = r2 \/ r1 = String "." (fp ++ r2)) /\ all_digits fp = true.
Proof.
  intros [| c r]; [now split; [left |] |].
  destruct c as [[] [] [] [] [] [] [] []];
    try (split; [now left | reflexivity]).
  destruct (take_digits r) as [fp r2] eqn:E.
  apply take_digits_spec in E. destruct E as [-> Hfp].
  split; [now right | exact Hfp].
Qed.

(** A decimal literal has no colon. *)
Lemma parse_decimal_no_colon :
  forall (body : string) (p : Z * Z),
    parse_decimal body = Some p -> contains ":" body = false.
Proof.
  intros body p H. unfold parse_decimal in H.
  destruct (take_digits body) as [ip r1] eqn:E1.
  apply take_digits_spec in E1. destruct E1 as [-> Hip].
  pose proof (fraction_split_cases r1) as F.
  destruct (match r1 with
            | String "."%char r => take_digits r
            | _ => (EmptyString, r1)
            end) as [fp r2].
  destruct F as [F Hfp].
  destruct (_ =? _)%string in H; [discriminate |].
  assert (Hr2 : contains ":" r2 = false).
  { destruct r2 as [| c r3]; [reflexivity |].
    destruct (Ascii.eqb c "e" || Ascii.eqb c "E") eqn:Ec; [| discriminate].
    pose proof (exponent_sign_cases r3) as S.
    destruct (match r3 with
              | String "+"%char r => (1, r)
              | String "-"%char r => (-1, r)
              | _ => (1, r3)
              end) as [sgn r4].
    destruct (take_digits r4) as [ep r5] eqn:E4.
    apply take_digits_spec in E4. destruct E4 as [-> Hep].
    destruct ((ep =? "")%string || negb (r5 =? "")%string) eqn:Eg;
      [discriminate |].
    apply orb_false_iff in Eg. destruct Eg as [_ Eg].
    apply negb_false_iff, String.eqb_eq in Eg. subst r5.
    assert (Hc : Ascii.eqb ":" c = false).
    { apply orb_true_iff in Ec.
      destruct Ec as [Ec | Ec]; apply Ascii.eqb_eq in Ec; subst c; reflexivity. }
    assert (Hr4 : contains ":" (ep ++ "") = false).
    { rewrite contains_char_app.
      now rewrite (digits_no_contains ep ":" "" Hep eq_refl). }
    rewrite contains_char_cons, Hc.
    destruct S as [-> | [-> | ->]];
      rewrite ?contains_char_cons; exact Hr4. }
  rewrite contains_char_app.
  rewrite (digits_no_contains ip ":" "" Hip eq_refl).
  destruct F as [-> | ->]; [exact Hr2 |].
  rewrite contains_char_cons, contains_char_app.
  now rewrite (digits_no_contains fp ":" "" Hfp eq_refl), Hr2.
Qed.

(** No [float] literal has a colon. *)
Lemma py_float_no_colon :
  forall (s : string) (x : pyfloat),
    py_float s = Some x -> contains ":" (strip s) = false.
Proof.
  intros s x H. unfold py_float in H.
  destruct (drop_underscores "000" (strip s)) as [t |] eqn:Ed; [| discriminate].
  rewrite <- (drop_underscores_colon _ _ _ Ed).
  pose proof (sign_split_cases t) as S.
  destruct (match t with
            | String "-"%char r => (true, r)
            | String "+"%char r => (false, r)
            | _ => (false, t)
            end) as [neg body].
  assert (Hb : contains ":" body = false).
  { destruct (contains ":" body) eqn:Hc; [| reflexivity].
    pose proof (contains_upper ":" body Hc) as Hup.
    change (upper ":") with ":" in Hup.
    destruct ((upper body =? "INF")%string || (upper body =? "INFINITY")%string)
      eqn:E1.
    - apply orb_true_iff in E1.
      destruct E1 as [E1 | E1]; apply String.eqb_eq in E1;
        rewrite E1 in Hup; discriminate Hup.
    - destruct (upper body =? "NAN")%string eqn:E2.
      + apply String.eqb_eq in E2. rewrite E2 in Hup. discriminate Hup.
      + destruct (parse_decimal body) as [p |] eqn:Ep; [| discriminate].
        apply parse_decimal_no_colon in Ep. congruence. }
  destruct S as [-> | [-> | ->]]; rewrite ?contains_char_cons; exact Hb.
Qed.

(** Trimming keeps every character that is no white space. *)
Lemma lstrip_keeps_char :
  forall (c : ascii) (t : string),
    is_space c = false ->
    contains (String c "") t = true ->
    contains (String c "") (lstrip t) = true.
Proof.
  intros c t Hc. induction t as [| a t IH]; intro H; [exact H |].
  cbn [lstrip]. destruct (is_space a) eqn:Ea; [| exact H].
  rewrite contains_char_cons in H. apply orb_true_iff in H.
  destruct H as [H | H]; [| now apply IH].
  apply Ascii.eqb_eq in H. congruence.
Qed.

Lemma rstrip_keeps_char :
  forall (c : ascii) (t : string),
    is_space c = false ->
    contains (String c "") t = true ->
    contains (String c "") (rstrip t) = true.
Proof.
  intros c t Hc. induction t as [| a t IH]; intro H; [exact H |].
  rewrite contains_char_cons in H. apply orb_true_iff in H.
  cbn [rstrip]. destruct H as [H | H].
  - apply Ascii.eqb_eq in H. subst a. rewrite Hc. cbn [andb].
    rewrite contains_char_cons, Ascii.eqb_refl. reflexivity.
  - specialize (IH H).
    destruct (rstrip t) as [| b u] eqn:E; [discriminate IH |].
    rewrite andb_false_r, contains_char_cons, IH. now rewrite orb_true_r.
Qed.

Lemma strip_keeps_char :
  forall (c : ascii) (t : string),
    is_space c = false ->
    contains (String c "") t = true ->
    contains (String c "") (strip t) = true.
Proof.
  intros c t Hc H. unfold strip.
  now apply rstrip_keeps_char, lstrip_keeps_char.
Qed.

Lemma timestamp_text_has_colon :
  forall y mo d h mi sec : nat,
    contains ":" (py_str (CTimestamp y mo d h mi sec)) = true.
Proof.
  intros y mo d h mi sec. cbn [py_str].
  rewrite contains_char_app. cbn [append].
  rewrite contains_char_cons, contains_char_app. cbn [append].
  rewrite contains_char_cons, Ascii.eqb_refl.
  now rewrite !orb_true_r.
Qed.

(** A cell accepted by [is_numeric] is never date-shaped: the two
    tests of [parse_bal_column] cannot both succeed. *)
Lemma numeric_not_date :
  forall v : cell, is_numeric v = true -> is_date_format v = false.
Proof.
  intros v H. unfold is_numeric in H. unfold is_date_format.
  destruct (isna v); [reflexivity |].
  destruct ((strip (py_str v) =? "")%string
            || mem (strip (py_str v)) special_values); [reflexivity |].
  destruct (any_in ["INHOUSE"; "HAPPO"; "OK"; "RACH"; "/"]
              (upper (strip (py_str v)))) eqn:K5; [discriminate |].
  destruct (py_float (strip (py_str v))) as [x |] eqn:F; [| discriminate].
  unfold any_in in K5 |- *. cbn [existsb] in K5 |- *.
  repeat (apply orb_false_iff in K5; destruct K5 as [? K5]).
  repeat match goal with E : contains _ _ = false |- _ => rewrite E; clear E end.
  cbn [orb].
  assert (Hslash : contains "/" (strip (py_str v)) = false).
  { destruct (contains "/" (strip (py_str v))) eqn:E; [| reflexivity].
    apply contains_upper in E. change (upper "/") with "/" in E. congruence. }
  destruct (existsb (fun p => p (strip (py_str v))) date_patterns) eqn:P.
  - rewrite (date_shape_not_float _ (strip_idem _) Hslash P) in F.
    discriminate F.
  - destruct v as [| | s | n | y mo d h mi sec | b r]; try reflexivity.
    apply py_float_no_colon in F.
    pose proof (timestamp_text_has_colon y mo d h mi sec) as C.
    apply (strip_keeps_char ":" _ eq_refl) in C.
    apply (strip_keeps_char ":" _ eq_refl) in C.
    congruence.
Qed.

(** ** The stage resolver [parse_bal_column] *)

(** Splits a hypothesis [parse_bal_column v q = Ok r] into the branches
    of the function that return. *)
Ltac bal_branches H :=
  unfold parse_bal_column in H;
  repeat match type of H with
         | (if ?c then _ else _) = _ => destruct c eqn:?
         | match ?c with _ => _ end = _ => destruct c eqn:?
         end;
  try discriminate H; injection H as H; subst.

Lemma existsb_head_false :
  forall (A : Type) (f : A -> bool) (a : A) (l : list A),
    existsb f (a :: l) = false -> f a = false.
Proof.
  intros A f a l H. simpl in H. apply orb_false_iff in H. tauto.
Qed.

(** Two worked cells: a remainder of 30 out of 100, and a completion
    date. *)
Example remainder_30_of_100 :
  parse_bal_column (CStr "30") (Some 100)
  = Ok {| completed := 70; pending := 30; status := "partial";
          expected_date := None; note := None; raw_value := None |}.
Proof. vm_compute. reflexivity. Qed.

Example completion_date :
  parse_bal_column (CStr "2025.12.20") (Some 100)
  = Ok {| completed := 100; pending := 0; status := "completed";
          expected_date := Some "2025-12-20"; note := None;
          raw_value := None |}.
Proof. vm_compute. reflexivity. Qed.

(** An infinity passes [is_numeric] and then escapes the handler of
    the numeric branch. *)
Example infinity_raises :
  is_numeric (CStr "inf") = true
  /\ parse_bal_column (CStr "inf") (Some 100) = Raise OverflowError.
Proof. split; vm_compute; reflexivity. Qed.

(** A cell accepted by [is_numeric] is present, is no placeholder and
    carries no marker keyword. *)
Lemma is_numeric_inv :
  forall v : cell,
    is_numeric v = true ->
    isna v = false
    /\ ((strip (py_str v) =? "")%string
        || mem (strip (py_str v)) special_values) = false
    /\ contains "INHOUSE" (upper (strip (py_str v))) = false
    /\ exists x, py_float (strip (py_str v)) = Some x.
Proof.
  intros v H. unfold is_numeric in H.
  destruct (isna v); [discriminate |].
  destruct ((strip (py_str v) =? "")%string
            || mem (strip (py_str v)) special_values); [discriminate |].
  destruct (any_in _ (upper (strip (py_str v)))) eqn:Hkw; [discriminate |].
  unfold any_in in Hkw. apply existsb_head_false in Hkw.
  destruct (py_float (strip (py_str v))) as [x |]; [| discriminate].
  repeat split; auto. now exists x.
Qed.

(** [C1], as stated, fails: a remainder larger than the order quantity
    is reported as written, so the two parts no longer add up. *)
Lemma C1_counterexample :
  ~ (forall (q : Z) (v : cell) (r : stage),
        0 <= q ->
        parse_bal_column v (Some q) = Ok r ->
        status r <> "unknown" ->
        completed r + pending r = q /\ 0 <= completed r <= q).
Proof.
  intro H.
  destruct (H 100 (CStr "150") _ ltac:(lia) eq_refl) as [Hsum _].
  - discriminate.
  - vm_compute in Hsum. discriminate.
Qed.

(** [C1] (amended).  For a quantity [q >= 0], a stage returned with a
    status other than ["unknown"] has [completed = max(0, q - pending)];
    [completed + pending = q] and [0 <= completed <= q] hold whenever
    [0 <= pending <= q], and [pending] leaves that range only for a
    numeric cell, where it is [int(float(text))] as written. *)
Theorem C1_stage_split :
  forall (q : Z) (v : cell) (r : stage),
    0 <= q ->
    parse_bal_column v (Some q) = Ok r ->
    status r <> "unknown" ->
    completed r = Z.max 0 (q - pending r)
    /\ (0 <= pending r <= q ->
        completed r + pending r = q /\ 0 <= completed r <= q)
    /\ (~ (0 <= pending r <= q) ->
        is_numeric v = true
        /\ int_float (strip (py_str v)) = Ok (pending r)).
Proof.
  intros q v r Hq H Hst.
  bal_branches H; cbn [completed pending status] in *;
    try congruence;
    (split; [lia | split; [intros; lia | intros; try lia; auto]]).
Qed.

Lemma C1_stage_split_witness :
  let r := {| completed := 70; pending := 30; status := "partial";
              expected_date := None; note := None; raw_value := None |} in
  completed r = Z.max 0 (100 - pending r)
  /\ (0 <= pending r <= 100 ->
      completed r + pending r = 100 /\ 0 <= completed r <= 100)
  /\ (~ (0 <= pending r <= 100) ->
      is_numeric (CStr "30") = true
      /\ int_float (strip (py_str (CStr "30"))) = Ok (pending r)).
Proof.
  intro r.
  apply (C1_stage_split 100 (CStr "30") r);
    [lia | vm_compute; reflexivity | discriminate].
Defined.

(** [C2], as stated, fails twice: the remainder is truncated, not
    rounded (["30.7"] leaves 30, [round] gives 31), and the bare integer
    [0] yields status ["completed"], not ["partial"]. *)
Lemma C2_counterexample :
  ~ (forall (q : Z) (v : cell) (x : pyfloat) (n : Z),
        0 < q ->
        is_numeric v = true ->
        py_float (strip (py_str v)) = Some x -> py_round x = Ok n ->
        exists r, parse_bal_column v (Some q) = Ok r
                  /\ pending r = n /\ completed r = Z.max 0 (q - n))
  /\ ~ (forall (q n : Z),
          0 <= n < q ->
          exists r, parse_bal_column (CInt n) (Some q) = Ok r
                    /\ status r = "partial" /\ pending r = n).
Proof.
  split; intro H.
  - assert (E : exists x, py_float (strip (py_str (CStr "30.7"))) = Some x
                          /\ py_round x = Ok 31)
      by (vm_compute; eexists; split; reflexivity).
    destruct E as (x & Hx & Hround).
    destruct (H 100 (CStr "30.7") x 31 ltac:(lia) eq_refl Hx Hround)
      as (r & Hr & Hp & _).
    vm_compute in Hr. injection Hr as <-. discriminate Hp.
  - destruct (H 100 0 ltac:(lia)) as (r & Hr & Hs & _).
    vm_compute in Hr. injection Hr as <-. discriminate Hs.
Qed.

(** [C2] (amended).  For [q > 0] and a cell classified as numeric
    (accepted by [is_numeric]) whose text converts to the integer
    [n = int(float(text))] (truncation toward zero), the resolver
    returns [pending = n],
    [completed = max(0, q - n)] and status ["completed"] if [n = 0],
    ["pending"] if [n >= q], ["partial"] otherwise; in particular a
    bare integer [0 < n < q] (below [2^53], where doubles are exact)
    gives ["partial"] with [pending = n] exactly. *)
Theorem C2_numeric_cell :
  forall q : Z,
    0 < q ->
    (forall (v : cell) (n : Z),
        is_numeric v = true ->
        int_float (strip (py_str v)) = Ok n ->
        parse_bal_column v (Some q)
        = Ok {| completed := Z.max 0 (q - n);
                pending := n;
                status := if n =? 0 then "completed"
                          else if q <=? n then "pending" else "partial";
                expected_date := None; note := None; raw_value := None |})
    /\ (forall (v : cell) (n : Z),
           v = CInt n \/ v = CStr (str_of_int n) ->
           0 < n < q -> n < 2 ^ 53 ->
           parse_bal_column v (Some q)
           = Ok {| completed := q - n; pending := n; status := "partial";
                   expected_date := None; note := None; raw_value := None |}).
Proof.
  intros q Hq.
  assert (General : forall (v : cell) (n : Z),
             is_numeric v = true ->
             int_float (strip (py_str v)) = Ok n ->
             parse_bal_column v (Some q)
             = Ok {| completed := Z.max 0 (q - n);
                     pending := n;
                     status := if n =? 0 then "completed"
                               else if q <=? n then "pending" else "partial";
                     expected_date := None; note := None;
                     raw_value := None |}).
  { intros v n Hnum Hint.
    destruct (is_numeric_inv v Hnum) as (Hna & Hsp & Hin & _).
    unfold parse_bal_column.
    now rewrite Hna, Hsp, Hin, (numeric_not_date v Hnum), Hnum, Hint. }
  split; [exact General |].
  intros v n Hv [Hlo Hhi] H53.
  destruct (bare_integer_cell n v Hv ltac:(lia)) as (Hdate & Hnum & Hint).
  rewrite (General v n Hnum Hint).
  destruct (n =? 0) eqn:E0; [apply Z.eqb_eq in E0; lia |].
  destruct (q <=? n) eqn:E1; [apply Z.leb_le in E1; lia |].
  now rewrite Z.max_r by lia.
Qed.

Lemma C2_numeric_cell_witness :
  parse_bal_column (CStr "30.7") (Some 100)
  = Ok {| completed := Z.max 0 (100 - 30);
          pending := 30;
          status := if 30 =? 0 then "completed"
                    else if 100 <=? 30 then "pending" else "partial";
          expected_date := None; note := None; raw_value := None |}
  /\ parse_bal_column (CInt 30) (Some 100)
     = Ok {| completed := 100 - 30; pending := 30; status := "partial";
             expected_date := None; note := None; raw_value := None |}.
Proof.
  split.
  - apply (proj1 (C2_numeric_cell 100 ltac:(lia)) (CStr "30.7") 30);
      [reflexivity | vm_compute; reflexivity].
  - apply (proj2 (C2_numeric_cell 100 ltac:(lia)) (CInt 30) 30);
      [now left | lia | lia].
Defined.

(** A marker keyword in the upper-cased text rules out both the date
    and the number reading. *)
Lemma keyword_not_date :
  forall v : cell,
    any_in ["INHOUSE"; "HAPPO"; "OK"; "RACH"] (upper (strip (py_str v))) = true ->
    is_date_format v = false.
Proof.
  intros v H. unfold is_date_format.
  destruct (isna v); [reflexivity |].
  destruct ((strip (py_str v) =? "")%string
            || mem (strip (py_str v)) special_values); [reflexivity |].
  now rewrite H.
Qed.

Lemma keyword_not_numeric :
  forall v : cell,
    any_in ["INHOUSE"; "HAPPO"; "OK"; "RACH"] (upper (strip (py_str v))) = true ->
    is_numeric v = false.
Proof.
  intros v H. unfold is_numeric.
  destruct (isna v); [reflexivity |].
  destruct ((strip (py_str v) =? "")%string
            || mem (strip (py_str v)) special_values); [reflexivity |].
  apply existsb_exists in H as (k & Hk & Hc).
  assert (Hany : any_in ["INHOUSE"; "HAPPO"; "OK"; "RACH"; "/"]
                   (upper (strip (py_str v))) = true).
  { apply existsb_exists. exists k. split; [simpl in Hk |- *; tauto | exact Hc]. }
  now rewrite Hany.
Qed.

(** [C10].  A present, non-placeholder cell whose text carries one of
    the keywords HAPPO, OK or RACH (as written or after upper-casing)
    but not INHOUSE resolves to status ["unknown"] with nothing
    completed, the full quantity pending and the raw text kept; and a
    returned stage is the INHOUSE marker exactly when the cell is
    present, no placeholder and contains INHOUSE, in which case it is
    complete in full. *)
Theorem C10_keyword_cells :
  forall (q : Z) (v : cell),
    (forall k : string,
        isna v = false ->
        strip (py_str v) <> "" ->
        mem (strip (py_str v)) special_values = false ->
        In k ["HAPPO"; "OK"; "RACH"] ->
        contains k (strip (py_str v)) = true
        \/ contains k (upper (strip (py_str v))) = true ->
        contains "INHOUSE" (upper (strip (py_str v))) = false ->
        parse_bal_column v (Some q)
        = Ok {| completed := 0; pending := q; status := "unknown";
                expected_date := None; note := None;
                raw_value := Some (strip (py_str v)) |})
    /\ (forall r : stage,
           parse_bal_column v (Some q) = Ok r ->
           (note r = Some "INHOUSE"
            <-> isna v = false
                /\ strip (py_str v) <> ""
                /\ mem (strip (py_str v)) special_values = false
                /\ contains "INHOUSE" (upper (strip (py_str v))) = true)
           /\ (note r = Some "INHOUSE" ->
               completed r = q /\ pending r = 0 /\ status r = "completed")).
Proof.
  intros q v. split.
  - intros k Hna Hne Hsp Hk Hin Hnoin.
    assert (Hup : contains k (upper (strip (py_str v))) = true).
    { destruct Hin as [Hin | Hin]; [| exact Hin].
      apply contains_upper in Hin.
      simpl in Hk.
      destruct Hk as [<- | [<- | [<- | []]]]; exact Hin. }
    assert (Hany : any_in ["INHOUSE"; "HAPPO"; "OK"; "RACH"]
                     (upper (strip (py_str v))) = true).
    { unfold any_in. apply existsb_exists. exists k. split; [| exact Hup].
      simpl in Hk |- *. tauto. }
    unfold parse_bal_column.
    rewrite Hna, Hsp, Hnoin.
    rewrite (keyword_not_date v Hany), (keyword_not_numeric v Hany).
    apply String.eqb_neq in Hne. now rewrite Hne.
  - intros r H.
    bal_branches H; cbn [note completed pending status];
      repeat match goal with
             | E : (_ || _) = false |- _ => apply orb_false_iff in E; destruct E
             | E : (_ || _) = true |- _ => apply orb_true_iff in E
             | E : (_ =? _)%string = false |- _ => apply String.eqb_neq in E
             | E : (_ =? _)%string = true |- _ => apply String.eqb_eq in E
             end;
      (split; [split; [intro N; try discriminate N | intros (? & ? & ? & ?)]
              | intro N; try discriminate N]);
      try congruence; auto.
    all: match goal with
         | E : _ \/ _ |- _ =>
             destruct E as [E | E]; [apply String.eqb_eq in E |]; congruence
         end.
Qed.

Lemma C10_keyword_cells_witness :
  parse_bal_column (CStr "NO HAPPO") (Some 100)
  = Ok {| completed := 0; pending := 100; status := "unknown";
          expected_date := None; note := None;
          raw_value := Some (strip (py_str (CStr "NO HAPPO"))) |}.
Proof.
  apply (proj1 (C10_keyword_cells 100 (CStr "NO HAPPO")) "HAPPO");
    [reflexivity | discriminate | reflexivity | simpl; tauto
    | left; reflexivity | reflexivity].
Defined.

(** ** The dashboard's delay rules *)

Lemma gate_open :
  forall a b : string,
    a <> "" -> b <> "" -> a <> "00:00:00" -> b <> "00:00:00" ->
    ((a =? "")%string || (b =? "")%string
     || (a =? "00:00:00")%string || (b =? "00:00:00")%string) = false.
Proof.
  intros a b H1 H2 H3 H4.
  apply String.eqb_neq in H1, H2, H3, H4. now rewrite H1, H2, H3, H4.
Qed.

Lemma gate_open_inv :
  forall a b : string,
    ((a =? "")%string || (b =? "")%string
     || (a =? "00:00:00")%string || (b =? "00:00:00")%string) = false ->
    a <> "" /\ b <> "" /\ a <> "00:00:00" /\ b <> "00:00:00".
Proof.
  intros a b H.
  repeat (apply orb_false_iff in H; destruct H as [H ?]).
  repeat split; now apply String.eqb_neq.
Qed.

(** [C4].  [isDelayed] holds exactly when SDD and CRD are present, are
    not the zero-time sentinel and read as dates, the warehouse-out
    stage is not complete ([completed < quantity]), no code04 override
    is set, and the SDD date is strictly later than the CRD date. *)
Theorem C4_isDelayed_iff :
  forall (Date_parse : string -> option Z) (d : order),
    isDelayed Date_parse d = true
    <-> exists sddDate crdDate : Z,
          (exists crd_s : string,
                crd d = Some crd_s
                /\ sddValue d <> "" /\ crd_s <> ""
                /\ sddValue d <> "00:00:00" /\ crd_s <> "00:00:00"
                /\ Date_parse (replace_dots (sddValue d)) = Some sddDate
                /\ Date_parse (replace_dots crd_s) = Some crdDate)
          /\ completed (wh_out (production d)) < quantity d
          /\ js_truthy (code04 d) = false
          /\ crdDate < sddDate.
Proof.
  intros P d. unfold isDelayed. split.
  - destruct (crd d) as [c |]; [| discriminate].
    destruct (_ || _) eqn:G; [discriminate |].
    apply gate_open_inv in G. destruct G as (G1 & G2 & G3 & G4).
    destruct (quantity d <=? _) eqn:Q; [discriminate |].
    destruct (js_truthy (code04 d)); [discriminate |].
    destruct (P (replace_dots (sddValue d))) as [ts |] eqn:Hs; [| discriminate].
    destruct (P (replace_dots c)) as [tc |] eqn:Hcr; [| discriminate].
    intro H. exists ts, tc. apply Z.leb_gt in Q. apply Z.ltb_lt in H.
    split; [exists c; repeat split; auto | repeat split; auto].
  - intros (ts & tc & (c & Hc & G1 & G2 & G3 & G4 & Hs & Hcr) & Q & J & L).
    rewrite Hc, (gate_open _ _ G1 G2 G3 G4), J, Hs, Hcr.
    apply Z.leb_gt in Q. rewrite Q. now apply Z.ltb_lt.
Qed.

Lemma C4_isDelayed_iff_witness :
  exists o : order,
    parse_factory_file "A"
      [CStr "U1" :: repeat CNaN 4
         ++ [CStr "2025-12-20"; CNaN; CStr "2025-12-22"] ++ repeat CNaN 9
         ++ [CInt 50] ++ repeat CNaN 44] = [o]
    /\ isDelayed utc_date_parse o = true.
Proof.
  eexists. split; [vm_compute; reflexivity |].
  apply (proj2 (C4_isDelayed_iff utc_date_parse _)).
  exists 1766361600000, 1766188800000.
  split; [exists "2025-12-20" |];
    repeat split; try discriminate; vm_compute; reflexivity.
Defined.

(** [C5].  [isWarning] holds exactly when the order is not delayed, SDD
    and CRD are present and read as dates, the warehouse-out stage is
    not complete and the CRD date is between 0 and 3 days after the SDD
    date; in particular equal SDD and CRD dates with no override and an
    incomplete warehouse-out stage give a warning. *)
Theorem C5_isWarning_iff :
  forall (Date_parse : string -> option Z) (d : order),
    (isWarning Date_parse d = true
     <-> isDelayed Date_parse d = false
         /\ exists sddDate crdDate : Z,
              (exists crd_s : string,
                crd d = Some crd_s
                /\ sddValue d <> "" /\ crd_s <> ""
                /\ sddValue d <> "00:00:00" /\ crd_s <> "00:00:00"
                /\ Date_parse (replace_dots (sddValue d)) = Some sddDate
                /\ Date_parse (replace_dots crd_s) = Some crdDate)
              /\ completed (wh_out (production d)) < quantity d
              /\ 0 <= crdDate - sddDate <= 3 * ms_per_day)
    /\ (forall (s : string) (t : Z),
           crd d = Some s -> sddValue d = s ->
           s <> "" -> s <> "00:00:00" ->
           Date_parse (replace_dots s) = Some t ->
           js_truthy (code04 d) = false ->
           completed (wh_out (production d)) < quantity d ->
           isWarning Date_parse d = true).
Proof.
  intros P d. split; [split |].
  - unfold isWarning.
    destruct (crd d) as [c |] eqn:Hc; [| discriminate].
    destruct (_ || _) eqn:G; [discriminate |].
    apply gate_open_inv in G. destruct G as (G1 & G2 & G3 & G4).
    destruct (quantity d <=? _) eqn:Q; [discriminate |].
    destruct (isDelayed P d); [discriminate |].
    destruct (P (replace_dots (sddValue d))) as [ts |] eqn:Hs; [| discriminate].
    destruct (P (replace_dots c)) as [tc |] eqn:Hcr; [| discriminate].
    intro H. apply andb_true_iff in H. destruct H as [H1 H2].
    apply Z.leb_le in H1, H2. apply Z.leb_gt in Q.
    split; [reflexivity |]. exists ts, tc.
    split; [exists c; repeat split; auto | repeat split; auto].
  - intros (ND & ts & tc & (c & Hc & G1 & G2 & G3 & G4 & Hs & Hcr) & Q & L1 & L2).
    unfold isWarning.
    rewrite Hc, (gate_open _ _ G1 G2 G3 G4), ND, Hs, Hcr.
    apply Z.leb_gt in Q. rewrite Q.
    apply andb_true_iff. split; now apply Z.leb_le.
  - intros s t Hc Hs N1 N2 Hp J Q.
    unfold isWarning, isDelayed.
    rewrite Hc, Hs, (gate_open _ _ N1 N1 N2 N2), J, Hp.
    apply Z.leb_gt in Q. rewrite Q.
    rewrite Z.ltb_irrefl, Z.sub_diag. reflexivity.
Qed.

Lemma C5_isWarning_iff_witness :
  exists o : order,
    parse_factory_file "A"
      [CStr "U1" :: repeat CNaN 4
         ++ [CStr "2025-12-20"; CNaN; CStr "2025.12.20"] ++ repeat CNaN 9
         ++ [CInt 50] ++ repeat CNaN 44] = [o]
    /\ isWarning utc_date_parse o = true.
Proof.
  eexists. split; [vm_compute; reflexivity |].
  apply (proj2 (C5_isWarning_iff utc_date_parse _) "2025-12-20" 1766188800000);
    [reflexivity | reflexivity | discriminate | discriminate
    | vm_compute; reflexivity | reflexivity | vm_compute; reflexivity].
Defined.

(** [C6].  For every order exactly one of the three classifications
    holds: delayed ([isDelayed]), warning ([isWarning]) or on time
    (neither). *)
Theorem C6_exactly_one_class :
  forall (Date_parse : string -> option Z) (d : order),
    let delayed := isDelayed Date_parse d = true in
    let warning := isWarning Date_parse d = true in
    let on_time := isDelayed Date_parse d = false
                   /\ isWarning Date_parse d = false in
    (delayed \/ warning \/ on_time)
    /\ ~ (delayed /\ warning)
    /\ ~ (delayed /\ on_time)
    /\ ~ (warning /\ on_time).
Proof.
  intros P d delayed warning on_time. subst delayed warning on_time.
  assert (X : isDelayed P d = true -> isWarning P d = false).
  { intro D. unfold isWarning. rewrite D.
    destruct (crd d); [| reflexivity].
    destruct (_ || _); [reflexivity |].
    destruct (_ <=? _); reflexivity. }
  destruct (isDelayed P d) eqn:D; destruct (isWarning P d) eqn:W;
    try (specialize (X eq_refl); discriminate X);
    repeat split; try tauto; intros [? ?]; try discriminate;
    intuition discriminate.
Qed.

(** ** Row normalisation *)

Lemma bind_Next :
  forall (A B : Type) (m : M A) (k : A -> M B) qs (b : B) qs',
    bind m k qs = (Next b, qs') ->
    exists (a : A) qs1, m qs = (Next a, qs1) /\ k a qs1 = (Next b, qs').
Proof.
  intros A B m k qs b qs' H. unfold bind in H.
  destruct (m qs) as [[a | c | x] qs1]; try discriminate.
  now exists a, qs1.
Qed.

Lemma lift_Next :
  forall (A : Type) (r : res A) qs (a : A) qs',
    lift r qs = (Next a, qs') -> r = Ok a.
Proof.
  intros A r qs a qs' H. unfold lift in H.
  destruct r; [injection H as -> _; reflexivity | discriminate].
Qed.

Lemma ret_Next :
  forall (A : Type) (a b : A) qs qs', ret a qs = (Next b, qs') -> a = b.
Proof.
  intros A a b qs qs' H. unfold ret in H. now injection H.
Qed.

(** One inversion step in a hypothesis [bind m k qs = (Next o, qs')]. *)
Ltac bind_step H :=
  let a := fresh "a" in
  let q := fresh "q" in
  let E := fresh "E" in
  apply bind_Next in H; destruct H as (a & q & E & H).

(** What a row that yields an order must satisfy, and where the
    order's factory, quantity and CRD come from. *)
Lemma row_body_Next :
  forall (fac : string) (cols : columns) (r : row) qs (o : order) qs',
    row_body fac cols r qs = (Next o, qs') ->
    let quantity_v := iloc_or_none r (col_quantity cols) in
    let crd_val := iloc_or_none r (col_crd cols) in
    is_header_row r cols = false
    /\ is_valid_quantity quantity_v = true
    /\ int_float (strip (py_str quantity_v)) = Ok (quantity o)
    /\ factory o = fac
    /\ crd o = (if truthy crd_val
                   && (strip (py_str crd_val) =? "00:00:00")%string
                then Some ""
                else if is_date_format crd_val
                     then parse_date_to_string crd_val default_year
                     else Some (text_of crd_val)).
Proof.
  intros fac cols r qs o qs' H quantity_v crd_val.
  unfold row_body in H.
  destruct (is_header_row r cols); [discriminate |].
  fold quantity_v in H.
  destruct (is_valid_quantity quantity_v); [| discriminate].
  cbn [negb] in H.
  bind_step H. apply lift_Next in E. rename a into qty, E into Hqty.
  destruct (_ && _) in H; [discriminate |].
  do 7 (bind_step H; clear E).
  apply bind_Next in H. destruct H as (f_crd & q_crd & Hcrd & H).
  fold crd_val in Hcrd.
  assert (Hf : f_crd = (if truthy crd_val
                           && (strip (py_str crd_val) =? "00:00:00")%string
                        then Some ""
                        else if is_date_format crd_val
                             then parse_date_to_string crd_val default_year
                             else Some (text_of crd_val))).
  { destruct (truthy crd_val && _).
    - bind_step Hcrd. apply ret_Next in Hcrd. now symmetry.
    - apply ret_Next in Hcrd. now symmetry. }
  clear Hcrd.
  do 13 (bind_step H; clear E).
  apply ret_Next in H. subst o. cbn [quantity factory crd].
  repeat split; auto.
Qed.

Lemma row_step_records :
  forall (fac : string) (cols : columns) (st : parse_state) (r : row) (o : order),
    In o (records (row_step fac cols st r)) ->
    In o (records st)
    \/ exists qs', row_body fac cols r (stats st) = (Next o, qs').
Proof.
  intros fac cols st r o H. unfold row_step in H.
  destruct (row_body fac cols r (stats st)) as [[rec | c | x] qs'];
    cbn [records] in H; auto.
  apply in_app_or in H. destruct H as [H | [<- | []]]; [now left |].
  right. now exists qs'.
Qed.

(** Every record of the result comes from a row whose body ran to its
    end. *)
Lemma run_rows_records :
  forall (fac : string) (cols : columns) (df : list row) (st : parse_state)
         (o : order),
    In o (records (fold_left (row_step fac cols) df st)) ->
    In o (records st)
    \/ exists (r : row) qs qs',
         In r df /\ row_body fac cols r qs = (Next o, qs').
Proof.
  intros fac cols df. induction df as [| r df IH]; intros st o H.
  - now left.
  - cbn [fold_left] in H. apply IH in H. destruct H as [H | H].
    + apply row_step_records in H. destruct H as [H | [qs' H]]; [now left |].
      right. exists r, (stats st), qs'. split; [now left | exact H].
    + right. destruct H as (r' & qs & qs' & Hin & H).
      exists r', qs, qs'. split; [now right | exact H].
Qed.

Lemma emitted_from_row :
  forall (fac : string) (df : list row) (o : order),
    In o (parse_factory_file fac df) ->
    exists (r : row) qs qs',
      In r df /\ row_body fac (columns_for fac) r qs = (Next o, qs').
Proof.
  intros fac df o H. unfold parse_factory_file, run_rows in H.
  apply run_rows_records in H. destruct H as [[] | H]. exact H.
Qed.

(** A quantity cell that passes [is_valid_quantity] never truncates to
    a negative number; it can truncate to zero. *)
Lemma valid_quantity_nonneg :
  forall (v : cell) (n : Z),
    is_valid_quantity v = true ->
    int_float (strip (py_str v)) = Ok n ->
    0 <= n.
Proof.
  intros v n Hv Hn. unfold is_valid_quantity in Hv.
  destruct (isna v); [discriminate |].
  destruct (mem _ invalid_values); [discriminate |].
  unfold int_float in Hn.
  destruct (py_float (strip (py_str v))) as [[| neg | m e] |];
    try discriminate.
  cbn [float_gt0] in Hv. apply Z.ltb_lt in Hv.
  cbn [py_int] in Hn. injection Hn as <-.
  destruct (0 <=? e) eqn:He.
  - apply Z.leb_le in He. apply Z.mul_nonneg_nonneg; [lia |].
    now apply Z.pow_nonneg.
  - apply Z.leb_gt in He. apply Z.quot_pos; [lia |].
    apply Z.pow_pos_nonneg; lia.
Qed.

(** The part of [C3] that the code keeps: rows without a valid quantity
    yield no order, and no order has a negative quantity. *)
Lemma emitted_quantity_checked :
  forall (fac : string) (df : list row) (o : order),
    In o (parse_factory_file fac df) ->
    0 <= quantity o
    /\ exists r : row,
         In r df
         /\ is_valid_quantity
              (iloc_or_none r (col_quantity (columns_for fac))) = true.
Proof.
  intros fac df o H.
  apply emitted_from_row in H. destruct H as (r & qs & qs' & Hin & H).
  apply row_body_Next in H. destruct H as (_ & Hv & Hq & _).
  split; [exact (valid_quantity_nonneg _ _ Hv Hq) | now exists r].
Qed.

(** [C3] (the code departs from it).  A row whose quantity cell holds
    0.5 passes [is_valid_quantity] ([0.5 > 0]) and is then truncated by
    [int(float(...))]: the order is emitted with quantity 0. *)
Theorem C3_fractional_quantity_emitted :
  exists o : order,
    parse_factory_file "A"
      [CStr "U1" :: repeat CNaN 16 ++ [CObj true "0.5"] ++ repeat CNaN 44]
    = [o]
    /\ is_valid_quantity (CObj true "0.5") = true
    /\ quantity o = 0.
Proof.
  eexists. split; [vm_compute; reflexivity |]. split; reflexivity.
Qed.

(** [C7], as stated, fails: an unknown factory identifier is processed
    with the column positions of factory A (the AQL flag below is read
    at A's column 25) and yields an order. *)
Lemma C7_counterexample :
  exists o : order,
    parse_factory_file "Z"
      [CStr "U1" :: repeat CNaN 16 ++ [CInt 50] ++ repeat CNaN 7
         ++ [CStr "YES"] ++ repeat CNaN 36]
    = [o]
    /\ factory o = "Z" /\ quantity o = 50 /\ aql o = true.
Proof.
  eexists. split; [vm_compute; reflexivity |]. repeat split; reflexivity.
Qed.

(** [C7] (amended).  For a factory identifier other than A, B, C and D
    the rows are processed under factory A's column schema; no error is
    raised. *)
Theorem C7_unknown_factory_uses_A :
  forall (fac : string) (df : list row),
    fac <> "A" -> fac <> "B" -> fac <> "C" -> fac <> "D" ->
    columns_for fac = COLUMNS_A
    /\ parse_factory_file fac df = records (run_rows fac COLUMNS_A df).
Proof.
  intros fac df HA HB HC HD.
  assert (E : columns_for fac = COLUMNS_A).
  { unfold columns_for.
    apply String.eqb_neq in HA, HB, HC, HD. now rewrite HA, HB, HC, HD. }
  split; [exact E |]. unfold parse_factory_file. now rewrite E.
Qed.

Lemma C7_unknown_factory_uses_A_witness :
  columns_for "Z" = COLUMNS_A
  /\ parse_factory_file "Z" [[CStr "U1"]]
     = records (run_rows "Z" COLUMNS_A [[CStr "U1"]]).
Proof.
  apply (C7_unknown_factory_uses_A "Z" [[CStr "U1"]]); discriminate.
Defined.

(** [C9] (the code departs from it).  For an order already shipped in
    full whose SDD is later than its CRD, the report's
    [is_delayed_record] says delayed while the dashboard's [isDelayed]
    says not delayed, whatever the date parser. *)
Theorem C9_shipped_order_disagreement :
  exists o : order,
    parse_factory_file "A"
      [CStr "U1" :: repeat CNaN 4
         ++ [CStr "2025-12-20"; CNaN; CStr "2025-12-22"] ++ repeat CNaN 9
         ++ [CInt 50] ++ repeat CNaN 37 ++ [CStr "12/23"] ++ repeat CNaN 6]
    = [o]
    /\ crd o = Some "2025-12-20" /\ sddValue o = "2025-12-22"
    /\ code04 o = None
    /\ completed (wh_out (production o)) = quantity o
    /\ is_delayed_record o = true
    /\ forall Date_parse : string -> option Z, isDelayed Date_parse o = false.
Proof.
  eexists. split; [vm_compute; reflexivity |].
  repeat split; reflexivity.
Qed.

(** ** The CRD field *)

(** [C8], as stated, fails: CRD text that is no date is copied into the
    order, and a date-shaped cell is not checked against the calendar. *)
Lemma C8_counterexample :
  exists o1 o2 : order,
    parse_factory_file "A"
      [CStr "U1" :: repeat CNaN 4 ++ [CStr "TBD"] ++ repeat CNaN 11
         ++ [CInt 50] ++ repeat CNaN 44] = [o1]
    /\ crd o1 = Some "TBD"
    /\ utc_date_parse "TBD" = None
    /\ parse_factory_file "A"
         [CStr "U1" :: repeat CNaN 4 ++ [CStr "13/45"] ++ repeat CNaN 11
            ++ [CInt 50] ++ repeat CNaN 44] = [o2]
    /\ crd o2 = Some "2025-13-45"
    /\ utc_date_parse "2025-13-45" = None.
Proof.
  eexists. eexists.
  split; [vm_compute; reflexivity |].
  split; [reflexivity |]. split; [reflexivity |].
  split; [vm_compute; reflexivity |].
  split; reflexivity.
Qed.

(** [C8] (amended).  Every retained order is what the row body yields
    for a row of the sheet, and the CRD cell [v] of any row that yields
    it determines its CRD field: the field is empty when [v] is missing
    or is the zero-time sentinel ['00:00:00']; for a date-shaped
    [Timestamp] it is the date in [%Y-%m-%d] form; for date-shaped text
    in one of the shapes [M/D], [YYYY.M.D], [YYYY-M-D] it is the
    normalised text, of the shape [dddd-dd-dd] (month and day are not
    range-checked); text that is neither date-shaped nor a placeholder
    token is copied, trimmed.  The last case is stated for text in the
    ASCII range, where [strip], [\d] and [upper] are Python's. *)
Theorem C8_crd_field :
  forall (fac : string) (df : list row) (o : order),
    In o (parse_factory_file fac df) ->
    (exists (r : row) (qs qs' : quality_stats),
        In r df /\ row_body fac (columns_for fac) r qs = (Next o, qs'))
    /\ forall (r : row) (qs qs' : quality_stats),
         row_body fac (columns_for fac) r qs = (Next o, qs') ->
         let v := iloc_or_none r (col_crd (columns_for fac)) in
         (isna v = true -> crd o = Some "")
         /\ (truthy v = true -> strip (py_str v) = "00:00:00" ->
             crd o = Some "")
         /\ (forall y mo d h mi sec : nat,
                v = CTimestamp y mo d h mi sec ->
                is_date_format v = true ->
                crd o = Some (strftime_ymd y mo d))
         /\ (is_date_format v = true ->
             is_timestamp v = false ->
             (is_some (match_md "/" (strip (py_str v)))
              || is_some (match_ymd "." (strip (py_str v)))
              || is_some (match_ymd "-" (strip (py_str v)))) = true ->
             exists s : string,
               crd o = Some s
               /\ parse_date_to_string v default_year = Some s
               /\ canonical_shape s = true)
         /\ (isna v = false ->
             forallb (fun c => (nat_of_ascii c <? 128)%nat)
               (list_ascii_of_string (py_str v)) = true ->
             mem (strip (py_str v)) special_values = false ->
             is_date_format v = false ->
             crd o = Some (strip (py_str v))).
Proof.
  intros fac df o H.
  split; [exact (emitted_from_row fac df o H) |].
  clear H. intros r qs qs' H.
  apply row_body_Next in H. destruct H as (_ & _ & _ & _ & Hcrd).
  intro v. fold v in Hcrd. rewrite Hcrd. clear Hcrd.
  split; [| split; [| split; [| split]]].
  - intro Hna. unfold is_date_format, text_of, notna. rewrite Hna.
    destruct v; try discriminate Hna; reflexivity.
  - intros Ht Hz. rewrite Ht, Hz. reflexivity.
  - intros y mo d h mi sec Ev Hd.
    destruct (date_format_not_zero_time v Hd) as [Hna Hz].
    rewrite Hz, andb_false_r, Hd. now rewrite Ev.
  - intros Hd Hts Hpat.
    destruct (date_format_not_zero_time v Hd) as [Hna Hz].
    rewrite Hz, andb_false_r, Hd.
    destruct (parse_date_text_canonical v Hna Hts Hpat) as (s & Hs & Hc).
    exists s. now rewrite Hs.
  - intros Hna _ Hsp Hd.
    assert (Hz : (strip (py_str v) =? "00:00:00")%string = false).
    { unfold mem, special_values in Hsp. cbn [existsb] in Hsp.
      apply orb_false_iff in Hsp. tauto. }
    rewrite Hz, andb_false_r, Hd. unfold text_of, notna. now rewrite Hna.
Qed.

Lemma C8_crd_field_witness :
  exists o : order,
    parse_factory_file "A"
      [CStr "U1" :: repeat CNaN 4 ++ [CStr "12/20"] ++ repeat CNaN 11
         ++ [CInt 50] ++ repeat CNaN 44] = [o]
    /\ crd o = Some "2025-12-20"
    /\ (exists (r : row) (qs qs' : quality_stats),
           In r [CStr "U1" :: repeat CNaN 4 ++ [CStr "12/20"]
                   ++ repeat CNaN 11 ++ [CInt 50] ++ repeat CNaN 44]
           /\ row_body "A" (columns_for "A") r qs = (Next o, qs'))
    /\ forall (r : row) (qs qs' : quality_stats),
         row_body "A" (columns_for "A") r qs = (Next o, qs') ->
         let v := iloc_or_none r (col_crd (columns_for "A")) in
         (isna v = true -> crd o = Some "")
         /\ (truthy v = true -> strip (py_str v) = "00:00:00" ->
             crd o = Some "")
         /\ (forall y mo d h mi sec : nat,
                v = CTimestamp y mo d h mi sec ->
                is_date_format v = true ->
                crd o = Some (strftime_ymd y mo d))
         /\ (is_date_format v = true ->
             is_timestamp v = false ->
             (is_some (match_md "/" (strip (py_str v)))
              || is_some (match_ymd "." (strip (py_str v)))
              || is_some (match_ymd "-" (strip (py_str v)))) = true ->
             exists s : string,
               crd o = Some s
               /\ parse_date_to_string v default_year = Some s
               /\ canonical_shape s = true)
         /\ (isna v = false ->
             forallb (fun c => (nat_of_ascii c <? 128)%nat)
               (list_ascii_of_string (py_str v)) = true ->
             mem (strip (py_str v)) special_values = false ->
             is_date_format v = false ->
             crd o = Some (strip (py_str v))).
Proof.
  eexists. split; [vm_compute; reflexivity |].
  split; [reflexivity |].
  apply (C8_crd_field "A"
           [CStr "U1" :: repeat CNaN 4 ++ [CStr "12/20"] ++ repeat CNaN 11
              ++ [CInt 50] ++ repeat CNaN 44]).
  now left.
Defined.

(** * Further properties of the code

    Properties of the functions treated above, of the functions they
    call, and of their callers ([main] of both scripts,
    the statistics of [create_v6_dashboard.py], the workbook of
    [scripts/generate_consolidated.py]). *)

(** ** The stage resolver: errors and date cells *)

(** When [parse_bal_column] raises: only in the numeric branch, on an
    infinity. *)
Lemma bal_raise_inv :
  forall (v : cell) (q : option Z) (x : exn),
    parse_bal_column v q = Raise x ->
    x = OverflowError
    /\ is_numeric v = true
    /\ exists neg : bool, py_float (strip (py_str v)) = Some (FInf neg).
Proof.
  intros v q x H. unfold parse_bal_column in H.
  destruct (isna v); [discriminate |].
  destruct (_ || _); [discriminate |].
  destruct (contains "INHOUSE" _); [discriminate |].
  destruct (is_date_format v); [discriminate |].
  destruct (is_numeric v); [| discriminate].
  unfold int_float in H.
  destruct (py_float (strip (py_str v))) as [[| neg | m e] |];
    cbn [py_int] in H; try discriminate.
  injection H as <-. split; [reflexivity |]. split; [reflexivity |].
  now exists neg.
Qed.

(** [X1].  [parse_bal_column] raises nothing but [OverflowError], and
    raises it exactly for a cell accepted by [is_numeric] whose number
    is an infinity; every other cell yields a stage. *)
Theorem X1_bal_raises_on_infinity_only :
  forall (v : cell) (q : option Z),
    (forall x : exn, parse_bal_column v q = Raise x -> x = OverflowError)
    /\ (parse_bal_column v q = Raise OverflowError
        <-> is_numeric v = true
            /\ exists neg : bool,
                 py_float (strip (py_str v)) = Some (FInf neg)).
Proof.
  intros v q.
  pose proof (bal_raise_inv v q) as Raises.
  split.
  - intros x H. now destruct (Raises x H).
  - split.
    + intro H. now destruct (Raises _ H) as (_ & Hn & Hf).
    + intros (Hnum & neg & Hf).
      destruct (is_numeric_inv v Hnum) as (Hna & Hsp & Hin & _).
      unfold parse_bal_column.
      rewrite Hna, Hsp, Hin, (numeric_not_date v Hnum), Hnum.
      unfold int_float. now rewrite Hf.
Qed.

(** A date-shaped cell is present, is no placeholder and carries no
    marker keyword. *)
Lemma date_format_inv :
  forall v : cell,
    is_date_format v = true ->
    isna v = false
    /\ ((strip (py_str v) =? "")%string
        || mem (strip (py_str v)) special_values) = false
    /\ contains "INHOUSE" (upper (strip (py_str v))) = false.
Proof.
  intros v H. unfold is_date_format in H.
  destruct (isna v); [discriminate |].
  destruct ((strip (py_str v) =? "")%string
            || mem (strip (py_str v)) special_values); [discriminate |].
  destruct (any_in _ (upper (strip (py_str v)))) eqn:Hkw; [discriminate |].
  unfold any_in in Hkw. apply existsb_head_false in Hkw. auto.
Qed.

Lemma parse_date_present :
  forall (v : cell) (y : Z),
    isna v = false -> parse_date_to_string v y <> None.
Proof.
  intros v y Hna. unfold parse_date_to_string. rewrite Hna.
  destruct v; try discriminate;
    destruct (match_md "/" _) as [[? ?] |]; try discriminate;
    destruct (match_ymd "." _) as [[[? ?] ?] |]; try discriminate;
    destruct (match_ymd "-" _) as [[[? ?] ?] |]; discriminate.
Qed.

(** The stage returned for a date-shaped cell. *)
Lemma bal_date_cell :
  forall (v : cell) (q : Z),
    is_date_format v = true ->
    parse_bal_column v (Some q)
    = Ok {| completed := q; pending := 0; status := "completed";
            expected_date := parse_date_to_string v default_year;
            note := None; raw_value := None |}.
Proof.
  intros v q Hd. destruct (date_format_inv v Hd) as (Hna & Hsp & Hin).
  unfold parse_bal_column. now rewrite Hna, Hsp, Hin, Hd.
Qed.

(** [X2].  A date in a BAL cell means the stage is complete in full:
    nothing is left pending and the date is kept as [expected_date];
    and a stage carries an [expected_date] only if its cell was
    date-shaped. *)
Theorem X2_date_cell_completes_stage :
  forall (v : cell) (q : Z),
    (is_date_format v = true ->
     parse_bal_column v (Some q)
     = Ok {| completed := q; pending := 0; status := "completed";
             expected_date := parse_date_to_string v default_year;
             note := None; raw_value := None |}
     /\ parse_date_to_string v default_year <> None)
    /\ (forall r : stage,
           parse_bal_column v (Some q) = Ok r ->
           expected_date r <> None ->
           is_date_format v = true /\ pending r = 0 /\ completed r = q).
Proof.
  intros v q. split.
  - intro Hd. destruct (date_format_inv v Hd) as (Hna & _).
    split; [now apply bal_date_cell | now apply parse_date_present].
  - intros r H Hex.
    bal_branches H; cbn [expected_date pending completed] in *;
      try congruence; auto.
Qed.

Lemma X2_date_cell_completes_stage_witness :
  parse_bal_column (CTimestamp 2025 12 20 0 0 0) (Some 100)
  = Ok {| completed := 100; pending := 0; status := "completed";
          expected_date :=
            parse_date_to_string (CTimestamp 2025 12 20 0 0 0) default_year;
          note := None; raw_value := None |}
  /\ parse_date_to_string (CTimestamp 2025 12 20 0 0 0) default_year <> None.
Proof.
  apply (proj1 (X2_date_cell_completes_stage (CTimestamp 2025 12 20 0 0 0) 100)).
  vm_compute. reflexivity.
Defined.

(** ** [parse_sdd] *)

(** [X3].  [parse_sdd] prefers the current SDD cell: a current cell that
    is present and is neither blank nor one of ['00:00:00'], ['#N/A'],
    ['nan'] decides the result on its own (its normalised date, or its
    trimmed text); otherwise the original cell decides in the same way;
    the result is [None] exactly when neither cell is usable. *)
Theorem X3_parse_sdd_prefers_current :
  forall original current : cell,
    let usable (v : cell) : bool :=
      negb (isna v)
      && negb (strip (py_str v) =? "")%string
      && negb (mem (strip (py_str v)) ["00:00:00"; "#N/A"; "nan"]) in
    let reading (v : cell) : option string :=
      if is_date_format v then parse_date_to_string v default_year
      else Some (strip (py_str v)) in
    parse_sdd original current
    = (if usable current then reading current
       else if usable original then reading original
       else None)
    /\ (parse_sdd original current = None
        <-> usable current = false /\ usable original = false).
Proof.
  intros original current usable reading.
  assert (Hread : forall v, usable v = true -> reading v <> None).
  { intros v Hu. unfold usable in Hu. unfold reading.
    apply andb_true_iff in Hu. destruct Hu as [Hu _].
    apply andb_true_iff in Hu. destruct Hu as [Hu _].
    apply negb_true_iff in Hu.
    destruct (is_date_format v); [now apply parse_date_present | discriminate]. }
  assert (Hstep : forall v rest,
             parse_sdd_loop (v :: rest)
             = if usable v then reading v else parse_sdd_loop rest).
  { intros v rest. cbn [parse_sdd_loop]. unfold usable, reading.
    destruct (isna v); [reflexivity |]. cbn [negb andb].
    destruct (negb (strip (py_str v) =? "")%string
              && negb (mem (strip (py_str v)) ["00:00:00"; "#N/A"; "nan"]));
      reflexivity. }
  assert (E : parse_sdd original current
              = if usable current then reading current
                else if usable original then reading original else None).
  { unfold parse_sdd. rewrite !Hstep. reflexivity. }
  split; [exact E |].
  rewrite E. split.
  - intro H. destruct (usable current) eqn:Uc.
    + now destruct (Hread current Uc).
    + destruct (usable original) eqn:Uo; [| now split].
      now destruct (Hread original Uo).
  - intros [-> ->]. reflexivity.
Qed.

(** ** One row, field by field *)

(** The value after the zero-time filter of the SDD cells. *)
Lemma drop_zero_time_Next :
  forall (v w : cell) qs qs',
    drop_zero_time v qs = (Next w, qs') ->
    w = (if truthy v && (strip (py_str v) =? "00:00:00")%string
         then CNone else v).
Proof.
  intros v w qs qs' H. unfold drop_zero_time in H.
  destruct (truthy v && _).
  - bind_step H. apply ret_Next in H. now symmetry.
  - apply ret_Next in H. now symmetry.
Qed.

(** Where the remaining fields of an emitted order come from. *)
Lemma row_body_fields :
  forall (fac : string) (cols : columns) (r : row) qs (o : order) qs',
    row_body fac cols r qs = (Next o, qs') ->
    let cell_at (i : nat) : cell := iloc_or_none r i in
    let zero_time_dropped (v : cell) : cell :=
      if truthy v && (strip (py_str v) =? "00:00:00")%string
      then CNone else v in
    let dest0 := text_of (cell_at (col_destination cols)) in
    let code04_v := cell_at (col_code04 cols) in
    ((text_of (cell_at (col_unit cols)) =? "")%string
     && (text_of (cell_at (col_model cols)) =? "")%string) = false
    /\ destination o
       = (if (dest0 =? "")%string || mem dest0 ["nan"; "None"; "#N/A"]
          then "Unknown" else dest0)
    /\ crdYearMonth o = or_empty (get_year_month (crd o))
    /\ sddValue o
       = or_empty (parse_sdd
                     (zero_time_dropped (cell_at (col_sdd_original cols)))
                     (zero_time_dropped (cell_at (col_sdd_current cols))))
    /\ sddYearMonth o = or_empty (get_year_month (Some (sddValue o)))
    /\ code04 o
       = (if notna code04_v
             && negb (mem (strip (py_str code04_v)) ["nan"; "-"; ""])
          then Some (strip (py_str code04_v)) else None)
    /\ (bal_stage r (col_s_cut_bal cols) (quantity o) = Ok (s_cut (production o))
        /\ bal_stage r (col_pre_sew_bal cols) (quantity o)
           = Ok (pre_sew (production o))
        /\ bal_stage r (col_sew_input_bal cols) (quantity o)
           = Ok (sew_input (production o))
        /\ bal_stage r (col_sew_bal cols) (quantity o)
           = Ok (sew_bal (production o))
        /\ bal_stage r (col_s_fit_bal cols) (quantity o)
           = Ok (s_fit (production o))
        /\ bal_stage r (col_ass_bal cols) (quantity o)
           = Ok (ass_bal (production o))
        /\ bal_stage r (col_wh_in_bal cols) (quantity o)
           = Ok (wh_in (production o))
        /\ bal_stage r (col_wh_out_bal cols) (quantity o)
           = Ok (wh_out (production o)))
    /\ (exists st : stage,
          parse_bal_column (cell_at (col_outsourcing_in_bal cols))
            (Some (quantity o)) = Ok st
          /\ oscRemaining o = pending st)
    /\ remaining o
       = {| osc := oscRemaining o;
            sew := pending (sew_bal (production o));
            ass := pending (ass_bal (production o));
            whIn := pending (wh_in (production o));
            whOut := pending (wh_out (production o)) |}.
Proof.
  intros fac cols r qs o qs' H cell_at zero_time_dropped dest0 code04_v.
  subst cell_at zero_time_dropped dest0 code04_v. cbv beta.
  unfold row_body in H.
  destruct (is_header_row r cols); [discriminate |].
  destruct (is_valid_quantity _); [| discriminate].
  cbn [negb] in H.
  apply bind_Next in H. destruct H as (qty & q0 & _ & H).
  destruct (_ && _) eqn:Eblank in H; [discriminate |].
  apply bind_Next in H. destruct H as (dest & q1 & Hdest & H).
  assert (Edest :
    dest = (if (text_of (iloc_or_none r (col_destination cols)) =? "")%string
               || mem (text_of (iloc_or_none r (col_destination cols)))
                    ["nan"; "None"; "#N/A"]
            then "Unknown"
            else text_of (iloc_or_none r (col_destination cols)))).
  { destruct ((text_of (iloc_or_none r (col_destination cols)) =? "")%string
              || mem (text_of (iloc_or_none r (col_destination cols)))
                   ["nan"; "None"; "#N/A"]).
    - bind_step Hdest. apply ret_Next in Hdest. now symmetry.
    - apply ret_Next in Hdest. now symmetry. }
  clear Hdest.
  do 6 (bind_step H; clear E).
  apply bind_Next in H. destruct H as (f_crd & q_crd & _ & H).
  apply bind_Next in H. destruct H as (sdd_curr & q_sc & Hsc & H).
  apply drop_zero_time_Next in Hsc.
  apply bind_Next in H. destruct H as (sdd_orig & q_so & Hso & H).
  apply drop_zero_time_Next in Hso.
  do 2 (bind_step H; clear E).
  apply bind_Next in H. destruct H as (p1 & q_1 & H1 & H). apply lift_Next in H1.
  apply bind_Next in H. destruct H as (p2 & q_2 & H2 & H). apply lift_Next in H2.
  apply bind_Next in H. destruct H as (p3 & q_3 & H3 & H). apply lift_Next in H3.
  apply bind_Next in H. destruct H as (p4 & q_4 & H4 & H). apply lift_Next in H4.
  apply bind_Next in H. destruct H as (p5 & q_5 & H5 & H). apply lift_Next in H5.
  apply bind_Next in H. destruct H as (p6 & q_6 & H6 & H). apply lift_Next in H6.
  apply bind_Next in H. destruct H as (p7 & q_7 & H7 & H). apply lift_Next in H7.
  apply bind_Next in H. destruct H as (p8 & q_8 & H8 & H). apply lift_Next in H8.
  apply bind_Next in H. destruct H as (st & q_9 & H9 & H). apply lift_Next in H9.
  apply ret_Next in H. subst o.
  cbn [destination crdYearMonth crd sddValue sddYearMonth code04 production
       quantity oscRemaining remaining s_cut pre_sew sew_input sew_bal s_fit
       ass_bal wh_in wh_out].
  subst sdd_curr sdd_orig dest.
  split; [exact Eblank |].
  do 5 (split; [reflexivity |]).
  split; [now repeat split |].
  split; [now exists st | reflexivity].
Qed.

(** ** Emitted orders *)

(** [X4].  The destination of an emitted order is never blank and never
    one of the tokens ['nan'], ['None'], ['#N/A']: such a source cell is
    replaced by ['Unknown'], any other cell is copied, trimmed. *)
Theorem X4_destination_never_blank :
  forall (fac : string) (df : list row) (o : order),
    In o (parse_factory_file fac df) ->
    destination o <> ""
    /\ mem (destination o) ["nan"; "None"; "#N/A"] = false
    /\ exists r : row,
         In r df
         /\ let dest0 :=
              text_of (iloc_or_none r (col_destination (columns_for fac))) in
            destination o
            = (if (dest0 =? "")%string || mem dest0 ["nan"; "None"; "#N/A"]
               then "Unknown" else dest0).
Proof.
  intros fac df o H.
  apply emitted_from_row in H. destruct H as (r & qs & qs' & Hin & H).
  apply row_body_fields in H. destruct H as (_ & Hd & _).
  cbv zeta in Hd.
  assert (Hok : destination o <> ""
                /\ mem (destination o) ["nan"; "None"; "#N/A"] = false).
  { rewrite Hd.
    destruct ((_ =? "")%string || mem _ ["nan"; "None"; "#N/A"]) eqn:E.
    - split; [discriminate | reflexivity].
    - apply orb_false_iff in E. destruct E as [E1 E2].
      apply String.eqb_neq in E1. now split. }
  destruct Hok as [H1 H2]. split; [exact H1 |]. split; [exact H2 |].
  exists r. split; [exact Hin | exact Hd].
Qed.

Lemma X4_destination_never_blank_witness :
  exists o : order,
    parse_factory_file "A"
      [CStr "U1" :: repeat CNaN 13 ++ [CStr " #N/A "] ++ repeat CNaN 2
         ++ [CInt 50] ++ repeat CNaN 44] = [o]
    /\ destination o = "Unknown"
    /\ destination o <> ""
    /\ mem (destination o) ["nan"; "None"; "#N/A"] = false.
Proof.
  eexists. split; [vm_compute; reflexivity |].
  split; [reflexivity |].
  match goal with
  | |- destination ?o <> "" /\ _ =>
      pose proof (X4_destination_never_blank "A"
                    [CStr "U1" :: repeat CNaN 13 ++ [CStr " #N/A "]
                       ++ repeat CNaN 2 ++ [CInt 50] ++ repeat CNaN 44] o
                    (or_introl eq_refl)) as (H1 & H2 & _)
  end.
  split; assumption.
Defined.

(** What [parse_bal_column] returns, whatever the branch. *)
Lemma bal_column_shape :
  forall (v : cell) (q : Z) (st : stage),
    0 <= q ->
    parse_bal_column v (Some q) = Ok st ->
    completed st = Z.max 0 (q - pending st)
    /\ In (status st) ["completed"; "partial"; "pending"; "unknown"]
    /\ (raw_value st <> None <-> status st = "unknown").
Proof.
  intros v q st Hq H.
  bal_branches H; cbn [completed pending status raw_value];
    (split; [lia |]);
    (split; [cbn [In];
             repeat match goal with
                    | |- context [if ?c then _ else _] => destruct c
                    end; tauto |]);
    repeat match goal with
           | |- context [if ?c then _ else _] => destruct c
           end;
    split; intro; congruence.
Qed.

Lemma bal_stage_shape :
  forall (r : row) (i : nat) (q : Z) (st : stage),
    0 <= q ->
    bal_stage r i q = Ok st ->
    completed st = Z.max 0 (q - pending st)
    /\ In (status st) ["completed"; "partial"; "pending"; "unknown"]
    /\ (raw_value st <> None <-> status st = "unknown").
Proof.
  intros r i q st Hq H. unfold bal_stage in H.
  destruct (nth_error r i) as [v |]; [now apply (bal_column_shape v) |].
  injection H as <-. cbn [completed pending status raw_value In].
  split; [lia |]. split; [tauto |]. split; intro; congruence.
Qed.

(** [X5].  In every emitted order each of the eight production stages
    has one of the four statuses, a completed count that is
    [max(0, quantity - pending)] (so never negative), and a raw value
    exactly when its status is ['unknown']. *)
Theorem X5_stages_well_formed :
  forall (fac : string) (df : list row) (o : order) (st : stage),
    In o (parse_factory_file fac df) ->
    In st [s_cut (production o); pre_sew (production o);
           sew_input (production o); sew_bal (production o);
           s_fit (production o); ass_bal (production o);
           wh_in (production o); wh_out (production o)] ->
    completed st = Z.max 0 (quantity o - pending st)
    /\ 0 <= completed st
    /\ In (status st) ["completed"; "partial"; "pending"; "unknown"]
    /\ (raw_value st <> None <-> status st = "unknown").
Proof.
  intros fac df o st Ho Hst.
  destruct (emitted_quantity_checked fac df o Ho) as [Hq _].
  apply emitted_from_row in Ho. destruct Ho as (r & qs & qs' & Hin & H).
  apply row_body_fields in H.
  destruct H as (_ & _ & _ & _ & _ & _ & Hp & _).
  destruct Hp as (P1 & P2 & P3 & P4 & P5 & P6 & P7 & P8).
  assert (Shape : exists i, bal_stage r i (quantity o) = Ok st).
  { cbn [In] in Hst.
    destruct Hst as [<- | [<- | [<- | [<- | [<- | [<- | [<- | [<- | []]]]]]]]];
      eexists; eassumption. }
  destruct Shape as [i Hi].
  destruct (bal_stage_shape r i (quantity o) st Hq Hi) as (S1 & S2 & S3).
  split; [exact S1 |]. split; [lia |]. split; assumption.
Qed.

Lemma X5_stages_well_formed_witness :
  exists o : order,
    parse_factory_file "A"
      [CStr "U1" :: repeat CNaN 16 ++ [CInt 50] ++ repeat CNaN 26
         ++ [CStr "70"] ++ repeat CNaN 17] = [o]
    /\ completed (sew_bal (production o))
       = Z.max 0 (quantity o - pending (sew_bal (production o)))
    /\ 0 <= completed (sew_bal (production o))
    /\ In (status (sew_bal (production o)))
         ["completed"; "partial"; "pending"; "unknown"]
    /\ (raw_value (sew_bal (production o)) <> None
        <-> status (sew_bal (production o)) = "unknown").
Proof.
  eexists. split; [vm_compute; reflexivity |].
  match goal with
  | |- completed (sew_bal (production ?o)) = _ /\ _ =>
      apply (X5_stages_well_formed "A"
               [CStr "U1" :: repeat CNaN 16 ++ [CInt 50] ++ repeat CNaN 26
                  ++ [CStr "70"] ++ repeat CNaN 17] o)
  end.
  - now left.
  - cbn [In]. tauto.
Defined.

(** [X6].  The remaining-quantity rollup of an emitted order is read off
    its stages: sew, ass, whIn and whOut are the pending counts of the
    stages of the same name, and osc is [oscRemaining], the pending
    count of the outsourcing-in BAL cell. *)
Theorem X6_remaining_rollup :
  forall (fac : string) (df : list row) (o : order),
    In o (parse_factory_file fac df) ->
    sew (remaining o) = pending (sew_bal (production o))
    /\ ass (remaining o) = pending (ass_bal (production o))
    /\ whIn (remaining o) = pending (wh_in (production o))
    /\ whOut (remaining o) = pending (wh_out (production o))
    /\ osc (remaining o) = oscRemaining o
    /\ exists (r : row) (st : stage),
         In r df
         /\ parse_bal_column
              (iloc_or_none r (col_outsourcing_in_bal (columns_for fac)))
              (Some (quantity o)) = Ok st
         /\ oscRemaining o = pending st.
Proof.
  intros fac df o Ho.
  apply emitted_from_row in Ho. destruct Ho as (r & qs & qs' & Hin & H).
  apply row_body_fields in H.
  destruct H as (_ & _ & _ & _ & _ & _ & _ & (st & Hst & Hosc) & Hrem).
  rewrite Hrem. cbn [sew ass whIn whOut osc].
  do 5 (split; [reflexivity |]).
  exists r, st. auto.
Qed.

Lemma X6_remaining_rollup_witness :
  exists o : order,
    parse_factory_file "A"
      [CStr "U1" :: repeat CNaN 16 ++ [CInt 50] ++ repeat CNaN 20
         ++ [CStr "12"] ++ repeat CNaN 5 ++ [CStr "70"] ++ repeat CNaN 17]
    = [o]
    /\ osc (remaining o) = 12
    /\ sew (remaining o) = pending (sew_bal (production o))
    /\ osc (remaining o) = oscRemaining o.
Proof.
  eexists. split; [vm_compute; reflexivity |].
  split; [reflexivity |].
  match goal with
  | |- sew (remaining ?o) = _ /\ _ =>
      pose proof (X6_remaining_rollup "A"
                    [CStr "U1" :: repeat CNaN 16 ++ [CInt 50] ++ repeat CNaN 20
                       ++ [CStr "12"] ++ repeat CNaN 5 ++ [CStr "70"]
                       ++ repeat CNaN 17] o (or_introl eq_refl))
        as (H1 & _ & _ & _ & H5 & _)
  end.
  split; assumption.
Defined.

(** [X7].  The override flag of an emitted order is either absent or a
    non-empty text other than ['-'] and ['nan']; so its truth value in
    the dashboard and in the report is simply whether it is present. *)
Theorem X7_code04_present_or_absent :
  forall (fac : string) (df : list row) (o : order),
    In o (parse_factory_file fac df) ->
    (code04 o = None
     \/ exists s : string,
          code04 o = Some s /\ s <> "" /\ s <> "-" /\ s <> "nan")
    /\ js_truthy (code04 o) = py_truthy (code04 o)
    /\ (js_truthy (code04 o) = true <-> code04 o <> None).
Proof.
  intros fac df o Ho.
  apply emitted_from_row in Ho. destruct Ho as (r & qs & qs' & Hin & H).
  apply row_body_fields in H.
  destruct H as (_ & _ & _ & _ & _ & Hc & _). cbv zeta in Hc.
  destruct (notna _ && negb (mem _ ["nan"; "-"; ""])) eqn:E in Hc.
  - apply andb_true_iff in E. destruct E as [_ E].
    apply negb_true_iff in E.
    unfold mem in E. cbn [existsb] in E.
    repeat (apply orb_false_iff in E; destruct E as [? E]).
    repeat match goal with
           | X : (_ =? _)%string = false |- _ => apply String.eqb_neq in X
           end.
    rewrite Hc. cbn [js_truthy py_truthy].
    split; [right; eexists; split; [reflexivity |]; now repeat split |].
    split; [reflexivity |].
    match goal with
    | X : ?s <> "" |- _ => apply String.eqb_neq in X; rewrite X
    end.
    split; [discriminate | reflexivity].
  - rewrite Hc. cbn [js_truthy py_truthy].
    split; [now left |]. split; [reflexivity |].
    split; [discriminate | congruence].
Qed.

Lemma X7_code04_present_or_absent_witness :
  exists o : order,
    parse_factory_file "A"
      [CStr "U1" :: repeat CNaN 7 ++ [CStr " - "] ++ repeat CNaN 8
         ++ [CInt 50] ++ repeat CNaN 44] = [o]
    /\ code04 o = None
    /\ (js_truthy (code04 o) = true <-> code04 o <> None).
Proof.
  eexists. split; [vm_compute; reflexivity |].
  split; [reflexivity |].
  match goal with
  | |- js_truthy (code04 ?o) = true <-> _ =>
      exact (proj2 (proj2 (X7_code04_present_or_absent "A"
               [CStr "U1" :: repeat CNaN 7 ++ [CStr " - "] ++ repeat CNaN 8
                  ++ [CInt 50] ++ repeat CNaN 44] o (or_introl eq_refl))))
  end.
Defined.

(** *** The SDD field *)

Lemma timestamp_date_has_dash :
  forall y mo d : nat, contains "-" (strftime_ymd y mo d) = true.
Proof.
  intros y mo d. unfold strftime_ymd.
  rewrite contains_char_app. cbn [append].
  rewrite contains_char_cons, Ascii.eqb_refl. now rewrite orb_true_r.
Qed.

(** Without a match of the three convertible shapes the text is
    returned as it is. *)
Lemma parse_date_text_verbatim :
  forall v : cell,
    isna v = false ->
    is_timestamp v = false ->
    (is_some (match_md "/" (strip (py_str v)))
     || is_some (match_ymd "." (strip (py_str v)))
     || is_some (match_ymd "-" (strip (py_str v)))) = false ->
    parse_date_to_string v default_year = Some (strip (py_str v)).
Proof.
  intros v Hna Hts Hpat.
  apply orb_false_iff in Hpat. destruct Hpat as [Hpat H3].
  apply orb_false_iff in Hpat. destruct Hpat as [H1 H2].
  unfold parse_date_to_string. rewrite Hna.
  destruct (match_md "/" (strip (py_str v))) as [[? ?] |]; [discriminate |].
  destruct (match_ymd "." (strip (py_str v))) as [[[? ?] ?] |]; [discriminate |].
  destruct (match_ymd "-" (strip (py_str v))) as [[[? ?] ?] |]; [discriminate |].
  destruct v; try discriminate Hts; reflexivity.
Qed.

(** What [parse_sdd] takes from a usable cell is never one of the
    tokens it skips. *)
Lemma sdd_reading_no_token :
  forall (v : cell) (s : string),
    isna v = false ->
    mem (strip (py_str v)) ["00:00:00"; "#N/A"; "nan"] = false ->
    (if is_date_format v then parse_date_to_string v default_year
     else Some (strip (py_str v))) = Some s ->
    mem s ["00:00:00"; "#N/A"; "nan"] = false.
Proof.
  intros v s Hna Hskip H.
  destruct (is_date_format v) eqn:Hd; [| now injection H as <-].
  destruct (is_timestamp v) eqn:Hts.
  - destruct v; try discriminate Hts.
    unfold parse_date_to_string in H. cbn [isna] in H. injection H as <-.
    pose proof (timestamp_date_has_dash year month day) as Hdash.
    unfold mem. cbn [existsb].
    repeat match goal with
           | |- context [(?a =? ?b)%string] =>
               destruct (String.eqb_spec a b) as [E | _];
               [rewrite E in Hdash; discriminate Hdash |]
           end.
    reflexivity.
  - destruct (is_some (match_md "/" (strip (py_str v)))
              || is_some (match_ymd "." (strip (py_str v)))
              || is_some (match_ymd "-" (strip (py_str v)))) eqn:Hpat.
    + destruct (parse_date_text_canonical v Hna Hts Hpat) as (s' & Hs' & Hc).
      rewrite Hs' in H. injection H as <-.
      unfold mem. cbn [existsb].
      repeat match goal with
             | |- context [(?a =? ?b)%string] =>
                 destruct (String.eqb_spec a b) as [E | _];
                 [rewrite E in Hc; discriminate Hc |]
             end.
      reflexivity.
    + rewrite (parse_date_text_verbatim v Hna Hts Hpat) in H.
      now injection H as <-.
Qed.

Lemma parse_sdd_no_token :
  forall (original current : cell) (s : string),
    parse_sdd original current = Some s ->
    s <> "" /\ mem s ["00:00:00"; "#N/A"; "nan"] = false.
Proof.
  intros original current s H.
  unfold parse_sdd in H.
  assert (Step : forall (v : cell) (rest : list cell),
             parse_sdd_loop (v :: rest) = Some s ->
             (s <> "" /\ mem s ["00:00:00"; "#N/A"; "nan"] = false)
             \/ parse_sdd_loop rest = Some s).
  { intros v rest Hv. cbn [parse_sdd_loop] in Hv.
    destruct (isna v) eqn:Hna; [now right |].
    destruct (negb (strip (py_str v) =? "")%string
              && negb (mem (strip (py_str v)) ["00:00:00"; "#N/A"; "nan"]))
      eqn:Hu; [| now right].
    left. apply andb_true_iff in Hu. destruct Hu as [Hne Hskip].
    apply negb_true_iff in Hne, Hskip. apply String.eqb_neq in Hne.
    split; [| exact (sdd_reading_no_token v s Hna Hskip Hv)].
    destruct (is_date_format v) eqn:Hd; [| now injection Hv as <-].
    intro Es. subst s.
    destruct (is_timestamp v) eqn:Hts.
    - destruct v; try discriminate Hts.
      unfold parse_date_to_string in Hv. cbn [isna] in Hv.
      injection Hv as Hv.
      pose proof (timestamp_date_has_dash year month day) as Hdash.
      rewrite Hv in Hdash. discriminate Hdash.
    - destruct (is_some (match_md "/" (strip (py_str v)))
                || is_some (match_ymd "." (strip (py_str v)))
                || is_some (match_ymd "-" (strip (py_str v)))) eqn:Hpat.
      + destruct (parse_date_text_canonical v Hna Hts Hpat) as (s' & Hs' & Hc).
        rewrite Hs' in Hv. injection Hv as ->. discriminate Hc.
      + rewrite (parse_date_text_verbatim v Hna Hts Hpat) in Hv.
        injection Hv as Hv. congruence. }
  destruct (Step _ _ H) as [Done | H1]; [exact Done |].
  destruct (Step _ _ H1) as [Done | H2]; [exact Done | discriminate H2].
Qed.

(** [X8].  The SDD field of an emitted order is empty or a text that is
    none of ['00:00:00'], ['#N/A'], ['nan']; the CRD field, in contrast,
    copies the tokens ['#N/A'] and ['nan']. *)
Theorem X8_sdd_never_placeholder :
  forall (fac : string) (df : list row) (o : order),
    In o (parse_factory_file fac df) ->
    mem (sddValue o) ["00:00:00"; "#N/A"; "nan"] = false.
Proof.
  intros fac df o Ho.
  apply emitted_from_row in Ho. destruct Ho as (r & qs & qs' & Hin & H).
  apply row_body_fields in H.
  destruct H as (_ & _ & _ & Hs & _). cbv zeta in Hs. rewrite Hs.
  destruct (parse_sdd _ _) as [s |] eqn:E; [| reflexivity].
  cbn [or_empty]. now destruct (parse_sdd_no_token _ _ _ E).
Qed.

Lemma X8_sdd_never_placeholder_witness :
  exists o : order,
    parse_factory_file "A"
      [CStr "U1" :: repeat CNaN 5 ++ [CStr "12/24"; CStr "#N/A"]
         ++ repeat CNaN 9 ++ [CInt 50] ++ repeat CNaN 44] = [o]
    /\ sddValue o = "2025-12-24"
    /\ mem (sddValue o) ["00:00:00"; "#N/A"; "nan"] = false.
Proof.
  eexists. split; [vm_compute; reflexivity |].
  split; [reflexivity |].
  match goal with
  | |- mem (sddValue ?o) _ = false =>
      exact (X8_sdd_never_placeholder "A"
               [CStr "U1" :: repeat CNaN 5 ++ [CStr "12/24"; CStr "#N/A"]
                  ++ repeat CNaN 9 ++ [CInt 50] ++ repeat CNaN 44] o
               (or_introl eq_refl))
  end.
Defined.

(** *** Integer quantities *)

Lemma round_half_even_nonneg :
  forall num den : Z, 0 <= num -> 0 < den -> 0 <= round_half_even num den.
Proof.
  intros num den Hn Hd. unfold round_half_even.
  pose proof (Z.div_pos num den Hn Hd) as Hq.
  destruct (2 * (num mod den) ?= den); [destruct (Z.even _) | |]; lia.
Qed.

(** A negative sign never gives a float above zero. *)
Lemma binary64_negative_not_gt0 :
  forall num den : Z,
    0 <= num -> 0 < den -> float_gt0 (binary64 true num den) = false.
Proof.
  intros num den Hn Hd. unfold binary64.
  destruct (num =? 0); [reflexivity |].
  set (e := Z.max _ (-1074)).
  assert (Hm : 0 <= round_half_even (fst (if 0 <=? e then (num, den * 2 ^ e)
                                          else (num * 2 ^ (- e), den)))
                      (snd (if 0 <=? e then (num, den * 2 ^ e)
                            else (num * 2 ^ (- e), den)))).
  { destruct (0 <=? e) eqn:E; cbn [fst snd].
    - apply Z.leb_le in E. apply round_half_even_nonneg; [lia |].
      apply Z.mul_pos_pos; [lia | apply Z.pow_pos_nonneg; lia].
    - apply Z.leb_gt in E. apply round_half_even_nonneg; [| lia].
      apply Z.mul_nonneg_nonneg; [lia | apply Z.pow_nonneg; lia]. }
  destruct (if 0 <=? e then (num, den * 2 ^ e) else (num * 2 ^ (- e), den))
    as [n d].
  cbn [fst snd] in Hm.
  destruct ((971 <? e) || ((e =? 971) && (2 ^ 53 <=? round_half_even n d)));
    cbn [float_gt0 negb]; [reflexivity |].
  apply Z.ltb_ge. lia.
Qed.

Lemma py_float_negative_digits :
  forall s : string,
    all_digits s = true -> s <> "" ->
    py_float (String "-" s) = Some (binary64 true (int_of_digits s) 1).
Proof.
  intros s Hd Hne. unfold py_float, strip.
  cbn [lstrip]. change (is_space "-") with false. cbv iota.
  cbn [rstrip]. rewrite (digits_rstrip s Hd).
  change (is_space "-") with false. cbn [andb].
  cbn [drop_underscores]. change (Ascii.eqb "-" "_") with false. cbv iota.
  change (Ascii.eqb "000" "_") with false. cbn [andb].
  rewrite (digits_drop_underscores s Hd "-"%char eq_refl).
  cbn [option_map].
  rewrite (digits_upper s Hd).
  rewrite !(digits_neq_text s Hd) by reflexivity.
  cbn [orb].
  unfold parse_decimal. rewrite (digits_take s Hd).
  replace (s ++ "")%string with s.
  2:{ clear. induction s; cbn; congruence. }
  apply String.eqb_neq in Hne. rewrite Hne.
  cbn. now rewrite Z.mul_1_r.
Qed.

(** An integer quantity cell that is valid is positive. *)
Lemma valid_integer_quantity :
  forall n : Z, is_valid_quantity (CInt n) = true -> 0 < n.
Proof.
  intros n H. destruct n as [| p | p]; [discriminate H | lia |].
  exfalso. unfold is_valid_quantity in H. cbn [isna py_str] in H.
  assert (Hs : str_of_int (Z.neg p) = String "-" (str_of_int (Z.pos p))).
  { unfold str_of_int. cbn [Z.to_int NilZero.string_of_int]. reflexivity. }
  destruct (str_of_int_positive (Z.pos p) ltac:(lia)) as (Hd & Hne & Hval).
  assert (Hstrip : strip (str_of_int (Z.neg p)) = str_of_int (Z.neg p)).
  { rewrite Hs. unfold strip. cbn [lstrip].
    change (is_space "-") with false. cbv iota. cbn [rstrip].
    rewrite (digits_rstrip _ Hd). change (is_space "-") with false.
    reflexivity. }
  rewrite Hstrip, Hs in H.
  rewrite (py_float_negative_digits _ Hd Hne), Hval in H.
  rewrite binary64_negative_not_gt0 in H by lia.
  destruct (mem _ invalid_values); discriminate H.
Qed.

(** [X9].  When the quantity cell of a row holds an integer [n], the row
    can yield an order only if [n > 0]: for [n <= 0] the row body ends
    in [continue] and the loop keeps its records; and the quantity of an
    order the row yields is [n] itself (for [n < 2^53], where the detour
    through [float] is exact).  Every emitted order is yielded by a row
    of the sheet (lemma [emitted_from_row]). *)
Theorem X9_integer_quantity_kept :
  forall (fac : string) (cols : columns) (r : row) (n : Z),
    iloc_or_none r (col_quantity cols) = CInt n ->
    (n <= 0 ->
     forall (qs : quality_stats) (st : parse_state),
       row_body fac cols r qs = (Continue (is_header_row r cols), qs)
       /\ records (row_step fac cols st r) = records st)
    /\ forall (qs qs' : quality_stats) (o : order),
         row_body fac cols r qs = (Next o, qs') ->
         0 < n /\ (n < 2 ^ 53 -> quantity o = n).
Proof.
  intros fac cols r n En.
  assert (Yields : forall (qs qs' : quality_stats) (o : order),
             row_body fac cols r qs = (Next o, qs') ->
             0 < n /\ (n < 2 ^ 53 -> quantity o = n)).
  { intros qs qs' o H.
    apply row_body_Next in H. destruct H as (_ & Hv & Hq & _).
    rewrite En in Hv, Hq.
    pose proof (valid_integer_quantity n Hv) as Hpos.
    split; [exact Hpos |]. intro H53.
    destruct (bare_integer_cell n (CInt n) (or_introl eq_refl) ltac:(lia))
      as (_ & _ & Hint).
    congruence. }
  split; [| exact Yields].
  intros Hn qs st.
  assert (Hv : is_valid_quantity (CInt n) = false).
  { destruct (is_valid_quantity (CInt n)) eqn:E; [| reflexivity].
    apply valid_integer_quantity in E. lia. }
  assert (Hb : forall q : quality_stats,
             row_body fac cols r q = (Continue (is_header_row r cols), q)).
  { intro q. unfold row_body.
    destruct (is_header_row r cols); [reflexivity |].
    rewrite En, Hv. reflexivity. }
  split; [apply Hb |].
  unfold row_step. rewrite Hb. reflexivity.
Qed.

Lemma X9_integer_quantity_kept_witness :
  exists (o : order) (qs' : quality_stats),
    row_body "A" COLUMNS_A
      (CStr "U1" :: repeat CNaN 16 ++ [CInt 1200] ++ repeat CNaN 44)
      (stats initial_state) = (Next o, qs')
    /\ parse_factory_file "A"
         [CStr "U1" :: repeat CNaN 16 ++ [CInt 1200] ++ repeat CNaN 44] = [o]
    /\ quantity o = 1200
    /\ parse_factory_file "A"
         [CStr "U1" :: repeat CNaN 16 ++ [CInt 0] ++ repeat CNaN 44] = []
    /\ (0 < 1200 /\ (1200 < 2 ^ 53 -> quantity o = 1200)).
Proof.
  eexists. eexists.
  split; [vm_compute; reflexivity |].
  split; [vm_compute; reflexivity |].
  split; [reflexivity |].
  split; [vm_compute; reflexivity |].
  eapply (proj2 (X9_integer_quantity_kept "A" COLUMNS_A
                   (CStr "U1" :: repeat CNaN 16 ++ [CInt 1200]
                      ++ repeat CNaN 44) 1200 eq_refl)
            (stats initial_state)).
  vm_compute. reflexivity.
Defined.

(** *** Row accounting *)

Section RowFlow.

(** Where a computation of the row body leaves the loop iteration: never
    by the [continue] that is not counted as skipped. *)
Local Abbreviation counted m :=
  (forall qs : quality_stats, fst (m qs) <> Continue false) (only parsing).

(** How far a computation of the row body moves the counters. *)
Local Abbreviation grows m a b :=
  (forall qs : quality_stats,
     auto_corrected (snd (m qs)) - auto_corrected qs
     = empty_destinations (snd (m qs)) - empty_destinations qs
     /\ 0 <= empty_destinations (snd (m qs)) - empty_destinations qs
        <= Z.of_nat a
     /\ 0 <= invalid_dates (snd (m qs)) - invalid_dates qs <= Z.of_nat b)
  (only parsing).

Lemma counted_bind :
  forall (A B : Type) (m : M A) (k : A -> M B),
    counted m -> (forall a : A, counted (k a)) -> counted (bind m k).
Proof.
  intros A B m k Hm Hk qs. unfold bind.
  specialize (Hm qs).
  destruct (m qs) as [[a | c | x] qs']; cbn [fst] in *;
    [apply Hk | | discriminate].
  intro E. apply Hm. injection E as ->. reflexivity.
Qed.

Lemma counted_lift :
  forall (A : Type) (r : res A), counted (lift r).
Proof. intros A [a | x] qs; discriminate. Qed.

Lemma counted_ret : forall (A : Type) (a : A), counted (ret a).
Proof. intros A a qs; discriminate. Qed.

Lemma counted_if :
  forall (A : Type) (c : bool) (m1 m2 : M A),
    counted m1 -> counted m2 -> counted (if c then m1 else m2).
Proof. intros A [|] m1 m2 H1 H2; assumption. Qed.

Lemma grows_bind :
  forall (A B : Type) (m : M A) (k : A -> M B) (a b a' b' : nat),
    grows m a b -> (forall x : A, grows (k x) a' b') ->
    grows (bind m k) (a + a') (b + b').
Proof.
  intros A B m k a b a' b' Hm Hk qs. unfold bind.
  specialize (Hm qs).
  destruct (m qs) as [[x | c | x] qs']; cbn [fst snd] in *;
    [specialize (Hk x qs') |..]; lia.
Qed.

Lemma grows_still :
  forall (A : Type) (m : M A),
    (forall qs : quality_stats, snd (m qs) = qs) -> grows m 0 0.
Proof. intros A m H qs. rewrite H. lia. Qed.

Lemma grows_if :
  forall (A : Type) (c : bool) (m1 m2 : M A) (a1 b1 a2 b2 : nat),
    grows m1 a1 b1 -> grows m2 a2 b2 ->
    grows (if c then m1 else m2) (Nat.max a1 a2) (Nat.max b1 b2).
Proof.
  intros A [|] m1 m2 a1 b1 a2 b2 H1 H2 qs;
    [specialize (H1 qs) | specialize (H2 qs)]; lia.
Qed.

Lemma grows_weaken :
  forall (A : Type) (m : M A) (a b a' b' : nat),
    grows m a b -> (a <= a')%nat -> (b <= b')%nat -> grows m a' b'.
Proof. intros A m a b a' b' H Ha Hb qs. specialize (H qs). lia. Qed.

Lemma grows_count_empty_destination : grows count_empty_destination 1 0.
Proof. intro qs. cbn. lia. Qed.

Lemma grows_count_invalid_date : grows count_invalid_date 0 1.
Proof. intro qs. cbn. lia. Qed.

Lemma lift_still :
  forall (A : Type) (r : res A) (qs : quality_stats), snd (lift r qs) = qs.
Proof. intros A [a | x] qs; reflexivity. Qed.

(** Past the quantity check the row body ends in an order, a counted
    skip or an error. *)
Lemma row_body_counted :
  forall (fac : string) (cols : columns) (r : row) (qs : quality_stats),
    is_header_row r cols = false ->
    is_valid_quantity (iloc_or_none r (col_quantity cols)) = true ->
    fst (row_body fac cols r qs) <> Continue false.
Proof.
  intros fac cols r qs Hh Hv. revert qs.
  unfold row_body. rewrite Hh, Hv. cbn [negb]. cbv zeta.
  unfold drop_zero_time.
  repeat first
    [ apply counted_bind; [| intro]
    | apply counted_if
    | apply counted_lift
    | apply counted_ret
    | (intro qs'; cbn; discriminate) ].
Qed.

(** One row moves [empty_destinations] and [auto_corrected] together, by
    at most one, and [invalid_dates] by at most three. *)
Lemma row_body_grows :
  forall (fac : string) (cols : columns) (r : row) (qs : quality_stats),
    auto_corrected (snd (row_body fac cols r qs)) - auto_corrected qs
    = empty_destinations (snd (row_body fac cols r qs))
      - empty_destinations qs
    /\ 0 <= empty_destinations (snd (row_body fac cols r qs))
            - empty_destinations qs <= 1
    /\ 0 <= invalid_dates (snd (row_body fac cols r qs))
            - invalid_dates qs <= 3.
Proof.
  intros fac cols r.
  change (grows (row_body fac cols r) 1 3).
  eapply grows_weaken.
  - unfold row_body. cbv zeta. unfold drop_zero_time.
    repeat first
      [ eapply grows_bind; [| intro]
      | eapply grows_if
      | apply grows_count_empty_destination
      | apply grows_count_invalid_date
      | (apply grows_still; intro;
         first [reflexivity | apply lift_still]) ].
  - cbn [Nat.add Nat.max]. lia.
  - cbn [Nat.add Nat.max]. lia.
Qed.

End RowFlow.

(** The rows that leave the loop without an order, a skip count or an
    error count: those whose quantity is not valid. *)
Lemma row_step_accounts :
  forall (fac : string) (cols : columns) (st : parse_state) (r : row),
    Z.of_nat (List.length (records (row_step fac cols st r)))
    + skipped_count (row_step fac cols st r)
    + error_count (row_step fac cols st r)
    = Z.of_nat (List.length (records st)) + skipped_count st + error_count st
      + (if negb (is_header_row r cols)
            && negb (is_valid_quantity (iloc_or_none r (col_quantity cols)))
         then 0 else 1).
Proof.
  intros fac cols st r. unfold row_step.
  destruct (is_header_row r cols) eqn:Hh.
  - unfold row_body. rewrite Hh. cbn. lia.
  - destruct (is_valid_quantity (iloc_or_none r (col_quantity cols))) eqn:Hv.
    + pose proof (row_body_counted fac cols r (stats st) Hh Hv) as Hc.
      destruct (row_body fac cols r (stats st)) as [[o | [|] | x] qs];
        cbn [records skipped_count error_count fst negb andb] in *;
        [rewrite length_app; cbn [List.length]; lia | lia | congruence | lia].
    + unfold row_body. rewrite Hh, Hv. cbn. lia.
Qed.

(** [X10].  Every row of the sheet is accounted for exactly once: it
    yields an order, is counted as skipped, is counted as an error, or
    (when it is no header row and its quantity is not valid) is dropped
    without being counted. *)
Theorem X10_every_row_accounted :
  forall (fac : string) (df : list row),
    let st := run_rows fac (columns_for fac) df in
    Z.of_nat (List.length (parse_factory_file fac df))
    + skipped_count st + error_count st
    + Z.of_nat
        (List.length
           (filter
              (fun r =>
                 negb (is_header_row r (columns_for fac))
                 && negb (is_valid_quantity
                            (iloc_or_none r
                               (col_quantity (columns_for fac))))) df))
    = Z.of_nat (List.length df).
Proof.
  intros fac df st. subst st. unfold parse_factory_file, run_rows.
  generalize (columns_for fac). intro cols.
  assert (G : forall (l : list row) (st : parse_state),
             Z.of_nat (List.length (records (fold_left (row_step fac cols) l st)))
             + skipped_count (fold_left (row_step fac cols) l st)
             + error_count (fold_left (row_step fac cols) l st)
             + Z.of_nat
                 (List.length
                    (filter
                       (fun r =>
                          negb (is_header_row r cols)
                          && negb (is_valid_quantity
                                     (iloc_or_none r (col_quantity cols)))) l))
             = Z.of_nat (List.length (records st)) + skipped_count st
               + error_count st + Z.of_nat (List.length l)).
  { induction l as [| r l IH]; intro st; [cbn; lia |].
    cbn [fold_left filter]. 
    pose proof (IH (row_step fac cols st r)) as E.
    pose proof (row_step_accounts fac cols st r) as S.
    destruct (negb (is_header_row r cols)
              && negb (is_valid_quantity
                         (iloc_or_none r (col_quantity cols))));
      cbn [List.length] in *; lia. }
  rewrite G. cbn. lia.
Qed.

Lemma row_step_stats :
  forall (fac : string) (cols : columns) (st : parse_state) (r : row),
    stats (row_step fac cols st r) = snd (row_body fac cols r (stats st)).
Proof.
  intros fac cols st r. unfold row_step.
  destruct (row_body fac cols r (stats st)) as [[o | c | x] qs]; reflexivity.
Qed.

(** [X11].  The data-quality counters printed after the run: the number
    of automatic corrections always equals the number of empty
    destinations, which is at most the number of rows; at most three
    zero-time dates (CRD, current and original SDD) are counted per row. *)
Theorem X11_quality_counters :
  forall (fac : string) (cols : columns) (df : list row),
    let qs := stats (run_rows fac cols df) in
    auto_corrected qs = empty_destinations qs
    /\ 0 <= empty_destinations qs <= Z.of_nat (List.length df)
    /\ 0 <= invalid_dates qs <= 3 * Z.of_nat (List.length df).
Proof.
  intros fac cols df qs. subst qs. unfold run_rows.
  assert (G : forall (l : list row) (st : parse_state),
             auto_corrected (stats (fold_left (row_step fac cols) l st))
             - auto_corrected (stats st)
             = empty_destinations (stats (fold_left (row_step fac cols) l st))
               - empty_destinations (stats st)
             /\ 0 <= empty_destinations
                       (stats (fold_left (row_step fac cols) l st))
                     - empty_destinations (stats st) <= Z.of_nat (List.length l)
             /\ 0 <= invalid_dates
                       (stats (fold_left (row_step fac cols) l st))
                     - invalid_dates (stats st) <= 3 * Z.of_nat (List.length l)).
  { induction l as [| r l IH]; intro st; [cbn; lia |].
    cbn [fold_left List.length].
    pose proof (IH (row_step fac cols st r)) as E.
    rewrite row_step_stats in E.
    pose proof (row_body_grows fac cols r (stats st)) as S.
    lia. }
  specialize (G df initial_state). cbn [initial_state stats
    auto_corrected empty_destinations invalid_dates] in G. lia.
Qed.

(** ** Dictionaries used as counters *)

Lemma get_set :
  forall (V : Type) (d : PyDict.dict V) (k k' : string) (v dflt : V),
    PyDict.get (PyDict.set d k v) k' dflt
    = if (k =? k')%string then v else PyDict.get d k' dflt.
Proof.
  intros V d k k' v dflt.
  induction d as [| [k0 v0] d IH]; cbn [PyDict.set PyDict.get].
  - reflexivity.
  - destruct (String.eqb_spec k0 k) as [-> | Hne]; cbn [PyDict.get].
    + now destruct (String.eqb_spec k k').
    + rewrite IH. destruct (String.eqb_spec k0 k') as [-> | Hne'].
      * destruct (String.eqb_spec k k'); congruence.
      * reflexivity.
Qed.

Lemma has_key_In :
  forall (V : Type) (d : PyDict.dict V) (k : string),
    PyDict.has_key d k = true <-> In k (map fst d).
Proof.
  intros V d k. induction d as [| [k0 v0] d IH]; cbn [PyDict.has_key map fst In].
  - split; [discriminate | tauto].
  - rewrite orb_true_iff, IH.
    destruct (String.eqb_spec k0 k); intuition congruence.
Qed.

Lemma has_key_set :
  forall (V : Type) (d : PyDict.dict V) (k k' : string) (v : V),
    PyDict.has_key (PyDict.set d k v) k'
    = (k =? k')%string || PyDict.has_key d k'.
Proof.
  intros V d k k' v.
  induction d as [| [k0 v0] d IH]; cbn [PyDict.set PyDict.has_key].
  - now rewrite orb_false_r.
  - destruct (String.eqb_spec k0 k) as [-> | Hne]; cbn [PyDict.has_key].
    + now destruct (String.eqb_spec k k').
    + rewrite IH. destruct (k0 =? k')%string, (k =? k')%string; reflexivity.
Qed.

Lemma keys_set :
  forall (V : Type) (d : PyDict.dict V) (k : string) (v : V),
    map fst (PyDict.set d k v)
    = if PyDict.has_key d k then map fst d else (map fst d ++ [k])%list.
Proof.
  intros V d k v.
  induction d as [| [k0 v0] d IH]; cbn [PyDict.set PyDict.has_key map fst app].
  - reflexivity.
  - destruct (String.eqb_spec k0 k) as [-> | Hne]; cbn [map fst orb].
    + reflexivity.
    + rewrite IH. now destruct (PyDict.has_key d k).
Qed.

Lemma keys_set_NoDup :
  forall (V : Type) (d : PyDict.dict V) (k : string) (v : V),
    NoDup (map fst d) -> NoDup (map fst (PyDict.set d k v)).
Proof.
  intros V d k v Hd. rewrite keys_set.
  destruct (PyDict.has_key d k) eqn:E; [exact Hd |].
  apply NoDup_app; [exact Hd | repeat constructor; intros [] | ].
  intros x Hx [<- | []].
  apply has_key_In in Hx. congruence.
Qed.

Lemma values_set :
  forall (d : PyDict.dict Z) (k : string) (v : Z),
    fold_right Z.add 0 (map snd (PyDict.set d k v))
    = fold_right Z.add 0 (map snd d) - PyDict.get d k 0 + v.
Proof.
  intros d k v.
  induction d as [| [k0 v0] d IH];
    cbn [PyDict.set PyDict.get map snd fold_right].
  - lia.
  - destruct (String.eqb_spec k0 k) as [-> | Hne];
      cbn [map snd fold_right]; lia.
Qed.

Section Tally.

Context {R : Type} (key : R -> string) (weight : R -> Z).

(** The loop [for r in rs: d[key(r)] = d.get(key(r), 0) + weight(r)]. *)
Local Abbreviation tally rs d :=
  (fold_left
     (fun d r => PyDict.set d (key r) (PyDict.get d (key r) 0 + weight r))
     rs d) (only parsing).

Lemma tally_get :
  forall (rs : list R) (d : PyDict.dict Z) (k : string),
    PyDict.get (tally rs d) k 0
    = PyDict.get d k 0
      + fold_right Z.add 0
          (map weight (filter (fun r => (key r =? k)%string) rs)).
Proof.
  induction rs as [| r rs IH]; intros d k; cbn [fold_left filter].
  - cbn. lia.
  - rewrite IH, get_set.
    destruct (String.eqb_spec (key r) k) as [<- | Hne];
      cbn [map fold_right]; lia.
Qed.

Lemma tally_values :
  forall (rs : list R) (d : PyDict.dict Z),
    fold_right Z.add 0 (map snd (tally rs d))
    = fold_right Z.add 0 (map snd d) + fold_right Z.add 0 (map weight rs).
Proof.
  induction rs as [| r rs IH]; intro d; cbn [fold_left map fold_right].
  - lia.
  - rewrite IH, values_set. lia.
Qed.

Lemma tally_has_key :
  forall (rs : list R) (d : PyDict.dict Z) (k : string),
    PyDict.has_key (tally rs d) k
    = PyDict.has_key d k || existsb (fun r => (key r =? k)%string) rs.
Proof.
  induction rs as [| r rs IH]; intros d k; cbn [fold_left existsb].
  - now rewrite orb_false_r.
  - rewrite IH, has_key_set.
    destruct (PyDict.has_key d k), (key r =? k)%string; reflexivity.
Qed.

Lemma tally_NoDup :
  forall (rs : list R) (d : PyDict.dict Z),
    NoDup (map fst d) -> NoDup (map fst (tally rs d)).
Proof.
  induction rs as [| r rs IH]; intros d Hd; cbn [fold_left].
  - exact Hd.
  - apply IH. now apply keys_set_NoDup.
Qed.

End Tally.

Lemma total_qty_sum :
  forall rs : list order,
    total_qty rs = fold_right Z.add 0 (map quantity rs).
Proof.
  intro rs. unfold total_qty.
  assert (G : forall (l : list order) (a : Z),
             fold_left (fun acc r => acc + quantity r) l a
             = a + fold_right Z.add 0 (map quantity l)).
  { induction l as [| r l IH]; intro a; cbn [fold_left map fold_right];
      [lia | rewrite IH; lia]. }
  now rewrite G.
Qed.

(** [X12].  The destination totals of the dashboard statistics: every
    destination has one entry, its value is the sum of the quantities of
    the orders sent there, and the entries add up to the total order
    quantity. *)
Theorem X12_destination_totals :
  forall v6_data : list order,
    NoDup (map fst (destinations v6_data))
    /\ (forall dest : string,
          PyDict.get (destinations v6_data) dest 0
          = total_qty
              (filter (fun r => (destination r =? dest)%string) v6_data))
    /\ (forall dest : string,
          In dest (map fst (destinations v6_data))
          <-> exists r : order, In r v6_data /\ destination r = dest)
    /\ fold_right Z.add 0 (map snd (destinations v6_data))
       = total_qty v6_data.
Proof.
  intro v6_data. unfold destinations. cbv zeta.
  split; [apply (tally_NoDup destination quantity); constructor |].
  split; [| split].
  - intro dest. rewrite (tally_get destination quantity), total_qty_sum.
    reflexivity.
  - intro dest. rewrite <- has_key_In.
    rewrite (tally_has_key destination quantity). cbn [PyDict.has_key orb].
    rewrite existsb_exists. split.
    + intros (r & Hr & E). apply String.eqb_eq in E. now exists r.
    + intros (r & Hr & E). exists r. split; [exact Hr |].
      now apply String.eqb_eq.
  - rewrite (tally_values destination quantity), total_qty_sum.
    reflexivity.
Qed.

(** [X13].  The per-factory counts of the dashboard statistics: one
    entry per factory that occurs, holding the number of its orders, and
    the entries add up to the number of orders. *)
Theorem X13_factory_counts :
  forall v6_data : list order,
    NoDup (map fst (factories v6_data))
    /\ (forall f : string,
          PyDict.get (factories v6_data) f 0
          = Z.of_nat
              (List.length
                 (filter (fun r => (factory r =? f)%string) v6_data)))
    /\ fold_right Z.add 0 (map snd (factories v6_data))
       = Z.of_nat (List.length v6_data)
    /\ factory_counts v6_data = factories v6_data.
Proof.
  intro v6_data. unfold factories. cbv zeta.
  assert (Ones : forall l : list order,
             fold_right Z.add 0 (map (fun _ : order => 1) l)
             = Z.of_nat (List.length l)).
  { induction l as [| r l IH]; cbn [map fold_right List.length]; lia. }
  split; [apply (tally_NoDup factory (fun _ => 1)); constructor |].
  split; [| split].
  - intro f. rewrite (tally_get factory (fun _ => 1)). cbn [PyDict.get].
    now rewrite Ones.
  - rewrite (tally_values factory (fun _ => 1)). cbn [map fold_right].
    now rewrite Ones.
  - reflexivity.
Qed.

(** *** The five largest destinations *)

Lemma insert_by_perm :
  forall (A : Type) (key : A -> Z) (x : A) (l : list A),
    Permutation (PyDict.insert_by key x l) (x :: l).
Proof.
  intros A key x l. induction l as [| y l IH]; cbn [PyDict.insert_by].
  - reflexivity.
  - destruct (key x <? key y); [reflexivity |].
    rewrite IH. apply perm_swap.
Qed.

Lemma insert_by_sorted :
  forall (A : Type) (key : A -> Z) (x : A) (l : list A),
    StronglySorted (fun a b => key a <= key b) l ->
    StronglySorted (fun a b => key a <= key b) (PyDict.insert_by key x l).
Proof.
  intros A key x l Hl. induction Hl as [| y l Hl IH Hy]; cbn [PyDict.insert_by].
  - repeat constructor.
  - destruct (key x <? key y) eqn:E.
    + apply Z.ltb_lt in E. constructor; [now constructor |].
      constructor; [lia |].
      rewrite Forall_forall in *. intros z Hz. specialize (Hy z Hz). lia.
    + apply Z.ltb_ge in E. constructor; [exact IH |].
      rewrite Forall_forall in *. intros z Hz.
      apply (Permutation_in _ (insert_by_perm A key x l)) in Hz.
      destruct Hz as [<- | Hz]; [exact E | now apply Hy].
Qed.

Lemma sorted_by_spec :
  forall (A : Type) (key : A -> Z) (l : list A),
    Permutation (PyDict.sorted_by key l) l
    /\ StronglySorted (fun a b => key a <= key b) (PyDict.sorted_by key l).
Proof.
  intros A key l. unfold PyDict.sorted_by.
  assert (G : forall (l acc : list A),
             StronglySorted (fun a b => key a <= key b) acc ->
             Permutation
               (fold_left (fun acc x => PyDict.insert_by key x acc) l acc)
               (acc ++ l)
             /\ StronglySorted (fun a b => key a <= key b)
                  (fold_left (fun acc x => PyDict.insert_by key x acc) l acc)).
  { clear l. induction l as [| x l IH]; intros acc Hacc; cbn [fold_left].
    - rewrite app_nil_r. now split.
    - destruct (IH _ (insert_by_sorted A key x acc Hacc)) as [P S].
      split; [| exact S].
      rewrite P, insert_by_perm. cbn [app]. apply Permutation_middle. }
  destruct (G l [] (SSorted_nil _)) as [P S]. now split.
Qed.

Lemma sorted_app_inv :
  forall (A : Type) (R : A -> A -> Prop) (a b : list A),
    StronglySorted R (a ++ b) ->
    StronglySorted R a /\ forall x y : A, In x a -> In y b -> R x y.
Proof.
  intros A R a b. induction a as [| x a IH]; cbn [app]; intro H.
  - split; [constructor | intros ? ? []].
  - inversion H as [| ? ? Hs Hf]; subst.
    destruct (IH Hs) as [Sa Hab].
    rewrite Forall_forall in Hf.
    split.
    + constructor; [exact Sa |].
      rewrite Forall_forall. intros z Hz. apply Hf, in_or_app. now left.
    + intros z y [<- | Hz] Hy; [apply Hf, in_or_app; now right |].
      now apply Hab.
Qed.

(** [X14].  The list of top destinations has at most five entries, all
    taken from the destination totals, in order of decreasing quantity;
    a destination left out has no more quantity than any one listed. *)
Theorem X14_top_destinations :
  forall v6_data : list order,
    List.length (top_dests v6_data)
    = Nat.min 5 (List.length (destinations v6_data))
    /\ (forall x : string * Z,
          In x (top_dests v6_data) -> In x (destinations v6_data))
    /\ StronglySorted (fun a b => snd b <= snd a) (top_dests v6_data)
    /\ (forall x y : string * Z,
          In x (top_dests v6_data) ->
          In y (destinations v6_data) ->
          ~ In y (top_dests v6_data) ->
          snd y <= snd x).
Proof.
  intro v6_data. unfold top_dests.
  destruct (sorted_by_spec _ (fun x : string * Z => - snd x)
              (destinations v6_data)) as [P S].
  set (s := PyDict.sorted_by _ _) in *.
  rewrite <- (firstn_skipn 5 s) in S.
  apply sorted_app_inv in S. destruct S as [S Hab].
  assert (Hin : forall x, In x (firstn 5 s) -> In x s).
  { intros x Hx. rewrite <- (firstn_skipn 5 s). apply in_or_app. now left. }
  split; [rewrite length_firstn, (Permutation_length P); reflexivity |].
  split; [intros x Hx; apply (Permutation_in _ P); now apply Hin |].
  split.
  - clear Hab Hin. induction S as [| x l Sl IH Hx]; constructor.
    + exact IH.
    + rewrite Forall_forall in *. intros z Hz. specialize (Hx z Hz). lia.
  - intros x y Hx Hy Hny.
    apply (Permutation_in _ (Permutation_sym P)) in Hy.
    rewrite <- (firstn_skipn 5 s) in Hy. apply in_app_or in Hy.
    destruct Hy as [Hy | Hy]; [contradiction |].
    specialize (Hab x y Hx Hy). cbv beta in Hab. lia.
Qed.

(** ** The workbook of the report generator *)

Lemma flatten_record_delay :
  forall r : order, row_is_delayed (flatten_record r) = is_delayed_record r.
Proof.
  intro r. unfold row_is_delayed, flatten_record, is_delayed_record.
  cbv zeta. cbn [nth_error].
  destruct (crd r) as [c |]; [| reflexivity].
  destruct (negb (c =? "") && negb (sddValue r =? "") && negb (c =? "")
            && negb (sddValue r =? ""))%string; [| reflexivity].
  destruct (str_gt (sddValue r) c && negb (py_truthy (code04 r)));
    reflexivity.
Qed.

(** [X15].  A row of the order sheet has one value per header of
    [EXCEL_COLUMNS]; the value under 'Delay', which decides whether the
    row is painted, is 'Yes' exactly when [is_delayed_record] holds, and
    the value under 'Overall Status' is the warehouse-out status. *)
Theorem X15_sheet_row :
  forall r : order,
    List.length (flatten_record r) = List.length EXCEL_COLUMNS
    /\ nth_error EXCEL_COLUMNS 29 = Some "Delay"
    /\ nth_error (flatten_record r) 29
       = Some (XStr (if is_delayed_record r then "Yes" else "No"))
    /\ row_is_delayed (flatten_record r) = is_delayed_record r
    /\ nth_error EXCEL_COLUMNS 30 = Some "Overall Status"
    /\ nth_error (flatten_record r) 30
       = Some (XStr (status (wh_out (production r)))).
Proof.
  intro r.
  split; [reflexivity |]. split; [reflexivity |].
  split; [| split; [apply flatten_record_delay | split; reflexivity]].
  unfold flatten_record, is_delayed_record. cbv zeta. cbn [nth_error].
  reflexivity.
Qed.

(** [X16].  The number of rows painted as delayed on the order sheet is
    the number of delayed orders written on the Info sheet. *)
Theorem X16_painted_rows_match_info :
  forall all_records : list order,
    Z.of_nat
      (List.length
         (filter (fun r => row_is_delayed (flatten_record r)) all_records))
    = delay_count all_records.
Proof.
  intro all_records. unfold delay_count.
  assert (G : forall (l : list order) (a : Z),
             fold_left (fun acc r => if is_delayed_record r then acc + 1
                                     else acc) l a
             = a + Z.of_nat
                     (List.length
                        (filter (fun r => row_is_delayed (flatten_record r))
                           l))).
  { induction l as [| r l IH]; intro a; cbn [fold_left filter].
    - cbn. lia.
    - rewrite IH, flatten_record_delay.
      destruct (is_delayed_record r); cbn [List.length]; lia. }
  rewrite G. lia.
Qed.

(** [X17].  The status rows of the Info sheet count the orders whose
    warehouse-out status is completed, partial or pending, each status
    at most once and only when it occurs; an order with any other
    status (an unrecognised warehouse-out cell gives 'unknown') is in
    none of them. *)
Theorem X17_status_rows :
  forall all_records : list order,
    (forall (label : string) (n : Z),
       In (label, n) (status_rows all_records) ->
       0 < n
       /\ exists st : string,
            In st ["completed"; "partial"; "pending"]
            /\ label = "  " ++ st
            /\ n = Z.of_nat
                     (List.length
                        (filter
                           (fun r =>
                              (status (wh_out (production r)) =? st)%string)
                           all_records)))
    /\ fold_right Z.add 0 (map snd (status_rows all_records))
       = Z.of_nat
           (List.length
              (filter
                 (fun r =>
                    mem (status (wh_out (production r)))
                      ["completed"; "partial"; "pending"])
                 all_records)).
Proof.
  intro all_records.
  assert (Ones : forall l : list order,
             fold_right Z.add 0 (map (fun _ : order => 1) l)
             = Z.of_nat (List.length l)).
  { induction l as [| r l IH]; cbn [map fold_right List.length]; lia. }
  assert (Hget : forall st : string,
             PyDict.get (status_counts all_records) st 0
             = Z.of_nat
                 (List.length
                    (filter
                       (fun r =>
                          (status (wh_out (production r)) =? st)%string)
                       all_records))).
  { intro st. unfold status_counts. cbv zeta.
    rewrite (tally_get (fun r => status (wh_out (production r)))
               (fun _ => 1)).
    cbn [PyDict.get]. now rewrite Ones. }
  assert (Hkey : forall st : string,
             PyDict.has_key (status_counts all_records) st
             = existsb (fun r => (status (wh_out (production r)) =? st)%string)
                 all_records).
  { intro st. unfold status_counts. cbv zeta.
    now rewrite (tally_has_key (fun r => status (wh_out (production r)))
                   (fun _ => 1)). }
  assert (Hpos : forall st : string,
             existsb (fun r => (status (wh_out (production r)) =? st)%string)
               all_records = true ->
             (0 < List.length
                    (filter
                       (fun r =>
                          (status (wh_out (production r)) =? st)%string)
                       all_records))%nat).
  { intros st E. apply existsb_exists in E. destruct E as (r & Hr & E).
    assert (Hf : In r (filter
                         (fun r =>
                            (status (wh_out (production r)) =? st)%string)
                         all_records))
      by (apply filter_In; now split).
    destruct (filter _ all_records); [destruct Hf | cbn; lia]. }
  assert (Hzero : forall st : string,
             existsb (fun r => (status (wh_out (production r)) =? st)%string)
               all_records = false ->
             filter (fun r => (status (wh_out (production r)) =? st)%string)
               all_records = []).
  { intros st E.
    destruct (filter _ all_records) as [| r l] eqn:F; [reflexivity |].
    assert (Hr : In r (r :: l)) by now left.
    rewrite <- F in Hr. apply filter_In in Hr.
    assert (existsb (fun r => (status (wh_out (production r)) =? st)%string)
              all_records = true)
      by (apply existsb_exists; now exists r).
    congruence. }
  assert (Hrow_in : forall (st label : string) (n : Z),
             In (label, n)
               (if PyDict.has_key (status_counts all_records) st
                then [("  " ++ st,
                       PyDict.get (status_counts all_records) st 0)]
                else []) ->
             0 < n /\ label = "  " ++ st
             /\ n = Z.of_nat
                      (List.length
                         (filter
                            (fun r =>
                               (status (wh_out (production r)) =? st)%string)
                            all_records))).
  { intros st label n Hin. rewrite Hkey, Hget in Hin.
    destruct (existsb _ all_records) eqn:E; [| destruct Hin].
    destruct Hin as [Hin | []]. injection Hin as <- <-.
    apply Hpos in E. split; [lia | now split]. }
  assert (Hrow : forall st : string,
             fold_right Z.add 0
               (map snd
                  (if PyDict.has_key (status_counts all_records) st
                   then [("  " ++ st,
                          PyDict.get (status_counts all_records) st 0)]
                   else []))
             = Z.of_nat
                 (List.length
                    (filter
                       (fun r =>
                          (status (wh_out (production r)) =? st)%string)
                       all_records))).
  { intro st. rewrite Hkey, Hget. destruct (existsb _ all_records) eqn:E.
    - cbn [map snd fold_right]. lia.
    - rewrite (Hzero st E). reflexivity. }
  split.
  - intros label n Hin. unfold status_rows in Hin. cbv zeta in Hin.
    cbn [flat_map] in Hin.
    apply in_app_or in Hin. destruct Hin as [Hin | Hin];
      [| apply in_app_or in Hin; destruct Hin as [Hin | Hin];
         [| apply in_app_or in Hin; destruct Hin as [Hin | []]]];
      apply Hrow_in in Hin; destruct Hin as (Hp & Hl & Hn);
      (split; [exact Hp |]); eexists; (split; [| split; eassumption]);
      cbn; tauto.
  - unfold status_rows. cbv zeta. cbn [flat_map].
    rewrite !map_app, !fold_right_app. cbn [map fold_right].
    assert (Happ : forall (a : list (string * Z)) (z : Z),
               fold_right Z.add z (map snd a)
               = fold_right Z.add 0 (map snd a) + z).
    { induction a as [| x a IH]; intro z; cbn [map fold_right];
        [lia | rewrite IH; lia]. }
    rewrite (Happ _ (fold_right _ _ _)), (Happ _ (fold_right _ _ _)).
    rewrite !Hrow. clear.
    induction all_records as [| r l IH]; [reflexivity |].
    cbn [filter]. unfold mem in *. cbn [existsb] in *.
    destruct (String.eqb_spec (status (wh_out (production r))) "completed")
      as [E1 | N1];
      destruct (String.eqb_spec (status (wh_out (production r))) "partial")
        as [E2 | N2];
      destruct (String.eqb_spec (status (wh_out (production r))) "pending")
        as [E3 | N3];
      try congruence; cbn [orb List.length] in *; lia.
Qed.

(** ** The batch over the factory files *)

Lemma emitted_factory :
  forall (fac : string) (df : list row) (o : order),
    In o (parse_factory_file fac df) -> factory o = fac.
Proof.
  intros fac df o Ho.
  apply emitted_from_row in Ho. destruct Ho as (r & qs & qs' & _ & H).
  apply row_body_Next in H. now destruct H as (_ & _ & _ & Hf & _).
Qed.

Lemma path_factory :
  forall (fs : string -> file) (fac filename : string) (o : order),
    In o (parse_factory_path fs fac filename) -> factory o = fac.
Proof.
  intros fs fac filename o. unfold parse_factory_path.
  destruct (fs filename); [intros [] | intros [] | apply emitted_factory].
Qed.

Lemma filter_factory_same :
  forall (fs : string -> file) (fac filename : string),
    filter (fun o => (factory o =? fac)%string)
      (parse_factory_path fs fac filename)
    = parse_factory_path fs fac filename.
Proof.
  intros fs fac filename.
  pose proof (path_factory fs fac filename) as H.
  induction (parse_factory_path fs fac filename) as [| o l IH];
    [reflexivity |].
  cbn [filter]. rewrite (H o (or_introl eq_refl)), String.eqb_refl.
  f_equal. apply IH. intros o' Ho'. apply H. now right.
Qed.

Lemma filter_factory_other :
  forall (fs : string -> file) (fac fac' filename : string),
    fac' <> fac ->
    filter (fun o => (factory o =? fac)%string)
      (parse_factory_path fs fac' filename) = [].
Proof.
  intros fs fac fac' filename Hne.
  pose proof (path_factory fs fac' filename) as H.
  induction (parse_factory_path fs fac' filename) as [| o l IH];
    [reflexivity |].
  cbn [filter]. rewrite (H o (or_introl eq_refl)).
  destruct (String.eqb_spec fac' fac); [contradiction |].
  apply IH. intros o' Ho'. apply H. now right.
Qed.

(** The loop of [main] unrolled: a file that is absent adds what
    [parse_factory_path] gives for it, which is nothing. *)
Lemma main_unrolled :
  forall fs : string -> file,
    parse_loadplan.main fs
    = flat_map (fun '(fac, filename) => parse_factory_path fs fac filename)
        parse_loadplan.FACTORY_FILES.
Proof.
  intro fs. unfold parse_loadplan.main, parse_loadplan.FACTORY_FILES.
  cbn [fold_left flat_map]. unfold exists_, parse_factory_path.
  destruct (fs _), (fs _), (fs _), (fs _); cbn [app];
    rewrite ?app_nil_r, <- ?app_assoc; reflexivity.
Qed.

Lemma collect_unrolled :
  forall fs : string -> file,
    fst (collect fs)
    = flat_map (fun '(fac, filename) => parse_factory_path fs fac filename)
        generate_consolidated.FACTORY_FILES
    /\ snd (collect fs)
       = map fst
           (filter (fun '(fac, filename) => exists_ fs filename)
              generate_consolidated.FACTORY_FILES).
Proof.
  intro fs. unfold collect, generate_consolidated.FACTORY_FILES.
  cbn [fold_left flat_map filter]. unfold exists_, parse_factory_path.
  destruct (fs _), (fs _), (fs _), (fs _); cbn [app fst snd map];
    rewrite ?app_nil_r, <- ?app_assoc; split; reflexivity.
Qed.

(** [X18].  The batch of [main] holds exactly the orders parsed from the
    factory files that exist and can be read; the orders of one factory
    are those of its own file, in the file's order, each carrying the
    factory's letter. *)
Theorem X18_batch_by_factory :
  forall fs : string -> file,
    (forall o : order,
       In o (parse_loadplan.main fs) <->
       exists (fac filename : string) (df : list row),
         In (fac, filename) parse_loadplan.FACTORY_FILES
         /\ fs filename = Sheet df
         /\ In o (parse_factory_file fac df))
    /\ (forall fac filename : string,
          In (fac, filename) parse_loadplan.FACTORY_FILES ->
          filter (fun o => (factory o =? fac)%string)
            (parse_loadplan.main fs)
          = parse_factory_path fs fac filename).
Proof.
  intro fs. rewrite main_unrolled. split.
  - intro o. rewrite in_flat_map. split.
    + intros ([fac filename] & Hin & Ho). unfold parse_factory_path in Ho.
      destruct (fs filename) as [| | df] eqn:E; try destruct Ho.
      now exists fac, filename, df.
    + intros (fac & filename & df & Hin & E & Ho).
      exists (fac, filename). split; [exact Hin |].
      unfold parse_factory_path. now rewrite E.
  - intros fac filename Hin.
    unfold parse_loadplan.FACTORY_FILES in *. cbn [flat_map].
    rewrite !filter_app. cbn [filter].
    cbn [In] in Hin.
    destruct Hin as [E | [E | [E | [E | []]]]]; injection E as <- <-;
      rewrite filter_factory_same;
      rewrite !filter_factory_other by discriminate;
      rewrite ?app_nil_r; reflexivity.
Qed.

(** [X19].  The report generator stops without a workbook exactly when
    no factory file yields an order; otherwise its records are those of
    the four files in the order A, B, C, D.  A file that exists but
    cannot be read is still listed among the parsed factories. *)
Theorem X19_report_batch :
  forall fs : string -> file,
    (main_records fs = None <->
     forall fac filename : string,
       In (fac, filename) generate_consolidated.FACTORY_FILES ->
       parse_factory_path fs fac filename = [])
    /\ (forall all_records : list order,
          main_records fs = Some all_records ->
          all_records <> []
          /\ all_records
             = flat_map
                 (fun '(fac, filename) => parse_factory_path fs fac filename)
                 generate_consolidated.FACTORY_FILES)
    /\ (forall fac : string,
          In fac (snd (collect fs)) <->
          exists filename : string,
            In (fac, filename) generate_consolidated.FACTORY_FILES
            /\ fs filename <> Absent).
Proof.
  intro fs. destruct (collect_unrolled fs) as [Hr Hp].
  unfold main_records. rewrite Hr, Hp. split; [| split].
  - split.
    + intros H fac filename Hin.
      destruct (flat_map _ _) as [| o l] eqn:E; [| discriminate].
      destruct (parse_factory_path fs fac filename) as [| o l] eqn:P;
        [reflexivity |].
      assert (Ho : In o []).
      { rewrite <- E. apply in_flat_map. exists (fac, filename).
        split; [exact Hin | rewrite P; now left]. }
      destruct Ho.
    + intro H.
      unfold generate_consolidated.FACTORY_FILES in *. cbn [flat_map].
      rewrite !H by (cbn; tauto). reflexivity.
  - intros all_records H.
    destruct (flat_map _ _) as [| o l]; [discriminate |].
    injection H as <-. split; [discriminate | reflexivity].
  - intro fac. rewrite in_map_iff. split.
    + intros ([fac' filename] & E & Hin). cbn [fst] in E. subst fac'.
      apply filter_In in Hin. destruct Hin as [Hin Hex].
      exists filename. split; [exact Hin |].
      unfold exists_ in Hex. destruct (fs filename); congruence.
    + intros (filename & Hin & Hne). exists (fac, filename).
      split; [reflexivity |]. apply filter_In. split; [exact Hin |].
      unfold exists_. destruct (fs filename); congruence.
Qed.

(** ** The calendar *)

Lemma month_cases :
  forall m : Z, 1 <= m <= 12 ->
    m = 1 \/ m = 2 \/ m = 3 \/ m = 4 \/ m = 5 \/ m = 6 \/ m = 7 \/ m = 8
    \/ m = 9 \/ m = 10 \/ m = 11 \/ m = 12.
Proof. intros m H. lia. Qed.

Lemma is_leap_spec :
  forall y : Z,
    is_leap y = true <->
    (y mod 4 = 0 /\ y mod 100 <> 0) \/ y mod 400 = 0.
Proof.
  intro y. unfold is_leap.
  rewrite orb_true_iff, andb_true_iff, negb_true_iff, !Z.eqb_eq, Z.eqb_neq.
  tauto.
Qed.

Section Calendar.

(** Days from 1970-01-01 to the first of March of year [y]. *)
Local Abbreviation march_first y :=
  (365 * y + y / 4 - y / 100 + y / 400 - 719468) (only parsing).

(** Days from the first of March to the first of month [m]. *)
Local Abbreviation month_offset m :=
  (nth (Z.to_nat m) [0; 306; 337; 0; 31; 61; 92; 122; 153; 184; 214; 245; 275]
     0) (only parsing).

Lemma days_from_civil_split :
  forall y m d : Z,
    1 <= m <= 12 ->
    days_from_civil y m d
    = march_first (if m <=? 2 then y - 1 else y) + month_offset m + d - 1.
Proof.
  intros y m d Hm. unfold days_from_civil. cbv zeta.
  assert (E : (153 * (if 2 <? m then m - 3 else m + 9) + 2) / 5
              = nth (Z.to_nat m)
                  [0; 306; 337; 0; 31; 61; 92; 122; 153; 184; 214; 245; 275]
                  0).
  { apply month_cases in Hm.
    repeat (destruct Hm as [-> | Hm]; [reflexivity |]). subst m.
    reflexivity. }
  rewrite E. generalize (if m <=? 2 then y - 1 else y). intro z.
  generalize (nth (Z.to_nat m)
                [0; 306; 337; 0; 31; 61; 92; 122; 153; 184; 214; 245; 275] 0).
  intro k. Z.div_mod_to_equations. lia.
Qed.

Lemma march_first_mono :
  forall a b : Z, a <= b -> march_first a <= march_first b.
Proof.
  intros a b H. Z.div_mod_to_equations. lia.
Qed.

Lemma march_first_next :
  forall y : Z,
    march_first (y + 1) - march_first y
    = if is_leap (y + 1) then 366 else 365.
Proof.
  intro y.
  destruct (is_leap (y + 1)) eqn:L.
  - apply is_leap_spec in L. Z.div_mod_to_equations. lia.
  - assert (N : ~ ((y + 1) mod 4 = 0 /\ (y + 1) mod 100 <> 0
                   \/ (y + 1) mod 400 = 0))
      by (rewrite <- is_leap_spec; congruence).
    Z.div_mod_to_equations. lia.
Qed.

Ltac month_constants :=
  cbv [days_in_month nth Z.to_nat Pos.to_nat Pos.iter_op
       Init.Nat.add Z.eqb Pos.eqb Z.leb Z.ltb Z.compare Pos.compare
       Pos.compare_cont orb] in *.

(** A date lies in the year that starts on its last first of March. *)
Lemma date_in_march_year :
  forall y m d : Z,
    1 <= m <= 12 -> 1 <= d <= days_in_month y m ->
    0 <= month_offset m + d - 1
    /\ march_first (if m <=? 2 then y - 1 else y) + month_offset m + d - 1
       < march_first ((if m <=? 2 then y - 1 else y) + 1).
Proof.
  intros y m d Hm Hd.
  pose proof (march_first_next (if m <=? 2 then y - 1 else y)) as N.
  apply month_cases in Hm.
  repeat (destruct Hm as [-> | Hm]); try subst m; month_constants;
    try (replace (y - 1 + 1) with y in * by lia);
    destruct (is_leap _); lia.
Qed.

(** Within one such year the offsets follow the calendar. *)
Lemma month_offsets_ordered :
  forall y m1 d1 m2 d2 : Z,
    1 <= m1 <= 12 -> 1 <= d1 <= days_in_month y m1 ->
    1 <= m2 <= 12 -> 1 <= d2 ->
    (m1 <=? 2) = (m2 <=? 2) ->
    m1 < m2 \/ (m1 = m2 /\ d1 < d2) ->
    month_offset m1 + d1 < month_offset m2 + d2.
Proof.
  intros y m1 d1 m2 d2 Hm1 Hd1 Hm2 Hd2 E Hlt.
  apply month_cases in Hm1, Hm2.
  repeat (destruct Hm1 as [-> | Hm1]); try subst m1;
    repeat (destruct Hm2 as [-> | Hm2]); try subst m2;
    try discriminate E; try lia;
    month_constants; try destruct (is_leap _); lia.
Qed.

Lemma month_offsets_wrap :
  forall y m1 d1 m2 d2 : Z,
    3 <= m1 <= 12 -> 1 <= d1 <= days_in_month y m1 ->
    1 <= m2 <= 2 -> 1 <= d2 ->
    month_offset m1 + d1 < month_offset m2 + d2.
Proof.
  intros y m1 d1 m2 d2 Hm1 Hd1 Hm2 Hd2.
  assert (H1 : 1 <= m1 <= 12) by lia. assert (H2 : 1 <= m2 <= 12) by lia.
  apply month_cases in H1, H2.
  repeat (destruct H1 as [-> | H1]); try subst m1; try lia;
    repeat (destruct H2 as [-> | H2]); try subst m2; try lia;
    month_constants; lia.
Qed.

(** Day numbers grow with the date. *)
Lemma days_from_civil_lt :
  forall y1 m1 d1 y2 m2 d2 : Z,
    1 <= m1 <= 12 -> 1 <= d1 <= days_in_month y1 m1 ->
    1 <= m2 <= 12 -> 1 <= d2 <= days_in_month y2 m2 ->
    y1 < y2 \/ (y1 = y2 /\ (m1 < m2 \/ (m1 = m2 /\ d1 < d2))) ->
    days_from_civil y1 m1 d1 < days_from_civil y2 m2 d2.
Proof.
  intros y1 m1 d1 y2 m2 d2 Hm1 Hd1 Hm2 Hd2 Hlt.
  rewrite !days_from_civil_split by assumption.
  destruct (date_in_march_year y1 m1 d1 Hm1 Hd1) as [P1 Q1].
  destruct (date_in_march_year y2 m2 d2 Hm2 Hd2) as [P2 Q2].
  assert (Hle : (if m1 <=? 2 then y1 - 1 else y1) + 1
                <= (if m2 <=? 2 then y2 - 1 else y2)
                \/ ((if m1 <=? 2 then y1 - 1 else y1)
                    = (if m2 <=? 2 then y2 - 1 else y2)
                    /\ month_offset m1 + d1 < month_offset m2 + d2)).
  { destruct Hlt as [Hy | [-> Hmd]].
    - destruct (m1 <=? 2) eqn:E1, (m2 <=? 2) eqn:E2;
        try apply Z.leb_le in E1; try apply Z.leb_gt in E1;
        try apply Z.leb_le in E2; try apply Z.leb_gt in E2;
        try (left; lia).
      destruct (Z.eq_dec (y1 + 1) y2) as [<- | Hne]; [| left; lia].
      right. split; [lia |].
      apply (month_offsets_wrap y1); lia.
    - destruct (m1 <=? 2) eqn:E1, (m2 <=? 2) eqn:E2.
      + right. split; [reflexivity |].
        apply (month_offsets_ordered y2); first [lia | congruence].
      + apply Z.leb_le in E1. apply Z.leb_gt in E2. left. lia.
      + apply Z.leb_gt in E1. apply Z.leb_le in E2. lia.
      + right. split; [reflexivity |].
        apply (month_offsets_ordered y2); first [lia | congruence]. }
  destruct Hle as [Hle | [E Hoff]]; [| rewrite E in *; lia].
  apply march_first_mono in Hle. lia.
Qed.

End Calendar.

(** ** Dates in canonical form *)

Lemma is_digit_cases :
  forall c : ascii,
    is_digit c = true ->
    In c ["0"; "1"; "2"; "3"; "4"; "5"; "6"; "7"; "8"; "9"]%char.
Proof.
  intros [[|] [|] [|] [|] [|] [|] [|] [|]] H;
    try discriminate H; cbn; tauto.
Qed.

Lemma two_digits :
  forall g : string,
    digits_between 2 2 g = true ->
    exists a b : ascii,
      g = String a (String b "") /\ is_digit a = true /\ is_digit b = true.
Proof.
  intros g H. unfold digits_between in H.
  apply andb_true_iff in H. destruct H as [H H3].
  apply andb_true_iff in H. destruct H as [H1 H2].
  destruct g as [| a [| b [| c g]]]; try discriminate.
  cbn [all_digits] in H1. rewrite andb_true_r in H1.
  apply andb_true_iff in H1. now exists a, b.
Qed.

Lemma four_digits :
  forall g : string,
    digits_between 4 4 g = true ->
    exists a b c d : ascii,
      g = String a (String b (String c (String d "")))
      /\ is_digit a = true /\ is_digit b = true
      /\ is_digit c = true /\ is_digit d = true.
Proof.
  intros g H. unfold digits_between in H.
  apply andb_true_iff in H. destruct H as [H H3].
  apply andb_true_iff in H. destruct H as [H1 H2].
  destruct g as [| a [| b [| c [| d [| e g]]]]]; try discriminate.
  cbn [all_digits] in H1. rewrite andb_true_r in H1.
  apply andb_true_iff in H1. destruct H1 as [Ha H1].
  apply andb_true_iff in H1. destruct H1 as [Hb H1].
  apply andb_true_iff in H1. destruct H1 as [Hc Hd].
  now exists a, b, c, d.
Qed.

(** The fields of a text in canonical shape. *)
Lemma canonical_fields :
  forall s : string,
    canonical_shape s = true ->
    exists ys ms ds : string,
      split_on "-" s = [ys; ms; ds]
      /\ s = ys ++ "-" ++ ms ++ "-" ++ ds
      /\ digits_between 4 4 ys = true
      /\ digits_between 2 2 ms = true
      /\ digits_between 2 2 ds = true.
Proof.
  intros s H. unfold canonical_shape in H.
  pose proof (split_on_join "-" s) as J.
  destruct (split_on "-" s) as [| ys [| ms [| ds [| x l]]]];
    try discriminate H.
  apply andb_true_iff in H. destruct H as [H Hd].
  apply andb_true_iff in H. destruct H as [Hy Hm].
  exists ys, ms, ds. repeat split; try assumption.
  now rewrite <- J.
Qed.

(** A valid date in canonical form, through its fields. *)
Lemma utc_date_parse_fields :
  forall (s : string) (t : Z),
    utc_date_parse s = Some t ->
    exists ys ms ds : string,
      split_on "-" s = [ys; ms; ds]
      /\ s = ys ++ "-" ++ ms ++ "-" ++ ds
      /\ digits_between 4 4 ys = true
      /\ digits_between 2 2 ms = true
      /\ digits_between 2 2 ds = true
      /\ 1 <= int_of_digits ms <= 12
      /\ 1 <= int_of_digits ds
              <= days_in_month (int_of_digits ys) (int_of_digits ms)
      /\ t = days_from_civil (int_of_digits ys) (int_of_digits ms)
               (int_of_digits ds) * (1000 * 60 * 60 * 24).
Proof.
  intros s t H.
  assert (C : canonical_shape s = true).
  { unfold canonical_shape. unfold utc_date_parse in H.
    destruct (split_on "-" s) as [| ys [| ms [| ds [| x l]]]];
      try discriminate H.
    destruct (_ && _ && _); [reflexivity | discriminate H]. }
  destruct (canonical_fields s C) as (ys & ms & ds & E & J & Hy & Hm & Hd).
  exists ys, ms, ds. unfold utc_date_parse in H. rewrite E in H.
  rewrite Hy, Hm, Hd in H. cbn [andb] in H. cbv zeta in H.
  destruct (_ && _ && _ && _) eqn:V in H; [| discriminate H].
  apply andb_true_iff in V. destruct V as [V V4].
  apply andb_true_iff in V. destruct V as [V V3].
  apply andb_true_iff in V. destruct V as [V1 V2].
  apply Z.leb_le in V1, V2, V3, V4.
  injection H as <-.
  repeat split; try assumption.
Qed.

Lemma ascii_compare_digit :
  forall a b : ascii, Ascii.compare a b = (digit_val a ?= digit_val b).
Proof.
  intros a b. unfold Ascii.compare, digit_val, nat_of_ascii.
  rewrite !N_nat_Z, <- N2Z.inj_compare.
  destruct (Z.compare_spec (Z.of_N (N_of_ascii a)) (Z.of_N (N_of_ascii b)));
    symmetry; [apply Z.compare_eq_iff | apply Z.compare_lt_iff
               | apply Z.compare_gt_iff]; lia.
Qed.

(** On texts in canonical shape the order of the texts is the order of
    the year, month and day they name. *)
Lemma text_order_fields :
  forall ys1 ms1 ds1 ys2 ms2 ds2 : string,
    digits_between 4 4 ys1 = true -> digits_between 2 2 ms1 = true ->
    digits_between 2 2 ds1 = true ->
    digits_between 4 4 ys2 = true -> digits_between 2 2 ms2 = true ->
    digits_between 2 2 ds2 = true ->
    str_gt (ys1 ++ "-" ++ ms1 ++ "-" ++ ds1) (ys2 ++ "-" ++ ms2 ++ "-" ++ ds2)
    = PyDatetime.date_gt
        (int_of_digits ys1, int_of_digits ms1, int_of_digits ds1)
        (int_of_digits ys2, int_of_digits ms2, int_of_digits ds2).
Proof.
  intros ys1 ms1 ds1 ys2 ms2 ds2 Hy1 Hm1 Hd1 Hy2 Hm2 Hd2.
  destruct (four_digits _ Hy1) as (a1 & b1 & c1 & d1 & -> & A1 & B1 & C1 & D1).
  destruct (four_digits _ Hy2) as (a2 & b2 & c2 & d2 & -> & A2 & B2 & C2 & D2).
  destruct (two_digits _ Hm1) as (e1 & f1 & -> & E1 & F1).
  destruct (two_digits _ Hm2) as (e2 & f2 & -> & E2 & F2).
  destruct (two_digits _ Hd1) as (g1 & h1 & -> & G1 & H1).
  destruct (two_digits _ Hd2) as (g2 & h2 & -> & G2 & H2).
  apply digit_val_range in A1, B1, C1, D1, E1, F1, G1, H1,
                           A2, B2, C2, D2, E2, F2, G2, H2.
  unfold str_gt, String.ltb, PyDatetime.date_gt, int_of_digits.
  cbn [append String.compare digits_acc].
  rewrite !ascii_compare_digit, !Z.compare_refl.
  generalize dependent (digit_val a1). generalize dependent (digit_val b1).
  generalize dependent (digit_val c1). generalize dependent (digit_val d1).
  generalize dependent (digit_val e1). generalize dependent (digit_val f1).
  generalize dependent (digit_val g1). generalize dependent (digit_val h1).
  generalize dependent (digit_val a2). generalize dependent (digit_val b2).
  generalize dependent (digit_val c2). generalize dependent (digit_val d2).
  generalize dependent (digit_val e2). generalize dependent (digit_val f2).
  generalize dependent (digit_val g2). generalize dependent (digit_val h2).
  intros. apply eq_iff_eq_true.
  rewrite orb_true_iff, andb_true_iff, orb_true_iff, andb_true_iff,
    !Z.ltb_lt, !Z.eqb_eq.
  repeat match goal with
         | |- context [?x ?= ?y] => destruct (Z.compare_spec x y)
         end;
    (split; [intro; try discriminate; lia | intro; try reflexivity; lia]).
Qed.

Lemma is_leap_agree : forall y : Z, PyDatetime._is_leap y = is_leap y.
Proof.
  intro y. unfold PyDatetime._is_leap, is_leap.
  destruct (Z.eqb_spec (y mod 4) 0), (Z.eqb_spec (y mod 100) 0),
    (Z.eqb_spec (y mod 400) 0); cbn; try reflexivity;
    exfalso; Z.div_mod_to_equations; lia.
Qed.

Lemma days_in_month_agree :
  forall y m : Z,
    1 <= m <= 12 -> PyDatetime._days_in_month y m = days_in_month y m.
Proof.
  intros y m Hm. unfold PyDatetime._days_in_month, days_in_month.
  rewrite is_leap_agree. apply month_cases in Hm.
  repeat (destruct Hm as [-> | Hm]); try subst m;
    try reflexivity; cbn; destruct (is_leap y); reflexivity.
Qed.

Lemma days_in_month_max :
  forall y m : Z, days_in_month y m <= 31.
Proof.
  intros y m. unfold days_in_month.
  destruct (m =? 2); [destruct (is_leap y); lia |].
  destruct (_ || _); lia.
Qed.

(** Two-digit fields within the range of a month or a day are matched
    by [%m] and [%d]. *)
Lemma two_digit_month_day :
  forall g : string,
    digits_between 2 2 g = true ->
    (1 <= int_of_digits g <= 12 -> mem g PyDatetime.month_texts = true)
    /\ (1 <= int_of_digits g <= 31 -> mem g PyDatetime.day_texts = true).
Proof.
  intros g H. destruct (two_digits g H) as (a & b & -> & Ha & Hb).
  assert (All :
    forallb
      (fun a =>
         forallb
           (fun b =>
              let g := String a (String b "") in
              implb ((1 <=? int_of_digits g) && (int_of_digits g <=? 12))
                (mem g PyDatetime.month_texts)
              && implb ((1 <=? int_of_digits g) && (int_of_digits g <=? 31))
                   (mem g PyDatetime.day_texts))
           ["0"; "1"; "2"; "3"; "4"; "5"; "6"; "7"; "8"; "9"]%char)
      ["0"; "1"; "2"; "3"; "4"; "5"; "6"; "7"; "8"; "9"]%char = true)
    by (vm_compute; reflexivity).
  rewrite forallb_forall in All.
  specialize (All a (is_digit_cases a Ha)).
  rewrite forallb_forall in All.
  specialize (All b (is_digit_cases b Hb)). cbv zeta in All.
  apply andb_true_iff in All. destruct All as [M D].
  split; intro R.
  - destruct (mem _ PyDatetime.month_texts); [reflexivity |].
    rewrite implb_false_r in M. apply negb_true_iff in M.
    apply andb_false_iff in M. destruct M as [M | M];
      [apply Z.leb_gt in M | apply Z.leb_gt in M]; lia.
  - destruct (mem _ PyDatetime.day_texts); [reflexivity |].
    rewrite implb_false_r in D. apply negb_true_iff in D.
    apply andb_false_iff in D. destruct D as [D | D];
      [apply Z.leb_gt in D | apply Z.leb_gt in D]; lia.
Qed.

(** [strptime] on a valid date in canonical form. *)
Lemma strptime_valid :
  forall (s : string) (t : Z),
    utc_date_parse s = Some t ->
    exists y m d : Z,
      1 <= m <= 12 /\ 1 <= d <= days_in_month y m
      /\ t = days_from_civil y m d * (1000 * 60 * 60 * 24)
      /\ y = int_of_digits (String.substring 0 4 s)
      /\ PyDatetime.strptime_ymd s
         = (if 1 <=? y then Ok (y, m, d) else Raise ValueError).
Proof.
  intros s t H.
  destruct (utc_date_parse_fields s t H)
    as (ys & ms & ds & E & J & Hy & Hm & Hd & Rm & Rd & Ht).
  exists (int_of_digits ys), (int_of_digits ms), (int_of_digits ds).
  split; [exact Rm |]. split; [exact Rd |]. split; [exact Ht |].
  split.
  { rewrite J. destruct (four_digits _ Hy) as (a & b & c & d & -> & _).
    reflexivity. }
  unfold PyDatetime.strptime_ymd. rewrite E, Hy.
  destruct (two_digit_month_day ms Hm) as [Mm _].
  destruct (two_digit_month_day ds Hd) as [_ Dd].
  pose proof (days_in_month_max (int_of_digits ys) (int_of_digits ms)).
  rewrite (Mm Rm), (Dd ltac:(lia)). cbn [andb]. cbv zeta.
  assert (Sd : strip ds = ds).
  { unfold strip.
    rewrite (digits_lstrip ds (digits_between_all _ _ _ Hd)).
    - apply digits_rstrip. exact (digits_between_all _ _ _ Hd).
    - intro N. subst ds. discriminate Hd. }
  rewrite Sd, (days_in_month_agree _ _ Rm).
  destruct Rd as [_ Rd]. apply Z.leb_le in Rd. rewrite Rd.
  now rewrite andb_true_r.
Qed.

(** The order of two valid dates is the order of their day numbers. *)
Lemma date_order_time :
  forall y1 m1 d1 y2 m2 d2 : Z,
    1 <= m1 <= 12 -> 1 <= d1 <= days_in_month y1 m1 ->
    1 <= m2 <= 12 -> 1 <= d2 <= days_in_month y2 m2 ->
    PyDatetime.date_gt (y1, m1, d1) (y2, m2, d2)
    = (days_from_civil y2 m2 d2 * (1000 * 60 * 60 * 24)
       <? days_from_civil y1 m1 d1 * (1000 * 60 * 60 * 24)).
Proof.
  intros y1 m1 d1 y2 m2 d2 Hm1 Hd1 Hm2 Hd2.
  unfold PyDatetime.date_gt.
  assert (Tri : (y2 < y1 \/ (y2 = y1 /\ (m2 < m1 \/ (m2 = m1 /\ d2 < d1))))
                \/ (y1 = y2 /\ m1 = m2 /\ d1 = d2)
                \/ (y1 < y2 \/ (y1 = y2 /\ (m1 < m2 \/ (m1 = m2 /\ d1 < d2)))))
    by lia.
  destruct Tri as [Lt | [(-> & -> & ->) | Gt]].
  - pose proof (days_from_civil_lt _ _ _ _ _ _ Hm2 Hd2 Hm1 Hd1 Lt) as L.
    transitivity true; [| symmetry; apply Z.ltb_lt; lia].
    apply orb_true_iff. rewrite andb_true_iff, orb_true_iff, andb_true_iff,
      !Z.ltb_lt, !Z.eqb_eq. tauto.
  - rewrite !Z.ltb_irrefl. now rewrite !andb_false_r.
  - pose proof (days_from_civil_lt _ _ _ _ _ _ Hm1 Hd1 Hm2 Hd2 Gt) as L.
    transitivity false; [| symmetry; apply Z.ltb_ge; lia].
    apply orb_false_iff. rewrite andb_false_iff, orb_false_iff,
      andb_false_iff, !Z.ltb_ge, !Z.eqb_neq. lia.
Qed.

Lemma replace_dots_none :
  forall s : string, contains "." s = false -> replace_dots s = s.
Proof.
  induction s as [| c s IH]; intro H; [reflexivity |].
  rewrite contains_char_cons in H. apply orb_false_iff in H.
  destruct H as [Hc Hs]. cbn [replace_dots].
  rewrite Ascii.eqb_sym in Hc. now rewrite Hc, (IH Hs).
Qed.

(** The dashboard's preparation of a date text leaves a valid canonical
    date alone, and its gate lets it through. *)
Lemma valid_date_passes_gate :
  forall (s : string) (t : Z),
    utc_date_parse s = Some t ->
    replace_dots s = s /\ (s =? "")%string = false
    /\ (s =? "00:00:00")%string = false.
Proof.
  intros s t H.
  destruct (utc_date_parse_fields s t H)
    as (ys & ms & ds & _ & J & Hy & Hm & Hd & _).
  split; [| split].
  - apply replace_dots_none. rewrite J.
    rewrite !contains_char_app.
    rewrite (digits_no_contains ys "." "" (digits_between_all _ _ _ Hy)
               eq_refl).
    rewrite (digits_no_contains ms "." "" (digits_between_all _ _ _ Hm)
               eq_refl).
    rewrite (digits_no_contains ds "." "" (digits_between_all _ _ _ Hd)
               eq_refl).
    reflexivity.
  - destruct (String.eqb_spec s "") as [-> | _]; [| reflexivity].
    vm_compute in H. discriminate H.
  - destruct (String.eqb_spec s "00:00:00") as [-> | _]; [| reflexivity].
    vm_compute in H. discriminate H.
Qed.

(** How two valid canonical dates compare, as texts, as [datetime]
    values and as time values. *)
Lemma valid_dates_compare :
  forall (a b : string) (ta tb : Z),
    utc_date_parse a = Some ta -> utc_date_parse b = Some tb ->
    str_gt a b = (tb <? ta)
    /\ (a = b <-> ta = tb)
    /\ (1 <= int_of_digits (String.substring 0 4 a) ->
        1 <= int_of_digits (String.substring 0 4 b) ->
        exists da db : PyDatetime.date,
          PyDatetime.strptime_ymd a = Ok da
          /\ PyDatetime.strptime_ymd b = Ok db
          /\ PyDatetime.date_gt da db = (tb <? ta)).
Proof.
  intros a b ta tb Ha Hb.
  destruct (utc_date_parse_fields a ta Ha)
    as (ys1 & ms1 & ds1 & _ & J1 & Hy1 & Hm1 & Hd1 & Rm1 & Rd1 & Ht1).
  destruct (utc_date_parse_fields b tb Hb)
    as (ys2 & ms2 & ds2 & _ & J2 & Hy2 & Hm2 & Hd2 & Rm2 & Rd2 & Ht2).
  pose proof (text_order_fields _ _ _ _ _ _ Hy1 Hm1 Hd1 Hy2 Hm2 Hd2) as T.
  rewrite <- J1, <- J2 in T.
  pose proof (date_order_time _ _ _ _ _ _ Rm1 Rd1 Rm2 Rd2) as O.
  rewrite <- Ht1, <- Ht2 in O.
  pose proof (text_order_fields _ _ _ _ _ _ Hy2 Hm2 Hd2 Hy1 Hm1 Hd1) as T'.
  rewrite <- J1, <- J2 in T'.
  pose proof (date_order_time _ _ _ _ _ _ Rm2 Rd2 Rm1 Rd1) as O'.
  rewrite <- Ht1, <- Ht2 in O'.
  split; [congruence |]. split.
  - split; [intros ->; congruence |]. intro E.
    rewrite O, E, Z.ltb_irrefl in T. rewrite O', E, Z.ltb_irrefl in T'.
    unfold str_gt, String.ltb in T, T'.
    destruct (String.compare a b) eqn:C.
    + now apply String.compare_eq_iff.
    + discriminate T'.
    + rewrite String.compare_antisym, C in T. discriminate T.
  - intros Y1 Y2.
    destruct (strptime_valid a ta Ha)
      as (y1 & m1 & d1 & Vm1 & Vd1 & Et1 & Ey1 & S1).
    destruct (strptime_valid b tb Hb)
      as (y2 & m2 & d2 & Vm2 & Vd2 & Et2 & Ey2 & S2).
    rewrite <- Ey1 in Y1. rewrite <- Ey2 in Y2.
    apply Z.leb_le in Y1, Y2. rewrite Y1 in S1. rewrite Y2 in S2.
    exists (y1, m1, d1), (y2, m2, d2).
    split; [exact S1 |]. split; [exact S2 |].
    rewrite (date_order_time _ _ _ _ _ _ Vm1 Vd1 Vm2 Vd2). congruence.
Qed.

(** ** The three copies of the delay rule on valid dates *)

(** [X20].  On valid calendar dates in canonical form the order of the
    texts, which the report generator compares, is the order of the
    dates, and equal dates have equal texts. *)
Theorem X20_text_order_is_date_order :
  forall (a b : string) (ta tb : Z),
    utc_date_parse a = Some ta ->
    utc_date_parse b = Some tb ->
    str_gt a b = (tb <? ta) /\ (a = b <-> ta = tb).
Proof.
  intros a b ta tb Ha Hb.
  destruct (valid_dates_compare a b ta tb Ha Hb) as (T & E & _).
  now split.
Qed.

Lemma X20_text_order_is_date_order_witness :
  exists ta tb : Z,
    utc_date_parse "2026-01-05" = Some ta
    /\ utc_date_parse "2025-12-31" = Some tb
    /\ tb < ta
    /\ str_gt "2026-01-05" "2025-12-31" = (tb <? ta)
    /\ ("2026-01-05" = "2025-12-31" <-> ta = tb).
Proof.
  eexists. eexists.
  split; [vm_compute; reflexivity |].
  split; [vm_compute; reflexivity |].
  split; [reflexivity |].
  exact (X20_text_order_is_date_order "2026-01-05" "2025-12-31" _ _
           eq_refl eq_refl).
Defined.

(** [X21].  For an order that is not yet shipped in full and whose CRD
    and SDD are valid calendar dates in canonical form, the report
    generator's [is_delayed_record] and the dashboard's [isDelayed]
    (with dates read as midnight UTC) give the same verdict. *)
Theorem X21_report_agrees_when_unshipped :
  forall (o : order) (c : string) (tc ts : Z),
    crd o = Some c ->
    utc_date_parse c = Some tc ->
    utc_date_parse (sddValue o) = Some ts ->
    completed (wh_out (production o)) < quantity o ->
    is_delayed_record o = isDelayed utc_date_parse o.
Proof.
  intros o c tc ts Hc Htc Hts Hopen.
  destruct (valid_date_passes_gate c tc Htc) as (Rc & Ec & Zc).
  destruct (valid_date_passes_gate _ ts Hts) as (Rs & Es & Zs).
  destruct (valid_dates_compare _ _ _ _ Hts Htc) as (T & _).
  unfold is_delayed_record, isDelayed. cbv zeta.
  rewrite Hc, Ec, Es, Zc, Zs, Rc, Rs, Htc, Hts, T.
  cbn [negb andb orb].
  apply Z.leb_gt in Hopen. rewrite Hopen.
  unfold js_truthy, py_truthy.
  destruct (code04 o) as [k |]; [destruct (k =? "")%string |];
    cbn [negb]; rewrite ?andb_true_r, ?andb_false_r; reflexivity.
Qed.

Lemma X21_report_agrees_when_unshipped_witness :
  exists o : order,
    parse_factory_file "A"
      [CStr "U1" :: repeat CNaN 4
         ++ [CStr "2025-12-20"; CNaN; CStr "2025-12-22"] ++ repeat CNaN 9
         ++ [CInt 50] ++ repeat CNaN 37 ++ [CInt 20] ++ repeat CNaN 6]
    = [o]
    /\ crd o = Some "2025-12-20" /\ sddValue o = "2025-12-22"
    /\ completed (wh_out (production o)) < quantity o
    /\ is_delayed_record o = true
    /\ is_delayed_record o = isDelayed utc_date_parse o.
Proof.
  eexists. split; [vm_compute; reflexivity |].
  split; [reflexivity |]. split; [reflexivity |].
  split; [reflexivity |]. split; [reflexivity |].
  eapply (X21_report_agrees_when_unshipped _ "2025-12-20");
    [reflexivity | vm_compute; reflexivity | vm_compute; reflexivity
    | reflexivity].
Defined.

(** One turn of the check loop counts an order exactly when the
    dashboard's rule calls it delayed. *)
Lemma delayed_step_isDelayed :
  forall (r : order) (n : Z),
    (forall s : string,
       s = sddValue r \/ crd r = Some s ->
       s = ""
       \/ (utc_date_parse s <> None
           /\ 1 <= int_of_digits (String.substring 0 4 s))) ->
    delayed_step n r = if isDelayed utc_date_parse r then n + 1 else n.
Proof.
  intros r n H. unfold delayed_step, isDelayed. cbv zeta.
  destruct (crd r) as [c |] eqn:Hc; [| reflexivity].
  destruct (H (sddValue r) (or_introl eq_refl)) as [Es | [Vs Ys]];
    [rewrite Es; reflexivity |].
  destruct (H c (or_intror eq_refl)) as [Ec | [Vc Yc]];
    [rewrite Ec; cbn; now rewrite !orb_true_r |].
  destruct (utc_date_parse (sddValue r)) as [ts |] eqn:Hts; [| congruence].
  destruct (utc_date_parse c) as [tc |] eqn:Htc; [| congruence].
  destruct (valid_date_passes_gate c tc Htc) as (Rc & Ec & Zc).
  destruct (valid_date_passes_gate _ ts Hts) as (Rs & Es & Zs).
  destruct (valid_dates_compare _ _ _ _ Hts Htc) as (_ & _ & P).
  destruct (P Ys Yc) as (ds & dc & Ss & Sc & G).
  rewrite Ec, Es, Zc, Zs, Rc, Rs, Htc, Hts, Ss, Sc, G.
  cbn [orb].
  destruct (quantity r <=? completed (wh_out (production r)));
    [reflexivity |].
  destruct (js_truthy (code04 r)); reflexivity.
Qed.

(** [X22].  When every CRD and SDD in the data is empty or a valid
    calendar date in canonical form from year 1 on, the number of
    delayed orders that the script prints as a check is the number of
    orders the dashboard's [isDelayed] marks (with dates read as
    midnight UTC). *)
Theorem X22_check_counts_dashboard_delays :
  forall v6_data : list order,
    (forall (r : order) (s : string),
       In r v6_data ->
       s = sddValue r \/ crd r = Some s ->
       s = ""
       \/ (utc_date_parse s <> None
           /\ 1 <= int_of_digits (String.substring 0 4 s))) ->
    delayed_count v6_data
    = Z.of_nat (List.length (filter (isDelayed utc_date_parse) v6_data)).
Proof.
  intros v6_data H. unfold delayed_count.
  assert (G : forall (l : list order) (n : Z),
             (forall r : order, In r l -> In r v6_data) ->
             fold_left delayed_step l n
             = n + Z.of_nat
                     (List.length (filter (isDelayed utc_date_parse) l))).
  { induction l as [| r l IH]; intros n Hl; cbn [fold_left filter].
    - cbn. lia.
    - rewrite (delayed_step_isDelayed r n
                 (fun s => H r s (Hl r (or_introl eq_refl)))).
      rewrite IH by (intros r' Hr'; apply Hl; now right).
      destruct (isDelayed utc_date_parse r); cbn [List.length]; lia. }
  rewrite (G v6_data 0 (fun r Hr => Hr)). lia.
Qed.

Lemma X22_check_counts_dashboard_delays_witness :
  exists o : order,
    parse_factory_file "A"
      [CStr "U1" :: repeat CNaN 4
         ++ [CStr "2025-12-20"; CNaN; CStr "2025-12-22"] ++ repeat CNaN 9
         ++ [CInt 50] ++ repeat CNaN 37 ++ [CInt 20] ++ repeat CNaN 6]
    = [o]
    /\ crd o = Some "2025-12-20" /\ sddValue o = "2025-12-22"
    /\ delayed_count [o] = 1
    /\ delayed_count [o]
       = Z.of_nat (List.length (filter (isDelayed utc_date_parse) [o])).
Proof.
  eexists. split; [vm_compute; reflexivity |].
  split; [reflexivity |]. split; [reflexivity |].
  split; [vm_compute; reflexivity |].
  apply X22_check_counts_dashboard_delays.
  intros r s [<- | []] [-> | E].
  - right. split; [vm_compute; discriminate |].
    vm_compute. discriminate.
  - cbn [crd] in E. injection E as <-.
    right. split; [vm_compute; discriminate |].
    vm_compute. discriminate.
Defined.

(** ** Normalised dates read back *)

Lemma rstrip_digits_app :
  forall g t : string,
    all_digits g = true -> t <> "" -> rstrip t = t -> rstrip (g ++ t) = g ++ t.
Proof.
  induction g as [| a g IH]; intros t H Ht Rt; [exact Rt |].
  cbn [all_digits] in H. apply andb_true_iff in H. destruct H as [Ha Hg].
  cbn [append rstrip]. rewrite (IH t Hg Ht Rt), (is_digit_not_space a Ha).
  reflexivity.
Qed.

Lemma upper_app :
  forall a b : string, upper (a ++ b) = upper a ++ upper b.
Proof.
  induction a as [| c a IH]; intro b; [reflexivity |].
  cbn [append upper]. now rewrite IH.
Qed.

(** A text contains a word only if it contains the word's first
    character. *)
Lemma contains_first_char :
  forall (c : ascii) (k s : string),
    contains (String c "") s = false -> contains (String c k) s = false.
Proof.
  intros c k. induction s as [| a s IH]; intro H; [reflexivity |].
  rewrite contains_char_cons in H. apply orb_false_iff in H.
  destruct H as [Hc Hs]. cbn [contains String.prefix].
  destruct (ascii_dec c a) as [-> | _];
    [rewrite Ascii.eqb_refl in Hc; discriminate Hc |].
  now apply IH.
Qed.

Lemma split_on_absent :
  forall (sep : ascii) (s : string),
    contains (String sep "") s = false -> split_on sep s = [s].
Proof.
  intros sep. induction s as [| a s IH]; intro H; [reflexivity |].
  rewrite contains_char_cons in H. apply orb_false_iff in H.
  destruct H as [Hc Hs]. cbn [split_on].
  rewrite Ascii.eqb_sym, Hc, (IH Hs). reflexivity.
Qed.

(** A character that is no digit and no dash is not in a canonical
    date. *)
Lemma canonical_no_char :
  forall (ys ms ds : string) (c : ascii),
    digits_between 4 4 ys = true -> digits_between 2 2 ms = true ->
    digits_between 2 2 ds = true ->
    is_digit c = false -> Ascii.eqb c "-" = false ->
    contains (String c "") (ys ++ "-" ++ ms ++ "-" ++ ds) = false.
Proof.
  intros ys ms ds c Hy Hm Hd Hc Hdash.
  rewrite !contains_char_app.
  rewrite (digits_no_contains ys c "" (digits_between_all _ _ _ Hy) Hc).
  rewrite (digits_no_contains ms c "" (digits_between_all _ _ _ Hm) Hc).
  rewrite (digits_no_contains ds c "" (digits_between_all _ _ _ Hd) Hc).
  rewrite !contains_char_cons, Hdash. reflexivity.
Qed.

Lemma fmt02d_two_digit_text :
  forall g : string,
    digits_between 2 2 g = true -> fmt02d (int_of_digits g) = g.
Proof.
  intros g H. destruct (two_digits g H) as (a & b & -> & Ha & Hb).
  assert (All :
    forallb
      (fun a =>
         forallb
           (fun b =>
              (fmt02d (int_of_digits (String a (String b "")))
               =? String a (String b ""))%string)
           ["0"; "1"; "2"; "3"; "4"; "5"; "6"; "7"; "8"; "9"]%char)
      ["0"; "1"; "2"; "3"; "4"; "5"; "6"; "7"; "8"; "9"]%char = true)
    by (vm_compute; reflexivity).
  rewrite forallb_forall in All.
  specialize (All a (is_digit_cases a Ha)).
  rewrite forallb_forall in All.
  specialize (All b (is_digit_cases b Hb)).
  now apply String.eqb_eq in All.
Qed.

Lemma two_is_one_or_two :
  forall g : string,
    digits_between 2 2 g = true -> digits_between 1 2 g = true.
Proof.
  intros g H. destruct (two_digits g H) as (a & b & -> & Ha & Hb).
  unfold digits_between. cbn [all_digits]. rewrite Ha, Hb. reflexivity.
Qed.

(** The month key of a canonical date. *)
Lemma get_year_month_canonical :
  forall s : string,
    canonical_shape s = true ->
    get_year_month (Some s) = Some (String.substring 0 7 s).
Proof.
  intros s C.
  destruct (canonical_fields s C) as (ys & ms & ds & E & J & Hy & Hm & Hd).
  destruct (four_digits _ Hy) as (a & b & c & d & -> & Ha & Hb & Hc & Hd').
  destruct (two_digits _ Hm) as (e & f & -> & He & Hf).
  rewrite J. unfold get_year_month. cbn [append].
  cbn [String.eqb String.substring]. unfold digits_between.
  cbn [all_digits String.length]. rewrite Ha, Hb, Hc, Hd', He, Hf.
  reflexivity.
Qed.

(** A month key is the first seven characters of its date. *)
Lemma get_year_month_prefix :
  forall (date_str : option string) (ym : string),
    get_year_month date_str = Some ym ->
    exists s : string,
      date_str = Some s /\ ym = String.substring 0 7 s
      /\ String.length ym = 7%nat.
Proof.
  intros [s |] ym H; [| discriminate H]. exists s.
  split; [reflexivity |]. unfold get_year_month in H.
  destruct (s =? "")%string; [discriminate H |].
  destruct (digits_between 4 4 (String.substring 0 4 s)
            && (String.substring 4 1 s =? "-")%string
            && digits_between 2 2 (String.substring 5 2 s)) eqn:G;
    [| discriminate H].
  injection H as <-.
  apply andb_true_iff in G. destruct G as [G G3].
  apply andb_true_iff in G. destruct G as [G1 G2].
  apply String.eqb_eq in G2.
  unfold digits_between in G1, G3.
  destruct s as [| a [| b [| c [| d [| e [| f [| g s']]]]]]];
    cbn [String.substring String.length all_digits Nat.leb] in *;
    rewrite ?andb_false_r in *; try discriminate.
  assert (Z0 : forall t : string, String.substring 0 0 t = "")
    by (intros []; reflexivity).
  rewrite !Z0 in *.
  injection G2 as ->. split; reflexivity.
Qed.

(** [X23].  A date that the parser has written, text of the shape
    [dddd-dd-dd], is read back as it is: it is taken for a date, it is
    returned unchanged, and its month key is its first seven
    characters. *)
Theorem X23_normalised_date_read_back :
  forall s : string,
    canonical_shape s = true ->
    is_date_format (CStr s) = true
    /\ parse_date_to_string (CStr s) default_year = Some s
    /\ get_year_month (Some s) = Some (String.substring 0 7 s).
Proof.
  intros s C.
  destruct (canonical_fields s C) as (ys & ms & ds & E & J & Hy & Hm & Hd).
  assert (Ay := digits_between_all _ _ _ Hy).
  assert (Am := digits_between_all _ _ _ Hm).
  assert (Ad := digits_between_all _ _ _ Hd).
  assert (Hstrip : strip s = s).
  { rewrite J. unfold strip.
    destruct (four_digits _ Hy) as (a & b & c & d & Ey & Ha & _).
    assert (L : lstrip (ys ++ "-" ++ ms ++ "-" ++ ds)
                = ys ++ "-" ++ ms ++ "-" ++ ds).
    { rewrite Ey. cbn [append lstrip].
      now rewrite (is_digit_not_space a Ha). }
    rewrite L.
    apply rstrip_digits_app; [exact Ay | discriminate |].
    change ("-" ++ ms ++ "-" ++ ds) with (String "-" (ms ++ "-" ++ ds)).
    assert (R : rstrip (ms ++ "-" ++ ds) = ms ++ "-" ++ ds).
    { apply rstrip_digits_app; [exact Am | discriminate |].
      change ("-" ++ ds) with (String "-" ds).
      cbn [rstrip]. rewrite (digits_rstrip ds Ad). reflexivity. }
    cbn [rstrip]. rewrite R. reflexivity. }
  assert (Hne : (s =? "")%string = false).
  { destruct (String.eqb_spec s "") as [-> | _]; [discriminate C |].
    reflexivity. }
  assert (Hsp : mem s special_values = false).
  { unfold mem, special_values. cbn [existsb].
    repeat match goal with
           | |- context [(s =? ?k)%string] =>
               destruct (String.eqb_spec s k) as [-> | _];
               [discriminate C |]
           end.
    reflexivity. }
  assert (Hup : upper s = s).
  { rewrite J, !upper_app.
    rewrite (digits_upper ys Ay), (digits_upper ms Am), (digits_upper ds Ad).
    reflexivity. }
  assert (Hkw : any_in ["INHOUSE"; "HAPPO"; "OK"; "RACH"] s = false).
  { unfold any_in. cbn [existsb]. rewrite J.
    rewrite !contains_first_char
      by (apply canonical_no_char; first [assumption | reflexivity]).
    reflexivity. }
  assert (Hymd : match_ymd "-" s = Some (ys, ms, ds)).
  { unfold match_ymd. rewrite E, Hy.
    now rewrite (two_is_one_or_two ms Hm), (two_is_one_or_two ds Hd). }
  assert (Hslash : split_on "/" s = [s]).
  { apply split_on_absent. rewrite J.
    apply canonical_no_char; first [assumption | reflexivity]. }
  assert (Hdot : split_on "." s = [s]).
  { apply split_on_absent. rewrite J.
    apply canonical_no_char; first [assumption | reflexivity]. }
  split; [| split].
  - unfold is_date_format. cbn [isna py_str]. cbv zeta.
    rewrite Hstrip, Hne, Hsp, Hup, Hkw. cbn [orb].
    unfold date_patterns. cbn [existsb]. rewrite Hymd. cbn [is_some].
    now rewrite !orb_true_r.
  - unfold parse_date_to_string. cbn [isna py_str]. cbv zeta.
    rewrite Hstrip. unfold match_md. rewrite Hslash.
    unfold match_ymd at 1. rewrite Hdot. rewrite Hymd.
    rewrite (fmt02d_two_digit_text ms Hm), (fmt02d_two_digit_text ds Hd).
    now rewrite <- J.
  - now apply get_year_month_canonical.
Qed.

Lemma X23_normalised_date_read_back_witness :
  canonical_shape "2025-12-24" = true
  /\ is_date_format (CStr "2025-12-24") = true
  /\ parse_date_to_string (CStr "2025-12-24") default_year = Some "2025-12-24"
  /\ get_year_month (Some "2025-12-24")
     = Some (String.substring 0 7 "2025-12-24").
Proof.
  split; [reflexivity |].
  exact (X23_normalised_date_read_back "2025-12-24" eq_refl).
Defined.

(** ** More on emitted orders *)

(** [X24].  The month keys of an emitted order: each is empty or the
    first seven characters ([YYYY-MM]) of the date it belongs to, and it
    is present whenever that date has the canonical shape. *)
Theorem X24_month_keys :
  forall (fac : string) (df : list row) (o : order),
    In o (parse_factory_file fac df) ->
    (crdYearMonth o = ""
     \/ exists c : string,
          crd o = Some c /\ crdYearMonth o = String.substring 0 7 c
          /\ String.length (crdYearMonth o) = 7%nat)
    /\ (sddYearMonth o = ""
        \/ (sddYearMonth o = String.substring 0 7 (sddValue o)
            /\ String.length (sddYearMonth o) = 7%nat))
    /\ (forall c : string,
          crd o = Some c -> canonical_shape c = true ->
          crdYearMonth o = String.substring 0 7 c)
    /\ (canonical_shape (sddValue o) = true ->
        sddYearMonth o = String.substring 0 7 (sddValue o)).
Proof.
  intros fac df o Ho.
  apply emitted_from_row in Ho. destruct Ho as (r & qs & qs' & _ & H).
  apply row_body_fields in H.
  destruct H as (_ & _ & Hc & _ & Hs & _).
  split; [| split; [| split]].
  - rewrite Hc. destruct (get_year_month (crd o)) as [ym |] eqn:G;
      [| now left].
    right. destruct (get_year_month_prefix _ _ G) as (c & Ec & Ey & Hl).
    exists c. cbn [or_empty]. now repeat split.
  - rewrite Hs.
    destruct (get_year_month (Some (sddValue o))) as [ym |] eqn:G;
      [| now left].
    right. destruct (get_year_month_prefix _ _ G) as (c & Ec & Ey & Hl).
    injection Ec as <-. cbn [or_empty]. now split.
  - intros c Ec C. rewrite Hc, Ec, (get_year_month_canonical c C).
    reflexivity.
  - intro C. rewrite Hs, (get_year_month_canonical _ C). reflexivity.
Qed.

Lemma X24_month_keys_witness :
  exists o : order,
    parse_factory_file "A"
      [CStr "U1" :: repeat CNaN 4
         ++ [CStr "2025-12-20"; CNaN; CStr "1/5"] ++ repeat CNaN 9
         ++ [CInt 50] ++ repeat CNaN 44]
    = [o]
    /\ crdYearMonth o = "2025-12" /\ sddYearMonth o = "2026-01"
    /\ (forall c : string,
          crd o = Some c -> canonical_shape c = true ->
          crdYearMonth o = String.substring 0 7 c)
    /\ (canonical_shape (sddValue o) = true ->
        sddYearMonth o = String.substring 0 7 (sddValue o)).
Proof.
  eexists. split; [vm_compute; reflexivity |].
  split; [reflexivity |]. split; [reflexivity |].
  match goal with
  | |- (forall c, crd ?o = _ -> _) /\ _ =>
      pose proof (X24_month_keys "A"
                    [CStr "U1" :: repeat CNaN 4
                       ++ [CStr "2025-12-20"; CNaN; CStr "1/5"]
                       ++ repeat CNaN 9 ++ [CInt 50] ++ repeat CNaN 44] o
                    (or_introl eq_refl)) as (_ & _ & H3 & H4)
  end.
  split; assumption.
Defined.

(** [X25].  Every emitted order is what the row body yields for a row
    of the sheet; and when the warehouse-out cell of a row that yields
    it holds a date, the order is shipped in full and no copy of the
    dashboard's rules flags it: [isDelayed] and [isWarning] are false
    whatever the date parser, and the check loop does not count it. *)
Theorem X25_shipped_never_flagged :
  forall (fac : string) (df : list row) (o : order),
    In o (parse_factory_file fac df) ->
    (exists (r : row) (qs qs' : quality_stats),
        In r df /\ row_body fac (columns_for fac) r qs = (Next o, qs'))
    /\ forall (r : row) (qs qs' : quality_stats) (v : cell),
         row_body fac (columns_for fac) r qs = (Next o, qs') ->
         nth_error r (col_wh_out_bal (columns_for fac)) = Some v ->
         is_date_format v = true ->
         completed (wh_out (production o)) = quantity o
         /\ status (wh_out (production o)) = "completed"
         /\ (forall Date_parse : string -> option Z,
               isDelayed Date_parse o = false
               /\ isWarning Date_parse o = false)
         /\ forall n : Z, delayed_step n o = n.
Proof.
  intros fac df o Ho.
  split; [exact (emitted_from_row fac df o Ho) |].
  clear Ho. intros r qs qs' v H Hv Hd.
  apply row_body_fields in H.
  destruct H as (_ & _ & _ & _ & _ & _ & Hst & _).
  destruct Hst as (_ & _ & _ & _ & _ & _ & _ & Hw).
  unfold bal_stage in Hw. rewrite Hv, (bal_date_cell v _ Hd) in Hw.
  injection Hw as Hw.
  assert (Hc : completed (wh_out (production o)) = quantity o)
    by (rewrite <- Hw; reflexivity).
  assert (Hfull : (quantity o <=? completed (wh_out (production o))) = true)
    by (apply Z.leb_le; lia).
  split; [exact Hc |]. split; [rewrite <- Hw; reflexivity |].
  split.
  - intro Date_parse. unfold isWarning, isDelayed. cbv zeta.
    rewrite Hfull.
    destruct (crd o) as [c |]; [| now split].
    destruct (_ || _ || _ || _); now split.
  - intro n. unfold delayed_step. cbv zeta. rewrite Hfull.
    destruct (crd o) as [c |]; [| reflexivity].
    now rewrite !orb_true_r.
Qed.

Lemma X25_shipped_never_flagged_witness :
  exists o : order,
    parse_factory_file "A"
      [CStr "U1" :: repeat CNaN 4
         ++ [CStr "2025-12-20"; CNaN; CStr "2025-12-22"] ++ repeat CNaN 9
         ++ [CInt 50] ++ repeat CNaN 37 ++ [CStr "12/23"] ++ repeat CNaN 6]
    = [o]
    /\ is_delayed_record o = true
    /\ completed (wh_out (production o)) = quantity o
    /\ (exists (r : row) (qs qs' : quality_stats),
           In r [CStr "U1" :: repeat CNaN 4
                   ++ [CStr "2025-12-20"; CNaN; CStr "2025-12-22"]
                   ++ repeat CNaN 9 ++ [CInt 50] ++ repeat CNaN 37
                   ++ [CStr "12/23"] ++ repeat CNaN 6]
           /\ row_body "A" (columns_for "A") r qs = (Next o, qs'))
    /\ forall (r : row) (qs qs' : quality_stats) (v : cell),
         row_body "A" (columns_for "A") r qs = (Next o, qs') ->
         nth_error r (col_wh_out_bal (columns_for "A")) = Some v ->
         is_date_format v = true ->
         completed (wh_out (production o)) = quantity o
         /\ status (wh_out (production o)) = "completed"
         /\ (forall Date_parse : string -> option Z,
               isDelayed Date_parse o = false
               /\ isWarning Date_parse o = false)
         /\ forall n : Z, delayed_step n o = n.
Proof.
  eexists. split; [vm_compute; reflexivity |].
  split; [reflexivity |]. split; [reflexivity |].
  exact (X25_shipped_never_flagged "A"
           [CStr "U1" :: repeat CNaN 4
              ++ [CStr "2025-12-20"; CNaN; CStr "2025-12-22"]
              ++ repeat CNaN 9 ++ [CInt 50] ++ repeat CNaN 37
              ++ [CStr "12/23"] ++ repeat CNaN 6] _ (or_introl eq_refl)).
Defined.

(** The six fields read without a bounds guard. *)
Lemma row_body_texts :
  forall (fac : string) (cols : columns) (r : row) qs (o : order) qs',
    row_body fac cols r qs = (Next o, qs') ->
    text_at r (col_unit cols) = Ok (unit_ o)
    /\ text_at r (col_season cols) = Ok (season o)
    /\ text_at r (col_model cols) = Ok (model o)
    /\ text_at r (col_article cols) = Ok (article o)
    /\ text_at r (col_color cols) = Ok (color o)
    /\ text_at r (col_setp cols) = Ok (poNumber o).
Proof.
  intros fac cols r qs o qs' H. unfold row_body in H.
  destruct (is_header_row r cols); [discriminate |].
  destruct (is_valid_quantity _); [| discriminate].
  cbn [negb] in H.
  apply bind_Next in H. destruct H as (qty & q0 & _ & H).
  destruct (_ && _) in H; [discriminate |].
  apply bind_Next in H. destruct H as (dest & q1 & _ & H).
  apply bind_Next in H. destruct H as (t1 & q_1 & H1 & H). apply lift_Next in H1.
  apply bind_Next in H. destruct H as (t2 & q_2 & H2 & H). apply lift_Next in H2.
  apply bind_Next in H. destruct H as (t3 & q_3 & H3 & H). apply lift_Next in H3.
  apply bind_Next in H. destruct H as (t4 & q_4 & H4 & H). apply lift_Next in H4.
  apply bind_Next in H. destruct H as (t5 & q_5 & H5 & H). apply lift_Next in H5.
  apply bind_Next in H. destruct H as (t6 & q_6 & H6 & H). apply lift_Next in H6.
  do 14 (bind_step H; clear E).
  apply ret_Next in H. subst o.
  cbn [unit_ season model article color poNumber]. now repeat split.
Qed.

Lemma text_at_Ok :
  forall (r : row) (i : nat) (s : string),
    text_at r i = Ok s ->
    (i < List.length r)%nat /\ s = text_of (nth i r CNone).
Proof.
  intros r i s H. unfold text_at, iloc in H.
  destruct (nth_error r i) as [v |] eqn:E; [| discriminate H].
  injection H as <-. split.
  - apply nth_error_Some. congruence.
  - now rewrite (nth_error_nth r i CNone E).
Qed.

(** [X26].  The unit, season, model, article, colour and PO number of
    an emitted order are the trimmed texts of their cells, which the row
    must have: a row too short for one of these six columns never
    yields an order (reading it fails and the row is counted as an
    error or skipped). *)
Theorem X26_identity_cells_required :
  forall (fac : string) (df : list row) (o : order),
    In o (parse_factory_file fac df) ->
    exists r : row,
      In r df
      /\ let cols := columns_for fac in
         Forall (fun i => (i < List.length r)%nat)
           [col_unit cols; col_season cols; col_model cols;
            col_article cols; col_color cols; col_setp cols]
         /\ unit_ o = text_of (nth (col_unit cols) r CNone)
         /\ season o = text_of (nth (col_season cols) r CNone)
         /\ model o = text_of (nth (col_model cols) r CNone)
         /\ article o = text_of (nth (col_article cols) r CNone)
         /\ color o = text_of (nth (col_color cols) r CNone)
         /\ poNumber o = text_of (nth (col_setp cols) r CNone)
         /\ (unit_ o <> "" \/ model o <> "").
Proof.
  intros fac df o Ho.
  apply emitted_from_row in Ho. destruct Ho as (r & qs & qs' & Hin & H).
  pose proof (row_body_fields _ _ _ _ _ _ H) as (Hblank & _).
  apply row_body_texts in H.
  destruct H as (H1 & H2 & H3 & H4 & H5 & H6).
  apply text_at_Ok in H1, H2, H3, H4, H5, H6.
  destruct H1 as [L1 E1], H2 as [L2 E2], H3 as [L3 E3], H4 as [L4 E4],
    H5 as [L5 E5], H6 as [L6 E6].
  exists r. split; [exact Hin |]. cbv zeta.
  split; [repeat constructor; assumption |].
  do 6 (split; [assumption |]).
  cbv zeta in Hblank.
  assert (I1 : iloc_or_none r (col_unit (columns_for fac))
               = nth (col_unit (columns_for fac)) r CNone).
  { unfold iloc_or_none.
    destruct (nth_error r _) as [v |] eqn:E.
    - now rewrite (nth_error_nth r _ CNone E).
    - apply nth_error_None in E. lia. }
  assert (I3 : iloc_or_none r (col_model (columns_for fac))
               = nth (col_model (columns_for fac)) r CNone).
  { unfold iloc_or_none.
    destruct (nth_error r _) as [v |] eqn:E.
    - now rewrite (nth_error_nth r _ CNone E).
    - apply nth_error_None in E. lia. }
  rewrite I1, I3, <- E1, <- E3 in Hblank.
  apply andb_false_iff in Hblank.
  destruct Hblank as [B | B]; apply String.eqb_neq in B; tauto.
Qed.

Lemma X26_identity_cells_required_witness :
  exists o : order,
    parse_factory_file "A"
      [CStr " U1 " :: CStr "SS26" :: repeat CNaN 15 ++ [CInt 50]
         ++ repeat CNaN 2 ++ [CStr "PO-7"] ++ repeat CNaN 41]
    = [o]
    /\ unit_ o = "U1" /\ season o = "SS26" /\ poNumber o = "PO-7"
    /\ parse_factory_file "A"
         [CStr " U1 " :: CStr "SS26" :: repeat CNaN 15 ++ [CInt 50]] = []
    /\ exists r : row,
         In r [CStr " U1 " :: CStr "SS26" :: repeat CNaN 15 ++ [CInt 50]
                 ++ repeat CNaN 2 ++ [CStr "PO-7"] ++ repeat CNaN 41]
         /\ let cols := columns_for "A" in
            Forall (fun i => (i < List.length r)%nat)
              [col_unit cols; col_season cols; col_model cols;
               col_article cols; col_color cols; col_setp cols]
            /\ unit_ o = text_of (nth (col_unit cols) r CNone)
            /\ season o = text_of (nth (col_season cols) r CNone)
            /\ model o = text_of (nth (col_model cols) r CNone)
            /\ article o = text_of (nth (col_article cols) r CNone)
            /\ color o = text_of (nth (col_color cols) r CNone)
            /\ poNumber o = text_of (nth (col_setp cols) r CNone)
            /\ (unit_ o <> "" \/ model o <> "").
Proof.
  eexists. split; [vm_compute; reflexivity |].
  do 3 (split; [reflexivity |]).
  split; [vm_compute; reflexivity |].
  exact (X26_identity_cells_required "A"
           [CStr " U1 " :: CStr "SS26" :: repeat CNaN 15 ++ [CInt 50]
              ++ repeat CNaN 2 ++ [CStr "PO-7"] ++ repeat CNaN 41] _
           (or_introl eq_refl)).
Defined.

(** ** Which rows yield an order *)

Lemma py_float_strip :
  forall s : string, py_float (strip s) = py_float s.
Proof. intro s. unfold py_float. now rewrite strip_idem. Qed.

Lemma iloc_or_none_cases :
  forall (r : row) (i : nat),
    iloc_or_none r i = CNone \/ In (iloc_or_none r i) r.
Proof.
  intros r i. unfold iloc_or_none.
  destruct (nth_error r i) as [v |] eqn:E; [right | now left].
  eapply nth_error_In; eassumption.
Qed.

Section RegularRows.

(** A row none of whose cells reads as an infinity or a NaN. *)
Variable r : row.
Hypothesis r_finite :
  forall v : cell,
    In v r -> isna v = false ->
    forall x : pyfloat,
      py_float (py_str v) = Some x -> exists m e : Z, x = FFin m e.

Local Abbreviation succeeds m :=
  (forall qs : quality_stats, exists a qs', m qs = (Next a, qs'))
  (only parsing).

Lemma succeeds_bind :
  forall (A B : Type) (m : M A) (k : A -> M B),
    succeeds m -> (forall a : A, succeeds (k a)) -> succeeds (bind m k).
Proof.
  intros A B m k Hm Hk qs. unfold bind.
  destruct (Hm qs) as (a & qs1 & E). rewrite E. apply Hk.
Qed.

Lemma succeeds_ret : forall (A : Type) (a : A), succeeds (ret a).
Proof. intros A a qs. now exists a, qs. Qed.

Lemma succeeds_lift :
  forall (A : Type) (x : res A),
    (exists a : A, x = Ok a) -> succeeds (lift x).
Proof. intros A x (a & ->) qs. now exists a, qs. Qed.

Lemma succeeds_if :
  forall (A : Type) (c : bool) (m1 m2 : M A),
    succeeds m1 -> succeeds m2 -> succeeds (if c then m1 else m2).
Proof. intros A [|] m1 m2 H1 H2; assumption. Qed.

Lemma succeeds_count_empty_destination : succeeds count_empty_destination.
Proof. intro qs. unfold count_empty_destination. eauto. Qed.

Lemma succeeds_count_invalid_date : succeeds count_invalid_date.
Proof. intro qs. unfold count_invalid_date. eauto. Qed.

Lemma finite_cell :
  forall (i : nat) (x : pyfloat),
    py_float (strip (py_str (iloc_or_none r i))) = Some x ->
    isna (iloc_or_none r i) = false ->
    exists m e : Z, x = FFin m e.
Proof.
  intros i x H Hna. rewrite py_float_strip in H.
  destruct (iloc_or_none_cases r i) as [E | Hin].
  - rewrite E in Hna. discriminate Hna.
  - exact (r_finite _ Hin Hna x H).
Qed.

Lemma finite_int_if_numeric :
  forall (A : Type) (inj : Z -> A) (dflt : A) (i : nat),
    exists a : A, int_if_numeric inj dflt (iloc_or_none r i) = Ok a.
Proof.
  intros A inj dflt i. unfold int_if_numeric, notna.
  destruct (isna (iloc_or_none r i)) eqn:Hna; cbn [negb andb]; [eauto |].
  destruct (is_numeric (iloc_or_none r i)) eqn:Hn; [| eauto].
  unfold is_numeric in Hn. rewrite Hna in Hn.
  destruct (_ || _) in Hn; [discriminate |].
  destruct (any_in _ _) in Hn; [discriminate |].
  destruct (py_float (strip (py_str (iloc_or_none r i)))) as [x |] eqn:F;
    [| discriminate].
  destruct (finite_cell i x F Hna) as (m & e & ->).
  rewrite py_float_strip in F. unfold int_float. rewrite F.
  cbn [py_int]. eauto.
Qed.

Lemma finite_bal_column :
  forall (i : nat) (q : option Z),
    exists st : stage, parse_bal_column (iloc_or_none r i) q = Ok st.
Proof.
  intros i q.
  destruct (parse_bal_column (iloc_or_none r i) q) as [st | x] eqn:E;
    [eauto |].
  destruct (bal_raise_inv _ _ _ E) as (_ & Hn & neg & F).
  destruct (is_numeric_inv _ Hn) as (Hna & _).
  destruct (finite_cell i _ F Hna) as (m & e & D). discriminate D.
Qed.

Lemma finite_bal_stage :
  forall (i : nat) (q : Z), exists st : stage, bal_stage r i q = Ok st.
Proof.
  intros i q. unfold bal_stage.
  pose proof (finite_bal_column i (Some q)) as H.
  unfold iloc_or_none in H.
  destruct (nth_error r i); [exact H | eauto].
Qed.

Lemma text_at_in_range :
  forall i : nat,
    (i < List.length r)%nat -> exists s : string, text_at r i = Ok s.
Proof.
  intros i Hi. unfold text_at, iloc.
  destruct (nth_error r i) eqn:E; [eauto |].
  apply nth_error_None in E. lia.
Qed.

(** Such a row yields an order as soon as it passes the three tests at
    the head of the loop and has the six cells read without a guard. *)
Lemma regular_row_body :
  forall (fac : string) (cols : columns) (qs : quality_stats),
    is_header_row r cols = false ->
    is_valid_quantity (iloc_or_none r (col_quantity cols)) = true ->
    ((text_of (iloc_or_none r (col_unit cols)) =? "")%string
     && (text_of (iloc_or_none r (col_model cols)) =? "")%string) = false ->
    Forall (fun i => (i < List.length r)%nat)
      [col_unit cols; col_season cols; col_model cols;
       col_article cols; col_color cols; col_setp cols] ->
    exists (o : order) (qs' : quality_stats),
      row_body fac cols r qs = (Next o, qs').
Proof.
  intros fac cols qs Hh Hv Hb Hcells. revert qs.
  change (succeeds (row_body fac cols r)).
  inversion_clear Hcells as [| ? ? L1 Hc].
  inversion_clear Hc as [| ? ? L2 Hc'].
  inversion_clear Hc' as [| ? ? L3 Hc].
  inversion_clear Hc as [| ? ? L4 Hc'].
  inversion_clear Hc' as [| ? ? L5 Hc].
  inversion_clear Hc as [| ? ? L6 _].
  assert (Hq : exists q : Z,
             int_float (strip (py_str (iloc_or_none r (col_quantity cols))))
             = Ok q).
  { unfold is_valid_quantity in Hv.
    destruct (isna (iloc_or_none r (col_quantity cols))) eqn:Hna;
      [discriminate |].
    destruct (mem _ invalid_values); [discriminate |].
    destruct (py_float (strip (py_str (iloc_or_none r (col_quantity cols)))))
      as [x |] eqn:F; [| discriminate].
    destruct (finite_cell _ x F Hna) as (m & e & ->).
    unfold int_float. rewrite F. cbn [py_int]. eauto. }
  unfold row_body. rewrite Hh, Hv. cbn [negb]. cbv zeta. rewrite Hb.
  unfold drop_zero_time.
  apply succeeds_bind; [now apply succeeds_lift | intro qty].
  repeat first
    [ apply succeeds_bind; [| intro]
    | apply succeeds_if
    | apply succeeds_ret
    | apply succeeds_count_empty_destination
    | apply succeeds_count_invalid_date
    | (apply succeeds_lift;
       first [ now apply text_at_in_range
             | apply finite_int_if_numeric
             | apply finite_bal_stage
             | apply finite_bal_column ]) ].
Qed.

End RegularRows.

(** [X27].  A sufficient condition for every row of a sheet to become
    an order: the row is no header row, its quantity is valid, unit and
    model are not both blank, it has the six cells that are read without
    a bounds guard, and none of its cells reads as an infinity or a
    NaN.  Then the parser returns one order per row and counts neither
    an error nor a skipped row. *)
Theorem X27_regular_rows_yield_orders :
  forall (fac : string) (df : list row),
    let cols := columns_for fac in
    (forall r : row,
       In r df ->
       (forall v : cell,
          In v r -> isna v = false ->
          forall x : pyfloat,
            py_float (py_str v) = Some x -> exists m e : Z, x = FFin m e)
       /\ is_header_row r cols = false
       /\ is_valid_quantity (iloc_or_none r (col_quantity cols)) = true
       /\ ((text_of (iloc_or_none r (col_unit cols)) =? "")%string
           && (text_of (iloc_or_none r (col_model cols)) =? "")%string)
          = false
       /\ Forall (fun i => (i < List.length r)%nat)
            [col_unit cols; col_season cols; col_model cols;
             col_article cols; col_color cols; col_setp cols]) ->
    List.length (parse_factory_file fac df) = List.length df
    /\ error_count (run_rows fac cols df) = 0
    /\ skipped_count (run_rows fac cols df) = 0.
Proof.
  intros fac df cols H. unfold parse_factory_file, run_rows. fold cols.
  assert (G : forall (l : list row) (st : parse_state),
             (forall r : row, In r l -> In r df) ->
             List.length (records (fold_left (row_step fac cols) l st))
             = (List.length (records st) + List.length l)%nat
             /\ error_count (fold_left (row_step fac cols) l st)
                = error_count st
             /\ skipped_count (fold_left (row_step fac cols) l st)
                = skipped_count st).
  { induction l as [| r l IH]; intros st Hl; cbn [fold_left List.length].
    - repeat split. lia.
    - destruct (H r (Hl r (or_introl eq_refl)))
        as (Hfin & Hh & Hv & Hb & Hcells).
      destruct (regular_row_body r Hfin fac cols (stats st) Hh Hv Hb Hcells)
        as (o & qs' & E).
      destruct (IH (row_step fac cols st r)
                  (fun r' Hr' => Hl r' (or_intror Hr'))) as (I1 & I2 & I3).
      rewrite I1, I2, I3. unfold row_step. rewrite E.
      cbn [records error_count skipped_count]. rewrite length_app.
      cbn [List.length]. repeat split. lia. }
  destruct (G df initial_state (fun r Hr => Hr)) as (G1 & G2 & G3).
  rewrite G1, G2, G3. cbn. auto.
Qed.

Lemma X27_regular_rows_yield_orders_witness :
  List.length
    (parse_factory_file "A"
       [CStr "U1" :: CStr "SS26" :: repeat CNaN 15 ++ [CInt 50]
          ++ repeat CNaN 2 ++ [CStr "PO-7"] ++ repeat CNaN 41;
        CStr "U2" :: CStr "SS26" :: repeat CNaN 15 ++ [CStr "1200"]
          ++ repeat CNaN 2 ++ [CStr "PO-8"] ++ repeat CNaN 41]) = 2%nat
  /\ error_count
       (run_rows "A" (columns_for "A")
          [CStr "U1" :: CStr "SS26" :: repeat CNaN 15 ++ [CInt 50]
             ++ repeat CNaN 2 ++ [CStr "PO-7"] ++ repeat CNaN 41;
           CStr "U2" :: CStr "SS26" :: repeat CNaN 15 ++ [CStr "1200"]
             ++ repeat CNaN 2 ++ [CStr "PO-8"] ++ repeat CNaN 41]) = 0
  /\ skipped_count
       (run_rows "A" (columns_for "A")
          [CStr "U1" :: CStr "SS26" :: repeat CNaN 15 ++ [CInt 50]
             ++ repeat CNaN 2 ++ [CStr "PO-7"] ++ repeat CNaN 41;
           CStr "U2" :: CStr "SS26" :: repeat CNaN 15 ++ [CStr "1200"]
             ++ repeat CNaN 2 ++ [CStr "PO-8"] ++ repeat CNaN 41]) = 0.
Proof.
  apply (X27_regular_rows_yield_orders "A").
  intros r Hr.
  assert (Cells : forall v : cell,
             In v [CStr "U1"; CStr "U2"; CStr "SS26"; CNaN; CInt 50;
                   CStr "1200"; CStr "PO-7"; CStr "PO-8"] ->
             isna v = false ->
             forall x : pyfloat,
               py_float (py_str v) = Some x -> exists m e : Z, x = FFin m e).
  { intros v Hv Hna x Hx. cbn [In] in Hv.
    repeat (destruct Hv as [<- | Hv]; [| ]);
      try destruct Hv; try discriminate Hna;
      vm_compute in Hx; try discriminate Hx;
      injection Hx as <-; eauto. }
  destruct Hr as [<- | [<- | []]].
  - split.
    + intros v Hv. apply Cells. vm_compute in Hv. cbn [In].
      repeat (destruct Hv as [<- | Hv]; [tauto |]). destruct Hv.
    + split; [reflexivity |]. split; [reflexivity |].
      split; [reflexivity |]. repeat constructor.
  - split.
    + intros v Hv. apply Cells. vm_compute in Hv. cbn [In].
      repeat (destruct Hv as [<- | Hv]; [tauto |]). destruct Hv.
    + split; [reflexivity |]. split; [reflexivity |].
      split; [reflexivity |]. repeat constructor.
Defined.

(** An invalid-quantity token is no infinity. *)
Lemma invalid_value_not_infinite :
  forall (s : string) (neg : bool),
    py_float s = Some (FInf neg) -> mem s invalid_values = false.
Proof.
  intros s neg H. unfold mem, invalid_values. cbn [existsb].
  repeat match goal with
         | |- context [(s =? ?k)%string] =>
             destruct (String.eqb_spec s k) as [-> | _];
             [vm_compute in H; discriminate H |]
         end.
  reflexivity.
Qed.

(** [X28].  A quantity that reads as plus infinity passes the validity
    test ([float('inf') > 0]) and then breaks the conversion to [int]:
    the row is counted as an error, not as an invalid quantity, and
    yields no order. *)
Theorem X28_infinite_quantity_is_error :
  forall (fac : string) (cols : columns) (r : row) (st : parse_state),
    is_header_row r cols = false ->
    isna (iloc_or_none r (col_quantity cols)) = false ->
    py_float (strip (py_str (iloc_or_none r (col_quantity cols))))
    = Some (FInf false) ->
    is_valid_quantity (iloc_or_none r (col_quantity cols)) = true
    /\ row_body fac cols r (stats st) = (Except OverflowError, stats st)
    /\ row_step fac cols st r
       = {| records := records st; skipped_count := skipped_count st;
            error_count := error_count st + 1; stats := stats st |}.
Proof.
  intros fac cols r st Hh Hna Hf.
  assert (Hv : is_valid_quantity (iloc_or_none r (col_quantity cols)) = true).
  { unfold is_valid_quantity.
    rewrite Hna, (invalid_value_not_infinite _ _ Hf), Hf. reflexivity. }
  assert (Hb : row_body fac cols r (stats st)
               = (Except OverflowError, stats st)).
  { unfold row_body. rewrite Hh, Hv. cbn [negb]. cbv zeta.
    unfold bind at 1. unfold lift, int_float. rewrite Hf. reflexivity. }
  split; [exact Hv |]. split; [exact Hb |].
  unfold row_step. rewrite Hb. reflexivity.
Qed.

Lemma X28_infinite_quantity_is_error_witness :
  is_valid_quantity
    (iloc_or_none (CStr "U1" :: repeat CNaN 16 ++ [CStr "inf"])
       (col_quantity COLUMNS_A)) = true
  /\ row_body "A" COLUMNS_A (CStr "U1" :: repeat CNaN 16 ++ [CStr "inf"])
       (stats initial_state)
     = (Except OverflowError, stats initial_state)
  /\ row_step "A" COLUMNS_A initial_state
       (CStr "U1" :: repeat CNaN 16 ++ [CStr "inf"])
     = {| records := records initial_state;
          skipped_count := skipped_count initial_state;
          error_count := error_count initial_state + 1;
          stats := stats initial_state |}.
Proof.
  apply (X28_infinite_quantity_is_error "A" COLUMNS_A
           (CStr "U1" :: repeat CNaN 16 ++ [CStr "inf"]) initial_state);
    vm_compute; reflexivity.
Defined.
